(** * msi-ec: register codec, fan mode, presets and firmware date

    A shallow embedding of the sysfs handlers of [msi-ec.c] (MSI Modern 15
    embedded-controller driver) and the properties of its specification.

    C integers are [Z]; a [u8] is a [Z] in [0, 256) with the truncation
    written out where the C code narrows.  The embedded controller is a
    register file reached through the kernel's [ec_read] / [ec_write]; every
    handler is a computation in a small state monad over that controller. *)

From Stdlib Require Import ZArith List String Ascii Bool Lia DecimalString.
Import ListNotations.
Open Scope Z_scope.

(** ** The embedded controller behind [ec_read] / [ec_write] *)

(** Narrowing conversion to [u8]. *)
Definition u8 (z : Z) : Z := z mod 256.

(** What the transport answers to one call: it serves it, or it fails with
    an errno. *)
Inductive outcome : Type :=
| Good
| Bad (errno : positive).

(** One transport call as it happened, with its answer. *)
Inductive event : Type :=
| Rd (addr : Z) (o : outcome)
| Wr (addr data : Z) (o : outcome).

(** The controller: its registers, the answers the transport will give to
    the coming calls (served in order; once exhausted every call is
    served), and the calls made so far, oldest first. *)
Record EC : Type := mkEC {
  regs : Z -> Z;
  script : list outcome;
  trace : list event
}.

(** No transport call will fail. *)
Definition quiet (st : EC) : Prop := Forall (fun o => o = Good) (script st).

Definition M (A : Type) : Type := EC -> A * EC.

Definition ret {A : Type} (a : A) : M A := fun st => (a, st).

Definition bind {A B : Type} (m : M A) (k : A -> M B) : M B :=
  fun st => let (a, st') := m st in k a st'.

Notation "x <- m ;; k" := (bind m (fun x => k))
  (at level 61, m at next level, right associativity).

(** A value, or the negative errno a handler returns. *)
Inductive result (A : Type) : Type :=
| Ok (a : A)
| Errno (code : Z).
Arguments Ok {A} a.
Arguments Errno {A} code.

Definition next_outcome (st : EC) : outcome * list outcome :=
  match script st with
  | [] => (Good, [])
  | o :: os => (o, os)
  end.

Definition poke (f : Z -> Z) (addr data : Z) : Z -> Z :=
  fun a => if a =? addr then data else f a.

(** [int ec_read(u8 addr, u8 *val)]: 0 and the byte in [*val], or a
    negative errno with [*val] untouched. *)
Definition ec_read (addr : Z) : M (result Z) := fun st =>
  let (o, os) := next_outcome st in
  match o with
  | Good => (Ok (regs st addr), mkEC (regs st) os (trace st ++ [Rd addr Good]))
  | Bad e => (Errno (Z.neg e), mkEC (regs st) os (trace st ++ [Rd addr (Bad e)]))
  end.

(** [int ec_write(u8 addr, u8 val)]: 0 with the register written, or a
    negative errno with the register as it was. *)
Definition ec_write (addr data : Z) : M Z := fun st =>
  let (o, os) := next_outcome st in
  match o with
  | Good => (0, mkEC (poke (regs st) addr data) os (trace st ++ [Wr addr data Good]))
  | Bad e => (Z.neg e, mkEC (regs st) os (trace st ++ [Wr addr data (Bad e)]))
  end.

(** ** Bit codec *)

(** [1UL << index] and [~x] on a 64-bit [unsigned long]. *)
Definition bit_ul (index : Z) : Z := Z.shiftl 1 index.
Definition not_ul (x : Z) : Z := Z.lxor x (Z.ones 64).

Definition ec_write_bit (addr index : Z) (set : bool) : M Z :=
  r <- ec_read addr ;;
  match r with
  | Errno result => ret result
  | Ok data =>
      let data :=
        if set then u8 (Z.lor data (bit_ul index))
        else u8 (Z.land data (not_ul (bit_ul index))) in
      ec_write addr data
  end.

Definition is_bit_set (index byte : Z) : bool :=
  negb (Z.land (Z.shiftr byte index) 1 =? 0).

(** [ec_read_seq]: [len] single-byte reads from [addr] on, stopping at the
    first failure.  [addr + i] is narrowed to [u8] by the call. *)
Fixpoint ec_read_seq_from (addr : Z) (i : Z) (n : nat) (buf : list Z)
  : M (result (list Z)) :=
  match n with
  | O => ret (Ok buf)
  | S n' =>
      r <- ec_read (u8 (addr + i)) ;;
      match r with
      | Errno result => ret (Errno result)
      | Ok b => ec_read_seq_from addr (i + 1) n' (buf ++ [b])
      end
  end.

Definition ec_read_seq (addr len : Z) : M (result (list Z)) :=
  ec_read_seq_from addr 0 (Z.to_nat len) [].

(** The byte [ec_write_bit] stores, bit by bit. *)
Definition with_bit (index : Z) (set : bool) (data : Z) : Z :=
  if set then u8 (Z.lor data (bit_ul index))
  else u8 (Z.land data (not_ul (bit_ul index))).

(** ** Text *)

(** The newline of the C literals. *)
Definition nl : string := String (ascii_of_N 10) EmptyString.

(** [sprintf(buf, "%s\n", s)]. *)
Definition line (s : string) : string := (s ++ nl)%string.

(** [streq(x, y)]: [strcmp(x, y) == 0 || strcmp(x, y "\n") == 0]. *)
Definition streq (x y : string) : bool :=
  String.eqb x y || String.eqb x (y ++ nl)%string.

Definition EINVAL : Z := 22.

(** Decimal digits of a non-negative integer. *)
Definition digits (z : Z) : string := NilZero.string_of_uint (N.to_uint (Z.to_N z)).

Fixpoint zeros (n : nat) : string :=
  match n with
  | O => EmptyString
  | S n' => String "0"%char (zeros n')
  end.

(** The kernel's [%0Wd]: sign first, then zeros up to [width] characters in
    all, then the digits.  [%i] is [fmt_d 0]. *)
Definition fmt_d (width : nat) (z : Z) : string :=
  let ds := digits (Z.abs z) in
  if z <? 0
  then ("-" ++ zeros (width - 1 - String.length ds) ++ ds)%string
  else (zeros (width - String.length ds) ++ ds)%string.

(** *** The kernel's [sscanf], for the two formats the driver uses *)

(** A format, parsed: [%0Wd] conversions and literal characters. *)
Inductive directive : Type :=
| Conv_d (width : nat)
| Lit (c : ascii).

(** The kernel's [isspace] and [isdigit]. *)
Definition isspace (c : ascii) : bool :=
  let n := N_of_ascii c in
  ((9 <=? n) && (n <=? 13) || (n =? 32) || (n =? 160))%N.

Definition isdigit (c : ascii) : bool :=
  let n := N_of_ascii c in ((48 <=? n) && (n <=? 57))%N.

Fixpoint skip_spaces (s : string) : string :=
  match s with
  | String c s' => if isspace c then skip_spaces s' else s
  | EmptyString => s
  end.

(** [_parse_integer_limit]: at most [max_chars] decimal digits. *)
Fixpoint parse_digits (max_chars : nat) (acc : Z) (s : string) : Z * string :=
  match max_chars, s with
  | S m, String c s' =>
      if isdigit c
      then parse_digits m (10 * acc + (Z.of_N (N_of_ascii c) - 48)) s'
      else (acc, s)
  | _, _ => (acc, s)
  end.

(** [simple_strntoll(str, width, &next, 10)]. *)
Definition simple_strntoll (width : nat) (s : string) : Z * string :=
  match s with
  | String "-"%char s' =>
      if (0 <? width)%nat
      then let (v, rest) := parse_digits (width - 1) 0 s' in (- v, rest)
      else parse_digits width 0 s
  | _ => parse_digits width 0 s
  end.

(** One [%0Wd] against the input: the value and what is left, or nothing
    when the input does not start a number. *)
Definition scan_d (width : nat) (str : string) : option (Z * string) :=
  match str with
  | EmptyString => None
  | _ =>
      let str := skip_spaces str in
      let digit :=
        match str with
        | String "-"%char rest =>
            if (width =? 1)%nat then None
            else match rest with String d _ => Some d | EmptyString => None end
        | String d _ => Some d
        | EmptyString => None
        end in
      match digit with
      | Some d => if isdigit d then Some (simple_strntoll width str) else None
      | None => None
      end
  end.

(** [vsscanf]: the values converted, in order; it stops at the first
    directive the input does not match, and whatever was not converted is
    not assigned. *)
Fixpoint vsscanf (fmt : list directive) (str : string) : list Z :=
  match fmt with
  | [] => []
  | Lit c :: fmt' =>
      match str with
      | String c' str' => if Ascii.eqb c c' then vsscanf fmt' str' else []
      | EmptyString => []
      end
  | Conv_d w :: fmt' =>
      match scan_d w str with
      | Some (v, next) => v :: vsscanf fmt' next
      | None => []
      end
  end.

(** ["%02d%02d%04d"] and ["%02d:%02d:%02d"]. *)
Definition fmt_date : list directive := [Conv_d 2; Conv_d 2; Conv_d 4].
Definition fmt_time : list directive :=
  [Conv_d 2; Lit ":"%char; Conv_d 2; Lit ":"%char; Conv_d 2].

(** The C string in a zero-terminated buffer. *)
Fixpoint cstring (bytes : list Z) : string :=
  match bytes with
  | [] => EmptyString
  | b :: bs => if b =? 0 then EmptyString
               else String (ascii_of_N (Z.to_N b)) (cstring bs)
  end.

(** The bytes of a text, as the controller holds them. *)
Fixpoint bytes_of (s : string) : list Z :=
  match s with
  | EmptyString => []
  | String c s' => Z.of_N (N_of_ascii c) :: bytes_of s'
  end.

(** ** constants.h *)

(** The addresses, bit positions, calibration bounds and preset tables of
    [constants.h] are hardware data: the handlers take the header as a
    parameter and are verified for every header, under the conditions on
    it that each property states. *)
Record constants : Type := {
  MSI_EC_FAN_MODE_ADDRESS : Z;
  MSI_EC_FAN_MODE_SILENT_BIT : Z;
  MSI_EC_FAN_MODE_ADVANCED_BIT : Z;
  MSI_EC_FAN_MODE_BASIC_BIT : Z;
  MSI_EC_PRESET_MEMORY_TABLE : list Z;
  MSI_EC_PRESET_VALUE_TABLE : list (list Z);
  MSI_EC_PRESET_COLUMN_KBD_BL : Z;
  MSI_EC_PRESET_COLUMN_SILENT_FLAG : Z;
  MSI_EC_PRESET_SUPER_BATTERY : Z;
  MSI_EC_PRESET_SILENT : Z;
  MSI_EC_PRESET_BALANCED : Z;
  MSI_EC_PRESET_HIGH_PERFORMANCE : Z;
  MSI_EC_FW_DATE_ADDRESS : Z;
  MSI_EC_FW_DATE_LENGTH : Z;
  MSI_EC_FW_TIME_ADDRESS : Z;
  MSI_EC_FW_TIME_LENGTH : Z;
  MSI_EC_CPU_REALTIME_FAN_SPEED_ADDRESS : Z;
  MSI_EC_CPU_REALTIME_FAN_SPEED_BASE_MIN : Z;
  MSI_EC_CPU_REALTIME_FAN_SPEED_BASE_MAX : Z
}.

(** [l[i]] for a C array of [u8]. *)
Definition ix (l : list Z) (i : Z) : Z := nth (Z.to_nat i) l 0.

(** [0, 1, ..., n-1]: the values a [for] counter takes. *)
Definition upto (n : nat) : list Z := map Z.of_nat (seq 0 n).

(** The automatic [int] variables of [fw_release_date_show], which the
    handler does not initialise. *)
Record datetime : Type := {
  year : Z; month : Z; day : Z; hour : Z; minute : Z; second : Z
}.

(** ** The handlers *)

Section Handlers.

Variable K : constants.

Definition fan_mode_show : M (result string) :=
  r <- ec_read (MSI_EC_FAN_MODE_ADDRESS K) ;;
  match r with
  | Errno result => ret (Errno result)
  | Ok rdata =>
      if is_bit_set (MSI_EC_FAN_MODE_SILENT_BIT K) rdata then
        ret (Ok (line "silent"))
      else if is_bit_set (MSI_EC_FAN_MODE_ADVANCED_BIT K) rdata then
        ret (Ok (line "advanced"))
      else if is_bit_set (MSI_EC_FAN_MODE_BASIC_BIT K) rdata then
        ret (Ok (line "basic"))
      else
        ret (Ok (line "auto"))
  end.

Definition fan_mode_store (buf : string) (count : Z) : M Z :=
  let result := - EINVAL in
  let is_auto := streq buf "auto" in
  let is_silent := streq buf "silent" in
  let is_basic := streq buf "basic" in
  let is_adv := streq buf "advanced" in
  if negb is_auto && negb is_basic && negb is_adv && negb is_silent then
    ret result
  else
    result <- ec_write_bit (MSI_EC_FAN_MODE_ADDRESS K)
                           (MSI_EC_FAN_MODE_BASIC_BIT K) is_basic ;;
    if result <? 0 then ret result else
    result <- ec_write_bit (MSI_EC_FAN_MODE_ADDRESS K)
                           (MSI_EC_FAN_MODE_ADVANCED_BIT K) is_adv ;;
    if result <? 0 then ret result else
    result <- ec_write_bit (MSI_EC_FAN_MODE_ADDRESS K)
                           (MSI_EC_FAN_MODE_SILENT_BIT K) is_silent ;;
    if result <? 0 then ret result else
    ret count.

(** The table cell [MSI_EC_PRESET_VALUE_TABLE[v][c]]. *)
Definition cell (v c : Z) : Z :=
  ix (nth (Z.to_nat v) (MSI_EC_PRESET_VALUE_TABLE K) []) c.

(** The counters of the two loops: [ARRAY_SIZE] of each table. *)
Definition columns : list Z := upto (List.length (MSI_EC_PRESET_MEMORY_TABLE K)).
Definition rows : list Z := upto (List.length (MSI_EC_PRESET_VALUE_TABLE K)).

(** The inner loop of [preset_show] from column [c] on: the final value of
    [match]. *)
Fixpoint preset_show_columns (v : Z) (cs : list Z) : M bool :=
  match cs with
  | [] => ret true
  | c :: cs' =>
      let addr := ix (MSI_EC_PRESET_MEMORY_TABLE K) c in
      let value := cell v c in
      r <- ec_read addr ;;
      match r with
      | Errno _ => ret false
      | Ok rdata =>
          if c =? MSI_EC_PRESET_COLUMN_KBD_BL K then
            preset_show_columns v cs'
          else if c =? MSI_EC_PRESET_COLUMN_SILENT_FLAG K then
            if value =? Z.b2z (is_bit_set (MSI_EC_FAN_MODE_SILENT_BIT K) rdata)
            then preset_show_columns v cs'
            else ret false
          else if negb (value =? rdata) then
            ret false
          else
            preset_show_columns v cs'
      end
  end.

(** The [switch (v)] of [preset_show]. *)
Definition preset_name (v : Z) : option string :=
  if v =? MSI_EC_PRESET_SUPER_BATTERY K then Some "super_battery"%string
  else if v =? MSI_EC_PRESET_SILENT K then Some "silent"%string
  else if v =? MSI_EC_PRESET_BALANCED K then Some "balanced"%string
  else if v =? MSI_EC_PRESET_HIGH_PERFORMANCE K then Some "high_performance"%string
  else None.

(** The outer loop of [preset_show] from row [v] on. *)
Fixpoint preset_show_rows (vs : list Z) : M (result string) :=
  match vs with
  | [] => ret (Ok (line "custom"))
  | v :: vs' =>
      match_ <- preset_show_columns v columns ;;
      if match_ then
        match preset_name v with
        | Some name => ret (Ok (line name))
        | None => preset_show_rows vs'
        end
      else preset_show_rows vs'
  end.

Definition preset_show : M (result string) := preset_show_rows rows.

(** The [if]/[else if] chain that opens [preset_store]. *)
Definition preset_index (buf : string) : option Z :=
  if streq buf "super_battery" then Some (MSI_EC_PRESET_SUPER_BATTERY K)
  else if streq buf "silent" then Some (MSI_EC_PRESET_SILENT K)
  else if streq buf "balanced" then Some (MSI_EC_PRESET_BALANCED K)
  else if streq buf "high_performance" then Some (MSI_EC_PRESET_HIGH_PERFORMANCE K)
  else None.

(** The column loop of [preset_store].  A negative [result] only makes the
    loop print to the kernel log. *)
Fixpoint preset_store_columns (index : Z) (cs : list Z) : M unit :=
  match cs with
  | [] => ret tt
  | c :: cs' =>
      let addr := ix (MSI_EC_PRESET_MEMORY_TABLE K) c in
      let value := cell index c in
      result <- (if c =? MSI_EC_PRESET_COLUMN_SILENT_FLAG K
                 then ec_write_bit addr (MSI_EC_FAN_MODE_SILENT_BIT K)
                                   (negb (value =? 0))
                 else ec_write addr value) ;;
      preset_store_columns index cs'
  end.

(** The block under [Validate fan modes] that ends [preset_store]. *)
Definition preset_validate_fan_modes (index : Z) : M unit :=
  if negb (index =? MSI_EC_PRESET_HIGH_PERFORMANCE K) then
    _ <- ec_write_bit (MSI_EC_FAN_MODE_ADDRESS K)
                      (MSI_EC_FAN_MODE_ADVANCED_BIT K) false ;;
    _ <- ec_write_bit (MSI_EC_FAN_MODE_ADDRESS K)
                      (MSI_EC_FAN_MODE_BASIC_BIT K) false ;;
    ret tt
  else ret tt.

Definition preset_store (buf : string) (count : Z) : M Z :=
  let result := - EINVAL in
  match preset_index buf with
  | None => ret result
  | Some index =>
      _ <- preset_store_columns index columns ;;
      _ <- preset_validate_fan_modes index ;;
      ret count
  end.

(** What the two [sscanf] calls leave in the six variables, and the line
    [sprintf] makes of them. *)
Definition scan_date (init : datetime) (rdate : string) : datetime :=
  let vs := vsscanf fmt_date rdate in
  {| month := nth 0 vs (month init);
     day := nth 1 vs (day init);
     year := nth 2 vs (year init);
     hour := hour init; minute := minute init; second := second init |}.

Definition scan_time (init : datetime) (rtime : string) : datetime :=
  let vs := vsscanf fmt_time rtime in
  {| month := month init; day := day init; year := year init;
     hour := nth 0 vs (hour init);
     minute := nth 1 vs (minute init);
     second := nth 2 vs (second init) |}.

Definition print_datetime (d : datetime) : string :=
  (fmt_d 4 (year d) ++ "/" ++ fmt_d 2 (month d) ++ "/" ++ fmt_d 2 (day d)
   ++ " " ++ fmt_d 2 (hour d) ++ ":" ++ fmt_d 2 (minute d) ++ ":"
   ++ fmt_d 2 (second d) ++ nl)%string.

Definition fw_release_date_show (init : datetime) : M (result string) :=
  r <- ec_read_seq (MSI_EC_FW_DATE_ADDRESS K) (MSI_EC_FW_DATE_LENGTH K) ;;
  match r with
  | Errno result => ret (Errno result)
  | Ok rdate =>
      let d := scan_date init (cstring rdate) in
      r <- ec_read_seq (MSI_EC_FW_TIME_ADDRESS K) (MSI_EC_FW_TIME_LENGTH K) ;;
      match r with
      | Errno result => ret (Errno result)
      | Ok rtime =>
          let d := scan_time d (cstring rtime) in
          ret (Ok (print_datetime d))
      end
  end.

(** [100 * (rdata - MIN) / (MAX - MIN)] in C's [int], whose division
    truncates; with [MIN = MAX] the C division traps. *)
Definition fan_speed_percent (rdata : Z) : Z :=
  Z.quot (100 * (rdata - MSI_EC_CPU_REALTIME_FAN_SPEED_BASE_MIN K))
         (MSI_EC_CPU_REALTIME_FAN_SPEED_BASE_MAX K -
          MSI_EC_CPU_REALTIME_FAN_SPEED_BASE_MIN K).

Definition cpu_realtime_fan_speed_show : M (result string) :=
  r <- ec_read (MSI_EC_CPU_REALTIME_FAN_SPEED_ADDRESS K) ;;
  match r with
  | Errno result => ret (Errno result)
  | Ok rdata =>
      if (rdata <? MSI_EC_CPU_REALTIME_FAN_SPEED_BASE_MIN K) ||
         (rdata >? MSI_EC_CPU_REALTIME_FAN_SPEED_BASE_MAX K)
      then ret (Errno (- EINVAL))
      else ret (Ok (fmt_d 0 (fan_speed_percent rdata) ++ nl)%string)
  end.

End Handlers.

(** ** A header instance and controller states to run the handlers on *)

(** An instance of the header with the shape the driver expects: five
    preset columns (the fourth is the keyboard backlight, the fifth the
    silent flag in the fan-mode register) and four preset rows. *)
Definition sample_h : constants := {|
  MSI_EC_FAN_MODE_ADDRESS := 212;
  MSI_EC_FAN_MODE_SILENT_BIT := 4;
  MSI_EC_FAN_MODE_ADVANCED_BIT := 7;
  MSI_EC_FAN_MODE_BASIC_BIT := 6;
  MSI_EC_PRESET_MEMORY_TABLE := [145; 210; 235; 243; 212];
  MSI_EC_PRESET_VALUE_TABLE :=
    [ [ 2; 194; 15; 128; 0 ];
      [ 2; 193; 0; 129; 1 ];
      [ 2; 193; 0; 130; 0 ];
      [ 2; 196; 0; 130; 0 ] ];
  MSI_EC_PRESET_COLUMN_KBD_BL := 3;
  MSI_EC_PRESET_COLUMN_SILENT_FLAG := 4;
  MSI_EC_PRESET_SUPER_BATTERY := 0;
  MSI_EC_PRESET_SILENT := 1;
  MSI_EC_PRESET_BALANCED := 2;
  MSI_EC_PRESET_HIGH_PERFORMANCE := 3;
  MSI_EC_FW_DATE_ADDRESS := 172;
  MSI_EC_FW_DATE_LENGTH := 8;
  MSI_EC_FW_TIME_ADDRESS := 180;
  MSI_EC_FW_TIME_LENGTH := 8;
  MSI_EC_CPU_REALTIME_FAN_SPEED_ADDRESS := 113;
  MSI_EC_CPU_REALTIME_FAN_SPEED_BASE_MIN := 25;
  MSI_EC_CPU_REALTIME_FAN_SPEED_BASE_MAX := 55
|}.

(** Registers holding [bytes] from [addr] on and [dflt] elsewhere. *)
Definition regs_with (dflt : Z) (addr : Z) (bytes : list Z) : Z -> Z :=
  fun a =>
    if (addr <=? a) && (a <? addr + Z.of_nat (List.length bytes))
    then nth (Z.to_nat (a - addr)) bytes dflt
    else dflt.

(** A controller whose registers all hold [b], with nothing scripted. *)
Definition ec_all (b : Z) : EC := mkEC (fun _ => b) [] [].

(** The text of [buf] is one of the four fan modes. *)
Definition fan_mode_valid (buf : string) : bool :=
  streq buf "auto" || streq buf "silent" || streq buf "basic"
  || streq buf "advanced".

(** The bytes of the [len] registers from [addr] on, as [ec_read_seq]
    addresses them. *)
Definition seq_regs (f : Z -> Z) (addr len : Z) : list Z :=
  map (fun k => f (u8 (addr + k))) (upto (Z.to_nat len)).

(** Automatic variables that happen to hold zero. *)
Definition zero_datetime : datetime :=
  {| year := 0; month := 0; day := 0; hour := 0; minute := 0; second := 0 |}.

(** Automatic variables that happen to hold an older date. *)
Definition stale_datetime : datetime :=
  {| year := 1970; month := 1; day := 2; hour := 3; minute := 4; second := 5 |}.

(** A controller whose firmware date registers hold text that is not a
    date, followed by a well-formed time. *)
Definition ec_malformed_date : EC :=
  mkEC (regs_with 0 172 (bytes_of "XX15202314:30:05")) [] [].

(** A controller whose firmware registers hold the date and time of the
    specification's example. *)
Definition ec_release_example : EC :=
  mkEC (regs_with 0 172 (bytes_of "0915202314:30:05")) [] [].


(** ** Classification as the specification words it *)

(** The comparison of one column, following the specification's words: the
    keyboard-backlight column is skipped; the fan-silent column compares
    the table's stored boolean with the silent bit of the current byte;
    every other column wants the current byte equal to the table's. *)
Definition spec_column_matches (K : constants) (v c : Z) (current : Z) : bool :=
  if c =? MSI_EC_PRESET_COLUMN_KBD_BL K then true
  else if c =? MSI_EC_PRESET_COLUMN_SILENT_FLAG K then
    cell K v c =? Z.b2z (is_bit_set (MSI_EC_FAN_MODE_SILENT_BIT K) current)
  else cell K v c =? current.

(** A preset matches the registers [f] when all its columns do. *)
Definition spec_preset_matches (K : constants) (f : Z -> Z) (v : Z) : bool :=
  forallb (fun c => spec_column_matches K v c
                      (f (ix (MSI_EC_PRESET_MEMORY_TABLE K) c)))
          (columns K).

(** The names of the presets among [vs] that match, in table order. *)
Definition spec_candidates (K : constants) (f : Z -> Z) (vs : list Z)
  : list string :=
  flat_map (fun v =>
              if spec_preset_matches K f v
              then match preset_name K v with
                   | Some name => [name]
                   | None => []
                   end
              else [])
           vs.

(** The first preset that matches, or "custom". *)
Definition spec_classify (K : constants) (f : Z -> Z) : string :=
  hd "custom"%string (spec_candidates K f (rows K)).



(** Controllers left by applying a preset to registers that all held
    [b]. *)
Definition ec_after (name : string) (b : Z) : EC :=
  snd (preset_store sample_h name (Z.of_nat (String.length name)) (ec_all b)).

(** The same controller with the answers [os] scripted for the coming
    transport calls. *)
Definition scripted (st : EC) (os : list outcome) : EC :=
  mkEC (regs st) os (trace st).


(** The text of [buf] is one of the four preset names. *)
Definition preset_recognised (buf : string) : bool :=
  streq buf "super_battery" || streq buf "silent" || streq buf "balanced"
  || streq buf "high_performance".

(** The registers after a write that the transport answered with [o]. *)
Definition written (o : outcome) (f : Z -> Z) (addr data : Z) : Z -> Z :=
  match o with
  | Good => poke f addr data
  | Bad _ => f
  end.

(** What the column loop of [preset_store] for row [index] puts to the
    transport over the columns [cs], from registers [f]: the transport
    calls in order and the registers at the end.  Every column has its
    turn whatever the earlier answers were: a raw column is one write of the
    table's byte; the silent-flag column is a read and, when the read is
    served, the write of the byte read with its silent bit as the table
    says.  A write changes the register when it is served and only then. *)
Inductive columns_run (K : constants) (index : Z)
  : list Z -> (Z -> Z) -> list event -> (Z -> Z) -> Prop :=
| run_done (f : Z -> Z) :
    columns_run K index [] f [] f
| run_raw (c : Z) (cs : list Z) (f : Z -> Z) (o : outcome)
          (evs : list event) (f' : Z -> Z) :
    (c =? MSI_EC_PRESET_COLUMN_SILENT_FLAG K) = false ->
    columns_run K index cs
      (written o f (ix (MSI_EC_PRESET_MEMORY_TABLE K) c) (cell K index c))
      evs f' ->
    columns_run K index (c :: cs) f
      (Wr (ix (MSI_EC_PRESET_MEMORY_TABLE K) c) (cell K index c) o :: evs) f'
| run_silent_unread (c : Z) (cs : list Z) (f : Z -> Z) (e : positive)
                    (evs : list event) (f' : Z -> Z) :
    (c =? MSI_EC_PRESET_COLUMN_SILENT_FLAG K) = true ->
    columns_run K index cs f evs f' ->
    columns_run K index (c :: cs) f
      (Rd (ix (MSI_EC_PRESET_MEMORY_TABLE K) c) (Bad e) :: evs) f'
| run_silent (c : Z) (cs : list Z) (f : Z -> Z) (o : outcome)
             (evs : list event) (f' : Z -> Z) :
    (c =? MSI_EC_PRESET_COLUMN_SILENT_FLAG K) = true ->
    columns_run K index cs
      (written o f (ix (MSI_EC_PRESET_MEMORY_TABLE K) c)
         (with_bit (MSI_EC_FAN_MODE_SILENT_BIT K)
            (negb (cell K index c =? 0))
            (f (ix (MSI_EC_PRESET_MEMORY_TABLE K) c))))
      evs f' ->
    columns_run K index (c :: cs) f
      (Rd (ix (MSI_EC_PRESET_MEMORY_TABLE K) c) Good ::
       Wr (ix (MSI_EC_PRESET_MEMORY_TABLE K) c)
          (with_bit (MSI_EC_FAN_MODE_SILENT_BIT K)
             (negb (cell K index c =? 0))
             (f (ix (MSI_EC_PRESET_MEMORY_TABLE K) c))) o :: evs) f'.

(** The byte the column loop of [preset_store] puts in the register of
    column [c], which held [old]. *)
Definition column_byte (K : constants) (index c old : Z) : Z :=
  if c =? MSI_EC_PRESET_COLUMN_SILENT_FLAG K
  then with_bit (MSI_EC_FAN_MODE_SILENT_BIT K) (negb (cell K index c =? 0)) old
  else cell K index c.

(** The registers after the column loop, when every call is served. *)
Fixpoint stored_columns (K : constants) (index : Z) (cs : list Z)
  (f : Z -> Z) : Z -> Z :=
  match cs with
  | [] => f
  | c :: cs' =>
      let addr := ix (MSI_EC_PRESET_MEMORY_TABLE K) c in
      stored_columns K index cs' (poke f addr (column_byte K index c (f addr)))
  end.

(** What applying and then recognising the balanced preset needs of the
    header: the keyboard-backlight column is a column of the table and not
    the silent-flag column; the columns have distinct registers, and only
    the silent-flag column may sit in the fan-mode register; the three
    fan-mode flags are bits of a byte and the silent bit is neither of the
    other two; the balanced row is a row of the table, told apart from
    super_battery and silent by the [switch]; its silent-flag cell is a
    boolean; and every named row before it differs from it in a column other
    than the keyboard backlight. *)
Record balanced_header_ok (K : constants) : Prop := {
  bal_kbd_in :
    In (MSI_EC_PRESET_COLUMN_KBD_BL K) (columns K);
  bal_kbd_raw :
    MSI_EC_PRESET_COLUMN_KBD_BL K <> MSI_EC_PRESET_COLUMN_SILENT_FLAG K;
  bal_addrs :
    NoDup (map (ix (MSI_EC_PRESET_MEMORY_TABLE K)) (columns K));
  bal_fan_sep :
    forall c, In c (columns K) -> c <> MSI_EC_PRESET_COLUMN_SILENT_FLAG K ->
      ix (MSI_EC_PRESET_MEMORY_TABLE K) c <> MSI_EC_FAN_MODE_ADDRESS K;
  bal_silent_bit : 0 <= MSI_EC_FAN_MODE_SILENT_BIT K <= 7;
  bal_advanced_bit : 0 <= MSI_EC_FAN_MODE_ADVANCED_BIT K <= 7;
  bal_basic_bit : 0 <= MSI_EC_FAN_MODE_BASIC_BIT K <= 7;
  bal_silent_advanced :
    MSI_EC_FAN_MODE_SILENT_BIT K <> MSI_EC_FAN_MODE_ADVANCED_BIT K;
  bal_silent_basic :
    MSI_EC_FAN_MODE_SILENT_BIT K <> MSI_EC_FAN_MODE_BASIC_BIT K;
  bal_row : In (MSI_EC_PRESET_BALANCED K) (rows K);
  bal_not_super_battery :
    MSI_EC_PRESET_BALANCED K <> MSI_EC_PRESET_SUPER_BATTERY K;
  bal_not_silent :
    MSI_EC_PRESET_BALANCED K <> MSI_EC_PRESET_SILENT K;
  bal_flag :
    cell K (MSI_EC_PRESET_BALANCED K) (MSI_EC_PRESET_COLUMN_SILENT_FLAG K) = 0 \/
    cell K (MSI_EC_PRESET_BALANCED K) (MSI_EC_PRESET_COLUMN_SILENT_FLAG K) = 1;
  bal_first :
    forall v, In v (rows K) -> v < MSI_EC_PRESET_BALANCED K ->
      preset_name K v <> None ->
      exists c, In c (columns K) /\ c <> MSI_EC_PRESET_COLUMN_KBD_BL K /\
                cell K v c <> cell K (MSI_EC_PRESET_BALANCED K) c
}.


(** ** The other attributes of the driver *)

(** The constants of [constants.h] that the remaining handlers use, again
    as a parameter. *)
Record mode_constants : Type := {
  MSI_EC_WEBCAM_ADDRESS : Z;
  MSI_EC_WEBCAM_BIT : Z;
  MSI_EC_FN_WIN_ADDRESS : Z;
  MSI_EC_FN_WIN_BIT : Z;
  MSI_EC_FN_KEY_LEFT : Z;
  MSI_EC_FN_KEY_RIGHT : Z;
  MSI_EC_WIN_KEY_LEFT : Z;
  MSI_EC_WIN_KEY_RIGHT : Z;
  MSI_EC_BATTERY_MODE_ADDRESS : Z;
  MSI_EC_BATTERY_MODE_MAX_CHARGE : Z;
  MSI_EC_BATTERY_MODE_MEDIUM_CHARGE : Z;
  MSI_EC_BATTERY_MODE_MIN_CHARGE : Z;
  MSI_EC_COOLER_BOOST_ADDRESS : Z;
  MSI_EC_COOLER_BOOST_BIT : Z;
  MSI_EC_SHIFT_MODE_ADDRESS : Z;
  MSI_EC_SHIFT_MODE_OVERCLOCK : Z;
  MSI_EC_SHIFT_MODE_BALANCED : Z;
  MSI_EC_SHIFT_MODE_ECO : Z;
  MSI_EC_SHIFT_MODE_OFF : Z;
  MSI_EC_FW_VERSION_ADDRESS : Z;
  MSI_EC_FW_VERSION_LENGTH : Z;
  MSI_EC_KBD_LED_MICMUTE_ADDRESS : Z;
  MSI_EC_KBD_LED_MICMUTE_BIT : Z;
  MSI_EC_KBD_LED_MUTE_ADDRESS : Z;
  MSI_EC_KBD_LED_MUTE_BIT : Z;
  MSI_EC_KBD_BL_ADDRESS : Z;
  MSI_EC_KBD_BL_STATE_MASK : Z;
  MSI_EC_KBD_BL_STATE : list Z
}.

(** [sprintf(buf, "%s (%i)\n", "unknown", rdata)]. *)
Definition unknown_line (rdata : Z) : string :=
  ("unknown (" ++ fmt_d 0 rdata ++ ")" ++ nl)%string.

(** An [int] used where C wants a [bool]. *)
Definition truthy (z : Z) : bool := negb (z =? 0).

Section Modes.

Variable H : mode_constants.

Definition webcam_show : M (result string) :=
  r <- ec_read (MSI_EC_WEBCAM_ADDRESS H) ;;
  match r with
  | Errno result => ret (Errno result)
  | Ok rdata =>
      if is_bit_set (MSI_EC_WEBCAM_BIT H) rdata
      then ret (Ok (line "on"))
      else ret (Ok (line "off"))
  end.

Definition webcam_store (buf : string) (count : Z) : M Z :=
  let result := - EINVAL in
  result <- (if streq buf "on"
             then ec_write_bit (MSI_EC_WEBCAM_ADDRESS H)
                               (MSI_EC_WEBCAM_BIT H) true
             else ret result) ;;
  result <- (if streq buf "off"
             then ec_write_bit (MSI_EC_WEBCAM_ADDRESS H)
                               (MSI_EC_WEBCAM_BIT H) false
             else ret result) ;;
  if result <? 0 then ret result else ret count.

Definition fn_key_show : M (result string) :=
  r <- ec_read (MSI_EC_FN_WIN_ADDRESS H) ;;
  match r with
  | Errno result => ret (Errno result)
  | Ok rdata =>
      if Z.b2z (is_bit_set (MSI_EC_FN_WIN_BIT H) rdata) =? MSI_EC_FN_KEY_LEFT H
      then ret (Ok (line "left"))
      else ret (Ok (line "right"))
  end.

Definition fn_key_store (buf : string) (count : Z) : M Z :=
  let result := - EINVAL in
  result <- (if streq buf "left"
             then ec_write_bit (MSI_EC_FN_WIN_ADDRESS H) (MSI_EC_FN_WIN_BIT H)
                               (truthy (MSI_EC_FN_KEY_LEFT H))
             else ret result) ;;
  result <- (if streq buf "right"
             then ec_write_bit (MSI_EC_FN_WIN_ADDRESS H) (MSI_EC_FN_WIN_BIT H)
                               (truthy (MSI_EC_FN_KEY_RIGHT H))
             else ret result) ;;
  if result <? 0 then ret result else ret count.

Definition win_key_show : M (result string) :=
  r <- ec_read (MSI_EC_FN_WIN_ADDRESS H) ;;
  match r with
  | Errno result => ret (Errno result)
  | Ok rdata =>
      if Z.b2z (is_bit_set (MSI_EC_FN_WIN_BIT H) rdata) =? MSI_EC_WIN_KEY_LEFT H
      then ret (Ok (line "left"))
      else ret (Ok (line "right"))
  end.

Definition win_key_store (buf : string) (count : Z) : M Z :=
  let result := - EINVAL in
  result <- (if streq buf "left"
             then ec_write_bit (MSI_EC_FN_WIN_ADDRESS H) (MSI_EC_FN_WIN_BIT H)
                               (truthy (MSI_EC_WIN_KEY_LEFT H))
             else ret result) ;;
  result <- (if streq buf "right"
             then ec_write_bit (MSI_EC_FN_WIN_ADDRESS H) (MSI_EC_FN_WIN_BIT H)
                               (truthy (MSI_EC_WIN_KEY_RIGHT H))
             else ret result) ;;
  if result <? 0 then ret result else ret count.

Definition battery_charge_mode_show : M (result string) :=
  r <- ec_read (MSI_EC_BATTERY_MODE_ADDRESS H) ;;
  match r with
  | Errno result => ret (Errno result)
  | Ok rdata =>
      if rdata =? MSI_EC_BATTERY_MODE_MAX_CHARGE H then ret (Ok (line "max"))
      else if rdata =? MSI_EC_BATTERY_MODE_MEDIUM_CHARGE H then
        ret (Ok (line "medium"))
      else if rdata =? MSI_EC_BATTERY_MODE_MIN_CHARGE H then
        ret (Ok (line "min"))
      else ret (Ok (unknown_line rdata))
  end.

(** The byte constants are narrowed to [u8] by the call of [ec_write]. *)
Definition battery_charge_mode_store (buf : string) (count : Z) : M Z :=
  let result := - EINVAL in
  result <- (if streq buf "max"
             then ec_write (MSI_EC_BATTERY_MODE_ADDRESS H)
                           (u8 (MSI_EC_BATTERY_MODE_MAX_CHARGE H))
             else ret result) ;;
  result <- (if streq buf "medium"
             then ec_write (MSI_EC_BATTERY_MODE_ADDRESS H)
                           (u8 (MSI_EC_BATTERY_MODE_MEDIUM_CHARGE H))
             else ret result) ;;
  result <- (if streq buf "min"
             then ec_write (MSI_EC_BATTERY_MODE_ADDRESS H)
                           (u8 (MSI_EC_BATTERY_MODE_MIN_CHARGE H))
             else ret result) ;;
  if result <? 0 then ret result else ret count.

Definition cooler_boost_show : M (result string) :=
  r <- ec_read (MSI_EC_COOLER_BOOST_ADDRESS H) ;;
  match r with
  | Errno result => ret (Errno result)
  | Ok rdata =>
      if is_bit_set (MSI_EC_COOLER_BOOST_BIT H) rdata
      then ret (Ok (line "on"))
      else ret (Ok (line "off"))
  end.

Definition cooler_boost_store (buf : string) (count : Z) : M Z :=
  let result := - EINVAL in
  result <- (if streq buf "on"
             then ec_write_bit (MSI_EC_COOLER_BOOST_ADDRESS H)
                               (MSI_EC_COOLER_BOOST_BIT H) true
             else ret result) ;;
  result <- (if streq buf "off"
             then ec_write_bit (MSI_EC_COOLER_BOOST_ADDRESS H)
                               (MSI_EC_COOLER_BOOST_BIT H) false
             else ret result) ;;
  if result <? 0 then ret result else ret count.

Definition shift_mode_show : M (result string) :=
  r <- ec_read (MSI_EC_SHIFT_MODE_ADDRESS H) ;;
  match r with
  | Errno result => ret (Errno result)
  | Ok rdata =>
      if rdata =? MSI_EC_SHIFT_MODE_OVERCLOCK H then ret (Ok (line "overclock"))
      else if rdata =? MSI_EC_SHIFT_MODE_BALANCED H then
        ret (Ok (line "balanced"))
      else if rdata =? MSI_EC_SHIFT_MODE_ECO H then ret (Ok (line "eco"))
      else if rdata =? MSI_EC_SHIFT_MODE_OFF H then ret (Ok (line "off"))
      else ret (Ok (unknown_line rdata))
  end.

Definition shift_mode_store (buf : string) (count : Z) : M Z :=
  let result := - EINVAL in
  result <- (if streq buf "overclock"
             then ec_write (MSI_EC_SHIFT_MODE_ADDRESS H)
                           (u8 (MSI_EC_SHIFT_MODE_OVERCLOCK H))
             else ret result) ;;
  result <- (if streq buf "balanced"
             then ec_write (MSI_EC_SHIFT_MODE_ADDRESS H)
                           (u8 (MSI_EC_SHIFT_MODE_BALANCED H))
             else ret result) ;;
  result <- (if streq buf "eco"
             then ec_write (MSI_EC_SHIFT_MODE_ADDRESS H)
                           (u8 (MSI_EC_SHIFT_MODE_ECO H))
             else ret result) ;;
  result <- (if streq buf "off"
             then ec_write (MSI_EC_SHIFT_MODE_ADDRESS H)
                           (u8 (MSI_EC_SHIFT_MODE_OFF H))
             else ret result) ;;
  if result <? 0 then ret result else ret count.

(** [rdata] is zeroed, one byte longer than what is read, and printed as a
    C string. *)
Definition fw_version_show : M (result string) :=
  r <- ec_read_seq (MSI_EC_FW_VERSION_ADDRESS H) (MSI_EC_FW_VERSION_LENGTH H) ;;
  match r with
  | Errno result => ret (Errno result)
  | Ok rdata => ret (Ok (line (cstring rdata)))
  end.

Definition micmute_led_sysfs_set (brightness : Z) : M Z :=
  result <- ec_write_bit (MSI_EC_KBD_LED_MICMUTE_ADDRESS H)
                         (MSI_EC_KBD_LED_MICMUTE_BIT H) (truthy brightness) ;;
  if result <? 0 then ret result else ret 0.

Definition mute_led_sysfs_set (brightness : Z) : M Z :=
  result <- ec_write_bit (MSI_EC_KBD_LED_MUTE_ADDRESS H)
                         (MSI_EC_KBD_LED_MUTE_BIT H) (truthy brightness) ;;
  if result <? 0 then ret result else ret 0.

Definition kbd_bl_sysfs_get : M Z :=
  r <- ec_read (MSI_EC_KBD_BL_ADDRESS H) ;;
  match r with
  | Errno _ => ret 0
  | Ok rdata => ret (Z.land rdata (MSI_EC_KBD_BL_STATE_MASK H))
  end.

(** [brightness] is an [enum led_brightness], never negative. *)
Definition kbd_bl_sysfs_set (brightness : Z) : M Z :=
  if brightness >? 3 then ret (-1)
  else
    let wdata := u8 (ix (MSI_EC_KBD_BL_STATE H) brightness) in
    ec_write (MSI_EC_KBD_BL_ADDRESS H) wdata.

End Modes.

(** An instance of the remaining constants. *)
Definition sample_modes : mode_constants := {|
  MSI_EC_WEBCAM_ADDRESS := 46;
  MSI_EC_WEBCAM_BIT := 1;
  MSI_EC_FN_WIN_ADDRESS := 232;
  MSI_EC_FN_WIN_BIT := 4;
  MSI_EC_FN_KEY_LEFT := 1;
  MSI_EC_FN_KEY_RIGHT := 0;
  MSI_EC_WIN_KEY_LEFT := 0;
  MSI_EC_WIN_KEY_RIGHT := 1;
  MSI_EC_BATTERY_MODE_ADDRESS := 215;
  MSI_EC_BATTERY_MODE_MAX_CHARGE := 228;
  MSI_EC_BATTERY_MODE_MEDIUM_CHARGE := 208;
  MSI_EC_BATTERY_MODE_MIN_CHARGE := 188;
  MSI_EC_COOLER_BOOST_ADDRESS := 152;
  MSI_EC_COOLER_BOOST_BIT := 7;
  MSI_EC_SHIFT_MODE_ADDRESS := 210;
  MSI_EC_SHIFT_MODE_OVERCLOCK := 196;
  MSI_EC_SHIFT_MODE_BALANCED := 193;
  MSI_EC_SHIFT_MODE_ECO := 194;
  MSI_EC_SHIFT_MODE_OFF := 128;
  MSI_EC_FW_VERSION_ADDRESS := 160;
  MSI_EC_FW_VERSION_LENGTH := 12;
  MSI_EC_KBD_LED_MICMUTE_ADDRESS := 43;
  MSI_EC_KBD_LED_MICMUTE_BIT := 2;
  MSI_EC_KBD_LED_MUTE_ADDRESS := 44;
  MSI_EC_KBD_LED_MUTE_BIT := 2;
  MSI_EC_KBD_BL_ADDRESS := 243;
  MSI_EC_KBD_BL_STATE_MASK := 3;
  MSI_EC_KBD_BL_STATE := [128; 129; 130; 131]
|}.


(** A transport call that was a read. *)
Definition is_read (ev : event) : Prop :=
  match ev with
  | Rd _ _ => True
  | Wr _ _ _ => False
  end.


(** What applying the preset of row [index] and then recognising it as
    [name] needs of the header: the columns have distinct registers, and
    only the silent-flag column may sit in the fan-mode register; the three
    fan-mode flags are bits of a byte and the silent bit is neither of the
    other two; [index] is a row of the table that the [switch] names
    [name]; its silent-flag cell is a boolean; and every named row before
    it differs from it in a column other than the keyboard backlight. *)
Record preset_row_ok (K : constants) (index : Z) (name : string) : Prop := {
  row_addrs :
    NoDup (map (ix (MSI_EC_PRESET_MEMORY_TABLE K)) (columns K));
  row_fan_sep :
    forall c, In c (columns K) -> c <> MSI_EC_PRESET_COLUMN_SILENT_FLAG K ->
      ix (MSI_EC_PRESET_MEMORY_TABLE K) c <> MSI_EC_FAN_MODE_ADDRESS K;
  row_silent_bit : 0 <= MSI_EC_FAN_MODE_SILENT_BIT K <= 7;
  row_advanced_bit : 0 <= MSI_EC_FAN_MODE_ADVANCED_BIT K <= 7;
  row_basic_bit : 0 <= MSI_EC_FAN_MODE_BASIC_BIT K <= 7;
  row_silent_advanced :
    MSI_EC_FAN_MODE_SILENT_BIT K <> MSI_EC_FAN_MODE_ADVANCED_BIT K;
  row_silent_basic :
    MSI_EC_FAN_MODE_SILENT_BIT K <> MSI_EC_FAN_MODE_BASIC_BIT K;
  row_in : In index (rows K);
  row_name : preset_name K index = Some name;
  row_flag :
    cell K index (MSI_EC_PRESET_COLUMN_SILENT_FLAG K) = 0 \/
    cell K index (MSI_EC_PRESET_COLUMN_SILENT_FLAG K) = 1;
  row_first :
    forall v, In v (rows K) -> v < index -> preset_name K v <> None ->
      exists c, In c (columns K) /\ c <> MSI_EC_PRESET_COLUMN_KBD_BL K /\
                cell K v c <> cell K index c
}.


(** The character of a decimal digit, and the fixed-width decimal texts of
    the firmware date. *)
Definition digit_char (d : Z) : ascii := ascii_of_N (Z.to_N (48 + d)).

Definition two_digits (n : Z) : string :=
  String (digit_char (n / 10)) (String (digit_char (n mod 10)) EmptyString).

Definition four_digits (n : Z) : string :=
  String (digit_char (n / 1000))
    (String (digit_char (n / 100 mod 10))
       (String (digit_char (n / 10 mod 10))
          (String (digit_char (n mod 10)) EmptyString))).


(** * Properties *)
(** ** Bit-level facts *)

Lemma is_bit_set_testbit index byte :
  is_bit_set index byte = Z.testbit byte index.
Proof.
  unfold is_bit_set.
  change 1 with (Z.ones 1) at 1.
  rewrite Z.land_ones by lia.
  change (2 ^ 1) with 2.
  rewrite <- Z.bit0_mod, Z.shiftr_spec by lia.
  rewrite Z.add_0_l.
  destruct (Z.testbit byte index); reflexivity.
Qed.

Lemma byte_high_bits b j : 0 <= b < 256 -> 8 <= j -> Z.testbit b j = false.
Proof.
  intros Hb Hj.
  rewrite <- (Z.mod_small b 256) by lia.
  change 256 with (2 ^ 8).
  apply Z.mod_pow2_bits_high. lia.
Qed.

Lemma u8_range z : 0 <= u8 z < 256.
Proof. unfold u8. apply Z.mod_pos_bound. lia. Qed.

Lemma u8_testbit z j : Z.testbit (u8 z) j = (j <? 8) && Z.testbit z j.
Proof.
  unfold u8. change 256 with (2 ^ 8).
  destruct (Z.ltb_spec j 8).
  - destruct (Z.ltb_spec j 0).
    + rewrite !Z.testbit_neg_r by lia. reflexivity.
    + rewrite Z.mod_pow2_bits_low by lia. reflexivity.
  - rewrite Z.mod_pow2_bits_high by lia. reflexivity.
Qed.

Lemma bit_ul_testbit i j : 0 <= i -> Z.testbit (bit_ul i) j = (j =? i).
Proof.
  intros Hi. unfold bit_ul. rewrite Z.shiftl_1_l.
  destruct (Z.eqb_spec j i) as [->|Hne].
  - apply Z.pow2_bits_true. lia.
  - apply Z.pow2_bits_false. lia.
Qed.

Lemma not_ul_testbit x j :
  0 <= j < 64 -> Z.testbit (not_ul x) j = negb (Z.testbit x j).
Proof.
  intros Hj. unfold not_ul.
  rewrite Z.lxor_spec, Z.ones_spec_low by lia.
  apply xorb_true_r.
Qed.

Lemma with_bit_range index set data : 0 <= with_bit index set data < 256.
Proof. unfold with_bit. destruct set; apply u8_range. Qed.

Lemma with_bit_same index set data :
  0 <= index <= 7 -> Z.testbit (with_bit index set data) index = set.
Proof.
  intros Hi. unfold with_bit. destruct set; rewrite u8_testbit.
  - rewrite Z.lor_spec, bit_ul_testbit, Z.eqb_refl by lia.
    rewrite orb_true_r. destruct (Z.ltb_spec index 8); [reflexivity | lia].
  - rewrite Z.land_spec, not_ul_testbit, bit_ul_testbit, Z.eqb_refl by lia.
    simpl. rewrite andb_false_r. apply andb_false_r.
Qed.

Lemma with_bit_other index set data j :
  0 <= index <= 7 -> 0 <= data < 256 -> j <> index ->
  Z.testbit (with_bit index set data) j = Z.testbit data j.
Proof.
  intros Hi Hd Hj. unfold with_bit.
  destruct (Z.ltb_spec j 0).
  { rewrite !Z.testbit_neg_r by lia. reflexivity. }
  destruct (Z.ltb_spec j 8) as [Hlt|Hge].
  - assert (Hltb : (j <? 8) = true) by (apply Z.ltb_lt; lia).
    assert (Hneq : (j =? index) = false) by (apply Z.eqb_neq; lia).
    destruct set; rewrite u8_testbit, Hltb; simpl.
    + rewrite Z.lor_spec, bit_ul_testbit, Hneq by lia. apply orb_false_r.
    + rewrite Z.land_spec, not_ul_testbit, bit_ul_testbit, Hneq by lia.
      apply andb_true_r.
  - rewrite (byte_high_bits data j) by lia.
    apply byte_high_bits; [apply with_bit_range | lia].
Qed.

(** ** Transport steps *)

Lemma ec_read_served addr st :
  fst (next_outcome st) = Good ->
  ec_read addr st =
  (Ok (regs st addr),
   mkEC (regs st) (snd (next_outcome st)) (trace st ++ [Rd addr Good])).
Proof.
  unfold ec_read. destruct (next_outcome st) as [o os]. simpl.
  intros ->. reflexivity.
Qed.

Lemma ec_write_bit_unfold addr index set st :
  ec_write_bit addr index set st =
  match ec_read addr st with
  | (Errno result, st1) => (result, st1)
  | (Ok data, st1) => ec_write addr (with_bit index set data) st1
  end.
Proof.
  unfold ec_write_bit, bind, ret, with_bit.
  destruct (ec_read addr st) as [[data|code] st1]; destruct set; reflexivity.
Qed.

(** A read-modify-write that reports 0 has stored the recomputed byte at
    [addr] and nothing anywhere else. *)
Lemma ec_write_bit_ok addr index set st :
  fst (ec_write_bit addr index set st) = 0 ->
  forall a,
    regs (snd (ec_write_bit addr index set st)) a =
    if a =? addr then with_bit index set (regs st addr) else regs st a.
Proof.
  rewrite ec_write_bit_unfold. unfold ec_read, ec_write, next_outcome, poke.
  destruct (script st) as [|[|e] os]; simpl.
  - intros _ a. reflexivity.
  - destruct os as [|[|e] os]; simpl; intros H a; try reflexivity. lia.
  - intros H. lia.
Qed.

(** ** C8 *)

(** C8: for every address, bit index 0..7, boolean [v] and initial byte, a
    write_bit that succeeds leaves at that address a byte whose target bit
    reads back (through [is_bit_set], and through the next [ec_read] when the
    transport serves it) as [v], every other bit of the byte is as it was,
    and no other register changed. *)
Theorem C8_write_bit_then_read_bit :
  forall (addr index : Z) (v : bool) (st : EC),
    0 <= index <= 7 ->
    0 <= regs st addr < 256 ->
    fst (ec_write_bit addr index v st) = 0 ->
    let st' := snd (ec_write_bit addr index v st) in
    is_bit_set index (regs st' addr) = v /\
    (forall j, j <> index ->
       Z.testbit (regs st' addr) j = Z.testbit (regs st addr) j) /\
    (forall a, a <> addr -> regs st' a = regs st a) /\
    (fst (next_outcome st') = Good ->
       exists data, fst (ec_read addr st') = Ok data /\
                    is_bit_set index data = v /\
                    forall j, j <> index ->
                      Z.testbit data j = Z.testbit (regs st addr) j).
Proof.
  intros addr index v st Hi Hb Hok st'.
  pose proof (ec_write_bit_ok addr index v st Hok) as Hregs.
  fold st' in Hregs.
  assert (Hat : regs st' addr = with_bit index v (regs st addr)).
  { rewrite Hregs, Z.eqb_refl. reflexivity. }
  assert (Hset : is_bit_set index (regs st' addr) = v).
  { rewrite Hat, is_bit_set_testbit. apply with_bit_same; lia. }
  assert (Hoth : forall j, j <> index ->
            Z.testbit (regs st' addr) j = Z.testbit (regs st addr) j).
  { intros j Hj. rewrite Hat. apply with_bit_other; assumption. }
  repeat split; try assumption.
  - intros a Ha. rewrite Hregs.
    destruct (Z.eqb_spec a addr); [contradiction | reflexivity].
  - intros Hs. exists (regs st' addr).
    rewrite (ec_read_served _ _ Hs). auto.
Qed.

Lemma C8_write_bit_then_read_bit_witness :
  let st' := snd (ec_write_bit 212 4 true (ec_all 0)) in
  is_bit_set 4 (regs st' 212) = true /\
  fst (ec_read 212 st') = Ok 16.
Proof.
  intros st'.
  destruct (C8_write_bit_then_read_bit 212 4 true (ec_all 0))
    as (Hset & _ & _ & _); try (simpl; lia); try reflexivity.
  split; [exact Hset | reflexivity].
Defined.

Lemma ec_write_bit_code addr index set st :
  fst (ec_write_bit addr index set st) = 0 \/
  fst (ec_write_bit addr index set st) < 0.
Proof.
  rewrite ec_write_bit_unfold. unfold ec_read, ec_write, next_outcome.
  destruct (script st) as [|[|e] os]; simpl; auto.
  - destruct os as [|[|e] os]; simpl; auto. right. lia.
  - right. lia.
Qed.

(** ** C9 *)

(** C9: whenever the transport serves the read, [fan_mode_show] prints one
    of the four modes for every byte, by priority: "silent" if the silent
    bit is set whatever the other flags, else "advanced" if the advanced bit
    is set, else "basic" if the basic bit is set, else "auto". *)
Theorem C9_fan_mode_show_priority :
  forall (K : constants) (st : EC),
    fst (next_outcome st) = Good ->
    let b := regs st (MSI_EC_FAN_MODE_ADDRESS K) in
    let silent := is_bit_set (MSI_EC_FAN_MODE_SILENT_BIT K) b in
    let advanced := is_bit_set (MSI_EC_FAN_MODE_ADVANCED_BIT K) b in
    let basic := is_bit_set (MSI_EC_FAN_MODE_BASIC_BIT K) b in
    let shown := fst (fan_mode_show K st) in
    (silent = true -> shown = Ok (line "silent")) /\
    (silent = false -> advanced = true -> shown = Ok (line "advanced")) /\
    (silent = false -> advanced = false -> basic = true ->
       shown = Ok (line "basic")) /\
    (silent = false -> advanced = false -> basic = false ->
       shown = Ok (line "auto")) /\
    (exists s, In s ["silent"; "advanced"; "basic"; "auto"]%string /\
               shown = Ok (line s)).
Proof.
  intros K st Hserved b silent advanced basic shown.
  assert (Hshown : shown =
    Ok (line (if silent then "silent"
              else if advanced then "advanced"
              else if basic then "basic" else "auto"))).
  { unfold shown, fan_mode_show, bind, ret.
    rewrite (ec_read_served _ _ Hserved).
    fold b. fold silent advanced basic.
    destruct silent, advanced, basic; reflexivity. }
  rewrite Hshown.
  repeat split.
  - intros ->. reflexivity.
  - intros -> ->. reflexivity.
  - intros -> -> ->. reflexivity.
  - intros -> -> ->. reflexivity.
  - destruct silent, advanced, basic; eexists; split;
      try reflexivity; simpl; auto.
Qed.

Lemma C9_fan_mode_show_priority_witness :
  fst (fan_mode_show sample_h (ec_all 255)) = Ok (line "silent") /\
  fst (fan_mode_show sample_h (ec_all 64)) = Ok (line "basic").
Proof.
  split.
  - apply (C9_fan_mode_show_priority sample_h (ec_all 255)); reflexivity.
  - apply (C9_fan_mode_show_priority sample_h (ec_all 64)); reflexivity.
Defined.

(** ** C10 *)

Lemma streq_true x y :
  streq x y = true -> x = y \/ x = (y ++ nl)%string.
Proof.
  unfold streq. intros H. apply orb_true_iff in H.
  destruct H as [H|H]; apply String.eqb_eq in H; auto.
Qed.

Lemma fan_mode_exclusive buf :
  (List.length (filter (fun b : bool => b)
     [streq buf "silent"; streq buf "advanced"; streq buf "basic";
      streq buf "auto"]) <= 1)%nat.
Proof.
  destruct (streq buf "silent") eqn:Es.
  { apply streq_true in Es. destruct Es as [-> | ->]; vm_compute; lia. }
  destruct (streq buf "advanced") eqn:Ea.
  { apply streq_true in Ea. destruct Ea as [-> | ->]; vm_compute; lia. }
  destruct (streq buf "basic") eqn:Eb.
  { apply streq_true in Eb. destruct Eb as [-> | ->]; vm_compute; lia. }
  destruct (streq buf "auto"); simpl; lia.
Qed.

Lemma fan_mode_store_unfold K buf count st :
  fan_mode_valid buf = true ->
  fan_mode_store K buf count st =
  let r1 := ec_write_bit (MSI_EC_FAN_MODE_ADDRESS K)
              (MSI_EC_FAN_MODE_BASIC_BIT K) (streq buf "basic") st in
  if fst r1 <? 0 then r1 else
  let r2 := ec_write_bit (MSI_EC_FAN_MODE_ADDRESS K)
              (MSI_EC_FAN_MODE_ADVANCED_BIT K) (streq buf "advanced") (snd r1) in
  if fst r2 <? 0 then r2 else
  let r3 := ec_write_bit (MSI_EC_FAN_MODE_ADDRESS K)
              (MSI_EC_FAN_MODE_SILENT_BIT K) (streq buf "silent") (snd r2) in
  if fst r3 <? 0 then r3 else (count, snd r3).
Proof.
  intros Hvalid. unfold fan_mode_store.
  assert (Hguard : negb (streq buf "auto") && negb (streq buf "basic")
                   && negb (streq buf "advanced") && negb (streq buf "silent")
                   = false).
  { unfold fan_mode_valid in Hvalid.
    destruct (streq buf "auto"), (streq buf "silent"), (streq buf "basic"),
      (streq buf "advanced"); try reflexivity; discriminate. }
  rewrite Hguard. cbv zeta. unfold bind, ret.
  destruct (ec_write_bit _ _ (streq buf "basic") st) as [c1 st1]. simpl.
  destruct (c1 <? 0); [reflexivity|].
  destruct (ec_write_bit _ _ (streq buf "advanced") st1) as [c2 st2]. simpl.
  destruct (c2 <? 0); [reflexivity|].
  destruct (ec_write_bit _ _ (streq buf "silent") st2) as [c3 st3]. simpl.
  destruct (c3 <? 0); reflexivity.
Qed.

(** C10: with the three flag bits distinct bits of the fan-mode byte and a
    valid mode in [buf], a [fan_mode_store] that returns [count] leaves the
    silent, advanced and basic bits equal to "the request is this mode" (so
    at most one is set, and none for "auto"), every other bit of the byte
    and every other register as it was; and when one of the three
    read-modify-writes fails the handler stops there: its result and final
    controller state (registers, calls made) are those of the failing
    read-modify-write. *)
Theorem C10_fan_mode_store_exclusive :
  forall (K : constants) (buf : string) (count : Z) (st : EC),
    let addr := MSI_EC_FAN_MODE_ADDRESS K in
    let S := MSI_EC_FAN_MODE_SILENT_BIT K in
    let A := MSI_EC_FAN_MODE_ADVANCED_BIT K in
    let B := MSI_EC_FAN_MODE_BASIC_BIT K in
    0 <= S <= 7 -> 0 <= A <= 7 -> 0 <= B <= 7 ->
    S <> A -> S <> B -> A <> B ->
    0 <= regs st addr < 256 ->
    0 <= count ->
    fan_mode_valid buf = true ->
    let r1 := ec_write_bit addr B (streq buf "basic") st in
    let r2 := ec_write_bit addr A (streq buf "advanced") (snd r1) in
    let r3 := ec_write_bit addr S (streq buf "silent") (snd r2) in
    let out := fan_mode_store K buf count st in
    (fst out = count ->
       let b' := regs (snd out) addr in
       is_bit_set S b' = streq buf "silent" /\
       is_bit_set A b' = streq buf "advanced" /\
       is_bit_set B b' = streq buf "basic" /\
       (List.length (filter (fun x : bool => x)
          [is_bit_set S b'; is_bit_set A b'; is_bit_set B b']) <= 1)%nat /\
       (streq buf "auto" = true ->
          is_bit_set S b' = false /\ is_bit_set A b' = false /\
          is_bit_set B b' = false) /\
       (forall j, j <> S -> j <> A -> j <> B ->
          Z.testbit b' j = Z.testbit (regs st addr) j) /\
       (forall a, a <> addr -> regs (snd out) a = regs st a)) /\
    (fst r1 < 0 -> out = r1) /\
    (fst r1 = 0 -> fst r2 < 0 -> out = r2) /\
    (fst r1 = 0 -> fst r2 = 0 -> fst r3 < 0 -> out = r3).
Proof.
  intros K buf count st addr S A B HS HA HB HSA HSB HAB Hbyte Hcount Hvalid
    r1 r2 r3 out.
  assert (Hout : out =
    if fst r1 <? 0 then r1 else if fst r2 <? 0 then r2 else
    if fst r3 <? 0 then r3 else (count, snd r3)).
  { unfold out. rewrite (fan_mode_store_unfold K buf count st Hvalid).
    reflexivity. }
  pose proof (ec_write_bit_code addr B (streq buf "basic") st) as C1.
  pose proof (ec_write_bit_code addr A (streq buf "advanced") (snd r1)) as C2.
  pose proof (ec_write_bit_code addr S (streq buf "silent") (snd r2)) as C3.
  fold r1 in C1. fold r2 in C2. fold r3 in C3.
  split; [|split; [|split]].
  - (* the flags after a store that returned [count] *)
    intros Hret.
    assert (H123 : fst r1 = 0 /\ fst r2 = 0 /\ fst r3 = 0).
    { rewrite Hout in Hret.
      destruct (Z.ltb_spec (fst r1) 0); [simpl in Hret; lia|].
      destruct (Z.ltb_spec (fst r2) 0); [simpl in Hret; lia|].
      destruct (Z.ltb_spec (fst r3) 0); [simpl in Hret; lia|]. lia. }
    destruct H123 as (E1 & E2 & E3).
    assert (Hsnd : snd out = snd r3).
    { rewrite Hout, E1, E2, E3. reflexivity. }
    rewrite Hsnd.
    pose proof (ec_write_bit_ok addr B (streq buf "basic") st E1) as R1.
    pose proof (ec_write_bit_ok addr A (streq buf "advanced") (snd r1) E2) as R2.
    pose proof (ec_write_bit_ok addr S (streq buf "silent") (snd r2) E3) as R3.
    fold r1 in R1. fold r2 in R2. fold r3 in R3.
    set (b0 := regs st addr) in *.
    set (b1 := with_bit B (streq buf "basic") b0).
    set (b2 := with_bit A (streq buf "advanced") b1).
    set (b3 := with_bit S (streq buf "silent") b2).
    assert (Hb' : regs (snd r3) addr = b3).
    { rewrite R3, Z.eqb_refl, R2, Z.eqb_refl, R1, Z.eqb_refl. reflexivity. }
    assert (Hr1 : 0 <= b1 < 256) by apply with_bit_range.
    assert (Hr2 : 0 <= b2 < 256) by apply with_bit_range.
    assert (FS : is_bit_set S b3 = streq buf "silent").
    { rewrite is_bit_set_testbit. apply with_bit_same; lia. }
    assert (FA : is_bit_set A b3 = streq buf "advanced").
    { rewrite is_bit_set_testbit. unfold b3.
      rewrite with_bit_other by (try assumption; lia).
      apply with_bit_same; lia. }
    assert (FB : is_bit_set B b3 = streq buf "basic").
    { rewrite is_bit_set_testbit. unfold b3, b2.
      rewrite !with_bit_other by (try assumption; lia).
      apply with_bit_same; lia. }
    cbv zeta. rewrite Hb', FS, FA, FB.
    pose proof (fan_mode_exclusive buf) as Hex.
    repeat split.
    + destruct (streq buf "silent"), (streq buf "advanced"),
        (streq buf "basic"), (streq buf "auto"); simpl in *; lia.
    + destruct (streq buf "silent"); [|reflexivity].
      destruct (streq buf "advanced"), (streq buf "basic"),
        (streq buf "auto"); simpl in *; try lia; discriminate.
    + destruct (streq buf "advanced"); [|reflexivity].
      destruct (streq buf "silent"), (streq buf "basic"),
        (streq buf "auto"); simpl in *; try lia; discriminate.
    + destruct (streq buf "basic"); [|reflexivity].
      destruct (streq buf "silent"), (streq buf "advanced"),
        (streq buf "auto"); simpl in *; try lia; discriminate.
    + intros j HjS HjA HjB. unfold b3, b2, b1.
      rewrite !with_bit_other by (try assumption; lia). reflexivity.
    + intros a Ha.
      assert (Hne : (a =? addr) = false) by (apply Z.eqb_neq; exact Ha).
      rewrite R3, Hne, R2, Hne, R1, Hne. reflexivity.
  - intros H1. rewrite Hout.
    destruct (Z.ltb_spec (fst r1) 0); [reflexivity | lia].
  - intros H1 H2. rewrite Hout, H1. simpl.
    destruct (Z.ltb_spec (fst r2) 0); [reflexivity | lia].
  - intros H1 H2 H3. rewrite Hout, H1, H2. simpl.
    destruct (Z.ltb_spec (fst r3) 0); [reflexivity | lia].
Qed.

Lemma C10_fan_mode_store_exclusive_witness :
  let out := fan_mode_store sample_h "silent" 7 (ec_all 255) in
  fst out = 7 /\
  is_bit_set 4 (regs (snd out) 212) = true /\
  is_bit_set 7 (regs (snd out) 212) = false /\
  is_bit_set 6 (regs (snd out) 212) = false.
Proof.
  intros out.
  assert (Hret : fst out = 7) by reflexivity.
  split; [exact Hret|].
  destruct (C10_fan_mode_store_exclusive sample_h "silent" 7 (ec_all 255))
    as [H _]; try (simpl; lia); try reflexivity.
  destruct (H Hret) as (HS & HA & HB & _).
  exact (conj HS (conj HA HB)).
Defined.

(** ** C7 *)

Lemma fmt_d_0_nonneg z : 0 <= z -> fmt_d 0 z = digits z.
Proof.
  intros Hz. unfold fmt_d.
  destruct (Z.ltb_spec z 0); [lia|].
  rewrite Z.abs_eq by lia. reflexivity.
Qed.

(** C7: with calibration bounds MIN < MAX and the read served, the CPU
    fan-speed handler prints 0 for a raw byte equal to MIN, 100 for a raw
    byte equal to MAX, the rescaling 100*(raw-MIN)/(MAX-MIN) (a value from 0
    to 100) for every raw byte in between, and fails with -EINVAL, printing
    nothing and clamping nothing, for every raw byte below MIN or above
    MAX. *)
Theorem C7_cpu_fan_speed_rescaling :
  forall (K : constants) (st : EC),
    let MIN := MSI_EC_CPU_REALTIME_FAN_SPEED_BASE_MIN K in
    let MAX := MSI_EC_CPU_REALTIME_FAN_SPEED_BASE_MAX K in
    let raw := regs st (MSI_EC_CPU_REALTIME_FAN_SPEED_ADDRESS K) in
    let shown := fst (cpu_realtime_fan_speed_show K st) in
    MIN < MAX ->
    fst (next_outcome st) = Good ->
    (raw = MIN -> shown = Ok (line "0")) /\
    (raw = MAX -> shown = Ok (line "100")) /\
    (MIN <= raw <= MAX ->
       shown = Ok (line (digits (100 * (raw - MIN) / (MAX - MIN)))) /\
       0 <= 100 * (raw - MIN) / (MAX - MIN) <= 100) /\
    (raw < MIN \/ MAX < raw -> shown = Errno (- EINVAL)).
Proof.
  intros K st MIN MAX raw shown Hlt Hserved.
  assert (Hin : MIN <= raw <= MAX ->
            shown = Ok (line (digits (100 * (raw - MIN) / (MAX - MIN))))).
  { intros Hr. unfold shown, cpu_realtime_fan_speed_show, bind, ret.
    rewrite (ec_read_served _ _ Hserved).
    fold raw. fold MIN. fold MAX.
    destruct (Z.ltb_spec raw MIN); [lia|].
    destruct (Z.gtb_spec raw MAX); [lia|]. simpl.
    unfold fan_speed_percent. fold raw. fold MIN. fold MAX.
    rewrite Z.quot_div_nonneg by lia.
    rewrite fmt_d_0_nonneg by (apply Z.div_pos; lia).
    reflexivity. }
  split; [|split; [|split]].
  - intros E. rewrite Hin by lia. rewrite E, Z.sub_diag. reflexivity.
  - intros E. rewrite Hin by lia. rewrite E, Z.div_mul by lia. reflexivity.
  - intros Hr. split; [apply Hin; exact Hr|]. split.
    + apply Z.div_pos; lia.
    + apply Z.div_le_upper_bound; nia.
  - intros Hout. unfold shown, cpu_realtime_fan_speed_show, bind, ret.
    rewrite (ec_read_served _ _ Hserved).
    fold raw. fold MIN. fold MAX.
    destruct (Z.ltb_spec raw MIN); [reflexivity|].
    destruct (Z.gtb_spec raw MAX); [reflexivity|]. lia.
Qed.

Lemma C7_cpu_fan_speed_rescaling_witness :
  fst (cpu_realtime_fan_speed_show sample_h (ec_all 25)) = Ok (line "0") /\
  fst (cpu_realtime_fan_speed_show sample_h (ec_all 55)) = Ok (line "100") /\
  fst (cpu_realtime_fan_speed_show sample_h (ec_all 40)) = Ok (line "50") /\
  fst (cpu_realtime_fan_speed_show sample_h (ec_all 56)) = Errno (-22).
Proof.
  destruct (C7_cpu_fan_speed_rescaling sample_h (ec_all 25))
    as (Hmin & _); [simpl; lia | reflexivity |].
  destruct (C7_cpu_fan_speed_rescaling sample_h (ec_all 55))
    as (_ & Hmax & _); [simpl; lia | reflexivity |].
  destruct (C7_cpu_fan_speed_rescaling sample_h (ec_all 40))
    as (_ & _ & Hmid & _); [simpl; lia | reflexivity |].
  destruct (C7_cpu_fan_speed_rescaling sample_h (ec_all 56))
    as (_ & _ & _ & Hout); [simpl; lia | reflexivity |].
  split; [apply Hmin; reflexivity|].
  split; [apply Hmax; reflexivity|].
  split; [apply Hmid; simpl; lia|].
  apply Hout. simpl. lia.
Defined.

(** ** C6 *)

Lemma quiet_next st :
  quiet st -> fst (next_outcome st) = Good /\
              Forall (fun o => o = Good) (snd (next_outcome st)).
Proof.
  unfold quiet, next_outcome. intros H.
  destruct (script st) as [|o os]; simpl.
  - split; [reflexivity | constructor].
  - inversion H; subst. split; [reflexivity | assumption].
Qed.

Lemma ec_read_quiet addr st :
  quiet st ->
  fst (ec_read addr st) = Ok (regs st addr) /\
  regs (snd (ec_read addr st)) = regs st /\
  quiet (snd (ec_read addr st)).
Proof.
  intros Hq. destruct (quiet_next st Hq) as [Hg Hrest].
  rewrite (ec_read_served _ _ Hg). simpl. auto.
Qed.

Lemma ec_read_seq_from_quiet addr n :
  forall s buf st,
    quiet st ->
    let out := ec_read_seq_from addr (Z.of_nat s) n buf st in
    fst out =
      Ok (buf ++ map (fun k => regs st (u8 (addr + k)))
                     (map Z.of_nat (seq s n))) /\
    regs (snd out) = regs st /\ quiet (snd out).
Proof.
  induction n as [|n IH]; intros s buf st Hq; simpl.
  - rewrite app_nil_r. auto.
  - unfold bind.
    destruct (ec_read_quiet (u8 (addr + Z.of_nat s)) st Hq) as (Hv & Hr & Hq1).
    destruct (ec_read (u8 (addr + Z.of_nat s)) st) as [r st1].
    simpl in Hv, Hr, Hq1. subst r.
    replace (Z.of_nat s + 1) with (Z.of_nat (S s)) by lia.
    destruct (IH (S s) (buf ++ [regs st (u8 (addr + Z.of_nat s))]) st1 Hq1)
      as (Hv' & Hr' & Hq').
    rewrite Hv', Hr', Hr. rewrite <- app_assoc. simpl. auto.
Qed.

Lemma ec_read_seq_quiet addr len st :
  quiet st ->
  fst (ec_read_seq addr len st) = Ok (seq_regs (regs st) addr len) /\
  regs (snd (ec_read_seq addr len st)) = regs st /\
  quiet (snd (ec_read_seq addr len st)).
Proof.
  intros Hq.
  exact (ec_read_seq_from_quiet addr (Z.to_nat len) 0%nat [] st Hq).
Qed.

(** A transport call consumes the head of the script. *)
Lemma ec_read_script addr st :
  exists pre, script st = (pre ++ script (snd (ec_read addr st)))%list /\
    forall code, fst (ec_read addr st) = Errno code ->
      exists e, code = Z.neg e /\ In (Bad e) pre.
Proof.
  unfold ec_read, next_outcome.
  destruct (script st) as [|[|e] os]; simpl.
  - exists []. split; [reflexivity | discriminate].
  - exists [Good]. split; [reflexivity | discriminate].
  - exists [Bad e]. split; [reflexivity|].
    intros code H. inversion H. exists e. simpl. auto.
Qed.

Lemma ec_read_seq_from_script addr n :
  forall i buf st,
    exists pre,
      script st = (pre ++ script (snd (ec_read_seq_from addr i n buf st)))%list /\
      forall code, fst (ec_read_seq_from addr i n buf st) = Errno code ->
        exists e, code = Z.neg e /\ In (Bad e) pre.
Proof.
  induction n as [|n IH]; intros i buf st; simpl.
  - exists []. split; [reflexivity | discriminate].
  - unfold bind.
    destruct (ec_read_script (u8 (addr + i)) st) as (pre1 & Hs1 & Hf1).
    destruct (ec_read (u8 (addr + i)) st) as [[b|code1] st1]; simpl in *.
    + destruct (IH (i + 1) (buf ++ [b])%list st1) as (pre2 & Hs2 & Hf2).
      exists (pre1 ++ pre2)%list. split.
      * rewrite Hs1, Hs2 at 1. apply app_assoc.
      * intros code H. destruct (Hf2 code H) as (e & He & Hin).
        exists e. split; [exact He|]. apply in_or_app. auto.
    + exists pre1. split; [exact Hs1|].
      intros code H. apply Hf1. inversion H. reflexivity.
Qed.

Lemma fw_release_date_show_quiet K init st :
  quiet st ->
  fst (fw_release_date_show K init st) =
  Ok (print_datetime
        (scan_time
           (scan_date init
              (cstring (seq_regs (regs st) (MSI_EC_FW_DATE_ADDRESS K)
                                 (MSI_EC_FW_DATE_LENGTH K))))
           (cstring (seq_regs (regs st) (MSI_EC_FW_TIME_ADDRESS K)
                              (MSI_EC_FW_TIME_LENGTH K))))).
Proof.
  intros Hq. unfold fw_release_date_show, bind, ret.
  destruct (ec_read_seq_quiet (MSI_EC_FW_DATE_ADDRESS K)
              (MSI_EC_FW_DATE_LENGTH K) st Hq) as (Hv & Hr & Hq1).
  destruct (ec_read_seq (MSI_EC_FW_DATE_ADDRESS K) (MSI_EC_FW_DATE_LENGTH K) st)
    as [r st1]. simpl in Hv, Hr, Hq1. subst r.
  destruct (ec_read_seq_quiet (MSI_EC_FW_TIME_ADDRESS K)
              (MSI_EC_FW_TIME_LENGTH K) st1 Hq1) as (Hv2 & Hr2 & Hq2).
  destruct (ec_read_seq (MSI_EC_FW_TIME_ADDRESS K) (MSI_EC_FW_TIME_LENGTH K) st1)
    as [r2 st2]. simpl in Hv2, Hr2, Hq2. subst r2.
  rewrite Hr. reflexivity.
Qed.

(** What the handler returns.  When the transport serves the reads it is
    the line [sprintf] makes of what the two [sscanf] calls left in the six
    variables; an error is always the errno of a failed transport read; and
    the date bytes "09152023" with the time bytes "14:30:05" print as
    2023/09/15 14:30:05. *)
Lemma fw_release_date_show_outcomes :
  forall (K : constants) (init : datetime) (st : EC),
    let rdate := seq_regs (regs st) (MSI_EC_FW_DATE_ADDRESS K)
                          (MSI_EC_FW_DATE_LENGTH K) in
    let rtime := seq_regs (regs st) (MSI_EC_FW_TIME_ADDRESS K)
                          (MSI_EC_FW_TIME_LENGTH K) in
    let shown := fst (fw_release_date_show K init st) in
    (quiet st ->
       shown = Ok (print_datetime
                     (scan_time (scan_date init (cstring rdate))
                                (cstring rtime)))) /\
    (forall code, shown = Errno code ->
       exists e, code = Z.neg e /\ In (Bad e) (script st)) /\
    (quiet st ->
     rdate = bytes_of "09152023" -> rtime = bytes_of "14:30:05" ->
     shown = Ok (line "2023/09/15 14:30:05")).
Proof.
  intros K init st rdate rtime shown.
  split; [|split].
  - intros Hq. apply fw_release_date_show_quiet. exact Hq.
  - intros code. unfold shown, fw_release_date_show, ec_read_seq, bind, ret.
    destruct (ec_read_seq_from_script (MSI_EC_FW_DATE_ADDRESS K)
                (Z.to_nat (MSI_EC_FW_DATE_LENGTH K)) 0 [] st)
      as (pre1 & Hs1 & Hf1).
    destruct (ec_read_seq_from (MSI_EC_FW_DATE_ADDRESS K) 0
                (Z.to_nat (MSI_EC_FW_DATE_LENGTH K)) [] st)
      as [[bs|code1] st1]; simpl in *.
    + destruct (ec_read_seq_from_script (MSI_EC_FW_TIME_ADDRESS K)
                  (Z.to_nat (MSI_EC_FW_TIME_LENGTH K)) 0 [] st1)
        as (pre2 & Hs2 & Hf2).
      destruct (ec_read_seq_from (MSI_EC_FW_TIME_ADDRESS K) 0
                  (Z.to_nat (MSI_EC_FW_TIME_LENGTH K)) [] st1)
        as [[bs2|code2] st2]; simpl in *.
      * discriminate.
      * intros H. inversion H; subst code2.
        destruct (Hf2 code eq_refl) as (e & He & Hin).
        exists e. split; [exact He|].
        rewrite Hs1, Hs2. apply in_or_app. right. apply in_or_app. auto.
    + intros H. inversion H; subst code1.
      destruct (Hf1 code eq_refl) as (e & He & Hin).
      exists e. split; [exact He|]. rewrite Hs1. apply in_or_app. auto.
  - intros Hq Hd Ht. unfold shown.
    rewrite (fw_release_date_show_quiet K init st Hq).
    fold rdate. fold rtime. rewrite Hd, Ht. reflexivity.
Qed.

Lemma fw_release_date_show_outcomes_example :
  fst (fw_release_date_show sample_h zero_datetime ec_release_example) =
  Ok (line "2023/09/15 14:30:05").
Proof.
  destruct (fw_release_date_show_outcomes sample_h zero_datetime
              ec_release_example) as (_ & _ & Hex).
  apply Hex.
  - constructor.
  - reflexivity.
  - reflexivity.
Defined.

(** C6: the code does not return the error the specification asks for.
    With the
    reads served, when [sscanf] converts nothing of the date text (text that
    is not a fixed-width date) [fw_release_date_show] still returns a
    printed line and no error, and the year, month and day it prints are
    whatever its three variables held before the call, which the handler
    never initialises.  On the specification's well-formed example,
    "09152023" and
    "14:30:05", it prints 2023/09/15 14:30:05. *)
Theorem C6_malformed_date_prints_uninitialised :
  forall (K : constants) (init : datetime) (st : EC),
    let rdate := cstring (seq_regs (regs st) (MSI_EC_FW_DATE_ADDRESS K)
                                   (MSI_EC_FW_DATE_LENGTH K)) in
    let rtime := cstring (seq_regs (regs st) (MSI_EC_FW_TIME_ADDRESS K)
                                   (MSI_EC_FW_TIME_LENGTH K)) in
    let shown := fst (fw_release_date_show K init st) in
    quiet st ->
    (vsscanf fmt_date rdate = [] ->
       let d := scan_time init rtime in
       shown = Ok (print_datetime d) /\
       year d = year init /\ month d = month init /\ day d = day init /\
       forall code, shown <> Errno code) /\
    (rdate = "09152023"%string -> rtime = "14:30:05"%string ->
       shown = Ok (line "2023/09/15 14:30:05")).
Proof.
  intros K init st rdate rtime shown Hq.
  assert (Hshown : shown =
            Ok (print_datetime (scan_time (scan_date init rdate) rtime))).
  { exact (fw_release_date_show_quiet K init st Hq). }
  split.
  - intros Hnone d.
    assert (Hd : shown = Ok (print_datetime d)).
    { rewrite Hshown. unfold d, scan_time, scan_date. rewrite Hnone.
      reflexivity. }
    split; [exact Hd|]. split; [reflexivity|]. split; [reflexivity|].
    split; [reflexivity|].
    intros code E. rewrite Hd in E. discriminate E.
  - intros Hd Ht. rewrite Hshown, Hd, Ht. reflexivity.
Qed.

Lemma C6_malformed_date_prints_uninitialised_witness :
  vsscanf fmt_date "XX152023" = [] /\
  fst (fw_release_date_show sample_h zero_datetime ec_malformed_date) =
    Ok (line "0000/00/00 14:30:05") /\
  fst (fw_release_date_show sample_h stale_datetime ec_malformed_date) =
    Ok (line "1970/01/02 14:30:05").
Proof.
  destruct (C6_malformed_date_prints_uninitialised sample_h zero_datetime
              ec_malformed_date (Forall_nil _)) as [Hzero _].
  destruct (C6_malformed_date_prints_uninitialised sample_h stale_datetime
              ec_malformed_date (Forall_nil _)) as [Hstale _].
  destruct (Hzero eq_refl) as (Hz & _).
  destruct (Hstale eq_refl) as (Hs & _).
  split; [reflexivity|].
  split; [exact Hz | exact Hs].
Defined.

(** ** C2 *)

Lemma preset_show_columns_quiet K v cs :
  forall st,
    quiet st ->
    let out := preset_show_columns K v cs st in
    fst out =
      forallb (fun c => spec_column_matches K v c
                          (regs st (ix (MSI_EC_PRESET_MEMORY_TABLE K) c))) cs /\
    regs (snd out) = regs st /\ quiet (snd out).
Proof.
  induction cs as [|c cs IH]; intros st Hq; simpl.
  - auto.
  - unfold bind.
    destruct (ec_read_quiet (ix (MSI_EC_PRESET_MEMORY_TABLE K) c) st Hq)
      as (Hv & Hr & Hq1).
    destruct (ec_read (ix (MSI_EC_PRESET_MEMORY_TABLE K) c) st) as [r st1].
    simpl in Hv, Hr, Hq1. subst r.
    destruct (IH st1 Hq1) as (Hv' & Hr' & Hq'). rewrite Hr in Hv', Hr'.
    unfold spec_column_matches at 1.
    destruct (c =? MSI_EC_PRESET_COLUMN_KBD_BL K).
    { simpl. auto. }
    destruct (c =? MSI_EC_PRESET_COLUMN_SILENT_FLAG K).
    { destruct (cell K v c =? _); simpl; auto. }
    destruct (cell K v c =? _); simpl; auto.
Qed.

Lemma preset_show_rows_quiet K vs :
  forall st,
    quiet st ->
    fst (preset_show_rows K vs st) =
      Ok (line (hd "custom"%string (spec_candidates K (regs st) vs))) /\
    regs (snd (preset_show_rows K vs st)) = regs st.
Proof.
  induction vs as [|v vs IH]; intros st Hq; simpl.
  - auto.
  - unfold bind.
    destruct (preset_show_columns_quiet K v (columns K) st Hq)
      as (Hv & Hr & Hq1).
    destruct (preset_show_columns K v (columns K) st) as [m st1].
    simpl in Hv, Hr, Hq1.
    destruct (IH st1 Hq1) as (Hv' & Hr'). rewrite Hr in Hv', Hr'.
    unfold spec_preset_matches at 1. rewrite <- Hv.
    destruct m; [|auto].
    destruct (preset_name K v) as [name|]; simpl; auto.
Qed.

Lemma spec_column_matches_kbd K v x :
  spec_column_matches K v (MSI_EC_PRESET_COLUMN_KBD_BL K) x = true.
Proof. unfold spec_column_matches. rewrite Z.eqb_refl. reflexivity. Qed.




(** ** C3 *)

(** Whatever the transport answers, an attempt leaves the registers alone,
    and when it ends with [match] still true every column did match. *)
Lemma preset_show_columns_sound K v cs :
  forall st,
    let out := preset_show_columns K v cs st in
    regs (snd out) = regs st /\
    (fst out = true ->
     forallb (fun c => spec_column_matches K v c
                         (regs st (ix (MSI_EC_PRESET_MEMORY_TABLE K) c))) cs
     = true).
Proof.
  induction cs as [|c cs IH]; intros st; simpl.
  - auto.
  - unfold bind, ec_read.
    destruct (next_outcome st) as [[|e] os]; simpl.
    + set (st1 := mkEC (regs st) os
                    (trace st ++ [Rd (ix (MSI_EC_PRESET_MEMORY_TABLE K) c) Good])).
      destruct (IH st1) as [Hr Hm]. simpl in Hr, Hm.
      unfold spec_column_matches at 1.
      destruct (c =? MSI_EC_PRESET_COLUMN_KBD_BL K).
      { simpl. auto. }
      destruct (c =? MSI_EC_PRESET_COLUMN_SILENT_FLAG K).
      { destruct (cell K v c =? _); simpl;
          first [solve [auto] | split; [reflexivity | discriminate]]. }
      destruct (cell K v c =? _); simpl;
        first [solve [auto] | split; [reflexivity | discriminate]].
    + unfold ret. simpl. split; [reflexivity | discriminate].
Qed.

(** A failed read anywhere in an attempt ends it with [match] false. *)
Lemma preset_show_columns_failed K v cs :
  forall st,
    let out := preset_show_columns K v cs st in
    exists evs,
      trace (snd out) = (trace st ++ evs)%list /\
      ((exists a e, In (Rd a (Bad e)) evs) -> fst out = false).
Proof.
  induction cs as [|c cs IH]; intros st; simpl.
  - exists []. rewrite app_nil_r. split; [reflexivity|].
    intros (a & e & []).
  - unfold bind, ec_read.
    destruct (next_outcome st) as [[|e] os]; simpl.
    + set (st1 := mkEC (regs st) os
                    (trace st ++ [Rd (ix (MSI_EC_PRESET_MEMORY_TABLE K) c) Good])).
      destruct (IH st1) as (evs & Ht & Hf). simpl in Ht, Hf.
      assert (Hcont :
        exists evs0,
          trace (snd (preset_show_columns K v cs st1)) = (trace st ++ evs0)%list /\
          ((exists a e, In (Rd a (Bad e)) evs0) ->
           fst (preset_show_columns K v cs st1) = false)).
      { exists (Rd (ix (MSI_EC_PRESET_MEMORY_TABLE K) c) Good :: evs). split.
        - rewrite Ht. unfold st1. simpl. rewrite <- app_assoc. reflexivity.
        - intros (a & e & [Hin|Hin]); [discriminate|].
          apply Hf. exists a, e. exact Hin. }
      assert (Hstop :
        exists evs0,
          trace (snd (ret (A:=bool) false st1)) = (trace st ++ evs0)%list /\
          ((exists a e, In (Rd a (Bad e)) evs0) ->
           fst (ret (A:=bool) false st1) = false)).
      { exists [Rd (ix (MSI_EC_PRESET_MEMORY_TABLE K) c) Good].
        split; [reflexivity|]. intros _. reflexivity. }
      destruct (c =? MSI_EC_PRESET_COLUMN_KBD_BL K); [exact Hcont|].
      destruct (c =? MSI_EC_PRESET_COLUMN_SILENT_FLAG K).
      { destruct (cell K v c =? _); [exact Hcont | exact Hstop]. }
      destruct (cell K v c =? _); simpl; [exact Hcont | exact Hstop].
    + exists [Rd (ix (MSI_EC_PRESET_MEMORY_TABLE K) c) (Bad e)].
      split; [reflexivity|]. intros _. reflexivity.
Qed.

Lemma preset_show_rows_total K vs :
  forall st,
    exists s,
      fst (preset_show_rows K vs st) = Ok (line s) /\
      regs (snd (preset_show_rows K vs st)) = regs st /\
      (s = "custom"%string \/
       exists v, In v vs /\ preset_name K v = Some s /\
                 spec_preset_matches K (regs st) v = true).
Proof.
  induction vs as [|v vs IH]; intros st; simpl.
  - exists "custom"%string. auto.
  - unfold bind.
    destruct (preset_show_columns_sound K v (columns K) st) as [Hr Hm].
    destruct (preset_show_columns K v (columns K) st) as [m st1].
    simpl in Hr, Hm.
    destruct (IH st1) as (s & Hs & Hr1 & Hwhy). rewrite Hr in Hr1, Hwhy.
    assert (Hnext : exists s0,
      fst (preset_show_rows K vs st1) = Ok (line s0) /\
      regs (snd (preset_show_rows K vs st1)) = regs st /\
      (s0 = "custom"%string \/
       exists v0, (v = v0 \/ In v0 vs) /\ preset_name K v0 = Some s0 /\
                  spec_preset_matches K (regs st) v0 = true)).
    { exists s. split; [exact Hs|]. split; [exact Hr1|].
      destruct Hwhy as [->|(v0 & Hin & Hn & Hm0)]; [left; reflexivity|].
      right. exists v0. auto. }
    destruct m; [|exact Hnext].
    destruct (preset_name K v) as [name|] eqn:En; [|exact Hnext].
    exists name. simpl. split; [reflexivity|]. split; [exact Hr|].
    right. exists v. split; [left; reflexivity|]. split; [exact En|].
    apply Hm. reflexivity.
Qed.

(** C3: whatever the registers hold and whatever the transport answers to
    each read, [preset_show] prints a line and returns no error: the name of
    a preset of the table whose columns do match the registers, or "custom";
    it prints "custom" when no named preset matches.  A failed read ends
    only the attempt it occurs in, with no match, and the loop goes on to
    the next preset from the controller as that attempt left it. *)
Theorem C3_preset_show_never_fails :
  forall (K : constants) (st : EC),
    (exists s,
       fst (preset_show K st) = Ok (line s) /\
       regs (snd (preset_show K st)) = regs st /\
       (s = "custom"%string \/
        exists v, In v (rows K) /\ preset_name K v = Some s /\
                  spec_preset_matches K (regs st) v = true)) /\
    ((forall v, In v (rows K) -> preset_name K v <> None ->
        spec_preset_matches K (regs st) v = false) ->
     fst (preset_show K st) = Ok (line "custom")) /\
    (forall v cs,
       let out := preset_show_columns K v cs st in
       exists evs,
         trace (snd out) = (trace st ++ evs)%list /\
         ((exists a e, In (Rd a (Bad e)) evs) -> fst out = false)) /\
    (forall v vs,
       let out := preset_show_columns K v (columns K) st in
       fst out = false ->
       preset_show_rows K (v :: vs) st = preset_show_rows K vs (snd out)).
Proof.
  intros K st.
  pose proof (preset_show_rows_total K (rows K) st) as Htot.
  split; [exact Htot|]. split; [|split].
  - intros Hnone. destruct Htot as (s & Hs & _ & [->|(v & Hin & Hn & Hm)]).
    + exact Hs.
    + rewrite (Hnone v Hin) in Hm; [discriminate|].
      rewrite Hn. discriminate.
  - intros v cs. apply preset_show_columns_failed.
  - intros v vs out Hfalse. simpl. unfold bind. fold out.
    destruct out as [m st1]. simpl in Hfalse. subst m. reflexivity.
Qed.

Lemma C3_preset_show_never_fails_witness :
  let st := scripted (ec_after "silent" 0) [Bad 5; Good; Good; Bad 5] in
  fst (preset_show_columns sample_h 0 (columns sample_h) st) = false /\
  fst (preset_show sample_h st) = Ok (line "custom") /\
  fst (preset_show sample_h (scripted (ec_after "silent" 0) [Bad 5])) =
  Ok (line "silent").
Proof.
  intros st.
  destruct (C3_preset_show_never_fails sample_h st) as (_ & _ & Hfail & Hnext).
  destruct (Hfail 0 (columns sample_h)) as (evs & Ht & Hf).
  assert (Hfalse : fst (preset_show_columns sample_h 0 (columns sample_h) st)
                   = false).
  { apply Hf. exists 145, 5%positive.
    vm_compute in Ht.
    apply (app_inv_head
             [Wr 145 2 Good; Wr 210 193 Good; Wr 235 0 Good; Wr 243 129 Good;
              Rd 212 Good; Wr 212 16 Good; Rd 212 Good; Wr 212 16 Good;
              Rd 212 Good; Wr 212 16 Good]) in Ht.
    rewrite <- Ht. left. reflexivity. }
  split; [exact Hfalse|].
  split; [reflexivity|].
  destruct (C3_preset_show_never_fails sample_h
              (scripted (ec_after "silent" 0) [Bad 5])) as (_ & _ & _ & Hn2).
  unfold preset_show.
  change (rows sample_h) with (0 :: [1; 2; 3]).
  rewrite Hn2 by reflexivity. reflexivity.
Defined.

(** ** C4 *)

Lemma ec_write_trace addr data st :
  exists o, trace (snd (ec_write addr data st)) =
            (trace st ++ [Wr addr data o])%list.
Proof.
  unfold ec_write. destruct (next_outcome st) as [[|e] os]; simpl; eauto.
Qed.

Lemma ec_write_bit_trace addr index set st :
  exists o evs, trace (snd (ec_write_bit addr index set st)) =
                (trace st ++ Rd addr o :: evs)%list.
Proof.
  rewrite ec_write_bit_unfold. unfold ec_read.
  destruct (next_outcome st) as [[|e] os]; simpl.
  - match goal with
    | |- context [ec_write addr ?d ?s] =>
        destruct (ec_write_trace addr d s) as [o Ho]; rewrite Ho
    end.
    simpl. exists Good. eexists. rewrite <- app_assoc. reflexivity.
  - exists (Bad e), []. reflexivity.
Qed.

(** The column loop runs as [columns_run] says, whatever the transport
    answers. *)
Lemma preset_store_columns_run K index cs :
  forall st,
    exists evs,
      trace (snd (preset_store_columns K index cs st)) = (trace st ++ evs)%list /\
      columns_run K index cs (regs st) evs
                  (regs (snd (preset_store_columns K index cs st))).
Proof.
  induction cs as [|c cs IH]; intros st; simpl.
  - exists []. rewrite app_nil_r. split; [reflexivity | constructor].
  - unfold bind.
    destruct (c =? MSI_EC_PRESET_COLUMN_SILENT_FLAG K) eqn:Es.
    + rewrite ec_write_bit_unfold. unfold ec_read.
      destruct (next_outcome st) as [[|e] os] eqn:En; simpl.
      * unfold ec_write, next_outcome. simpl script.
        destruct os as [|[|e2] os2]; simpl;
          match goal with
          | |- context [preset_store_columns K index cs ?s1] =>
              destruct (IH s1) as (evs & Ht & Hrun); simpl in Ht, Hrun
          end.
        -- eexists. split.
           ++ rewrite Ht. rewrite <- !app_assoc. reflexivity.
           ++ apply (run_silent K index c cs (regs st) Good); assumption.
        -- eexists. split.
           ++ rewrite Ht. rewrite <- !app_assoc. reflexivity.
           ++ apply (run_silent K index c cs (regs st) Good); assumption.
        -- eexists. split.
           ++ rewrite Ht. rewrite <- !app_assoc. reflexivity.
           ++ apply (run_silent K index c cs (regs st) (Bad e2)); assumption.
      * match goal with
        | |- context [preset_store_columns K index cs ?s1] =>
            destruct (IH s1) as (evs & Ht & Hrun); simpl in Ht, Hrun
        end.
        eexists. split.
        -- rewrite Ht. rewrite <- !app_assoc. reflexivity.
        -- apply (run_silent_unread K index c cs (regs st) e); assumption.
    + unfold ec_write.
      destruct (next_outcome st) as [[|e] os] eqn:En; simpl;
        match goal with
        | |- context [preset_store_columns K index cs ?s1] =>
            destruct (IH s1) as (evs & Ht & Hrun); simpl in Ht, Hrun
        end.
      * eexists. split.
        -- rewrite Ht. rewrite <- !app_assoc. reflexivity.
        -- apply (run_raw K index c cs (regs st) Good); assumption.
      * eexists. split.
        -- rewrite Ht. rewrite <- !app_assoc. reflexivity.
        -- apply (run_raw K index c cs (regs st) (Bad e)); assumption.
Qed.

(** In a run every raw column has its write of the table's byte, and the
    silent-flag column has either its failed read or its write. *)
Lemma columns_run_attempts K index cs f evs f' :
  columns_run K index cs f evs f' ->
  forall c, In c cs ->
    if c =? MSI_EC_PRESET_COLUMN_SILENT_FLAG K
    then (exists e, In (Rd (ix (MSI_EC_PRESET_MEMORY_TABLE K) c) (Bad e)) evs) \/
         (exists data o,
            In (Wr (ix (MSI_EC_PRESET_MEMORY_TABLE K) c)
                   (with_bit (MSI_EC_FAN_MODE_SILENT_BIT K)
                      (negb (cell K index c =? 0)) data) o) evs)
    else exists o,
           In (Wr (ix (MSI_EC_PRESET_MEMORY_TABLE K) c) (cell K index c) o) evs.
Proof.
  induction 1 as [f | c0 cs f o evs f' Es Hrun IH
                    | c0 cs f e evs f' Es Hrun IH
                    | c0 cs f o evs f' Es Hrun IH];
    intros c Hin.
  - destruct Hin.
  - destruct Hin as [<-|Hin].
    + rewrite Es. exists o. left. reflexivity.
    + specialize (IH c Hin).
      destruct (c =? MSI_EC_PRESET_COLUMN_SILENT_FLAG K).
      * destruct IH as [(e & He)|(d & o' & Hd)];
          [left; exists e; right; exact He
          | right; exists d, o'; right; exact Hd].
      * destruct IH as (o' & Ho'). exists o'. right. exact Ho'.
  - destruct Hin as [<-|Hin].
    + rewrite Es. left. exists e. left. reflexivity.
    + specialize (IH c Hin).
      destruct (c =? MSI_EC_PRESET_COLUMN_SILENT_FLAG K).
      * destruct IH as [(e' & He)|(d & o' & Hd)];
          [left; exists e'; right; exact He
          | right; exists d, o'; right; exact Hd].
      * destruct IH as (o' & Ho'). exists o'. right. exact Ho'.
  - destruct Hin as [<-|Hin].
    + rewrite Es. right. eexists. exists o. right. left. reflexivity.
    + specialize (IH c Hin).
      destruct (c =? MSI_EC_PRESET_COLUMN_SILENT_FLAG K).
      * destruct IH as [(e' & He)|(d & o' & Hd)];
          [left; exists e'; right; right; exact He
          | right; exists d, o'; right; right; exact Hd].
      * destruct IH as (o' & Ho'). exists o'. right. right. exact Ho'.
Qed.

Lemma preset_validate_fan_modes_trace K index st :
  exists evs, trace (snd (preset_validate_fan_modes K index st)) =
              (trace st ++ evs)%list.
Proof.
  unfold preset_validate_fan_modes.
  destruct (negb (index =? MSI_EC_PRESET_HIGH_PERFORMANCE K)).
  - unfold bind, ret.
    destruct (ec_write_bit_trace (MSI_EC_FAN_MODE_ADDRESS K)
                (MSI_EC_FAN_MODE_ADVANCED_BIT K) false st) as (o1 & e1 & H1).
    destruct (ec_write_bit _ _ false st) as [r1 st1]. simpl in H1.
    destruct (ec_write_bit_trace (MSI_EC_FAN_MODE_ADDRESS K)
                (MSI_EC_FAN_MODE_BASIC_BIT K) false st1) as (o2 & e2 & H2).
    destruct (ec_write_bit _ _ false st1) as [r2 st2]. simpl in H2.
    simpl. rewrite H2, H1. rewrite <- app_assoc. eexists. reflexivity.
  - exists []. rewrite app_nil_r. reflexivity.
Qed.

Lemma preset_index_recognised K buf :
  preset_recognised buf = false <-> preset_index K buf = None.
Proof.
  unfold preset_recognised, preset_index.
  destruct (streq buf "super_battery"), (streq buf "silent"),
    (streq buf "balanced"), (streq buf "high_performance"); simpl;
    split; intros H; try reflexivity; discriminate H.
Qed.

(** C4: [preset_store] given a name that is none of super_battery, silent,
    balanced, high_performance returns -EINVAL with the controller untouched
    (no transport call made), and it returns an error in no other case.
    Given one of the four it returns [count] whatever the transport answers,
    and its column loop, before the final fan-mode step makes any call, has
    run as [columns_run] says: every column in table order has had its
    turn, each raw column's write of the table's byte and the silent-flag
    column's read-modify-write are among the loop's own calls whatever the
    earlier writes answered, and a register holds a written byte exactly
    when that write was served. *)
Theorem C4_preset_store_failures :
  forall (K : constants) (buf : string) (count : Z) (st : EC),
    let out := preset_store K buf count st in
    (preset_recognised buf = false -> out = (- EINVAL, st)) /\
    (preset_recognised buf = true ->
       exists index evs_columns evs_final,
         let st1 := snd (preset_store_columns K index (columns K) st) in
         preset_index K buf = Some index /\
         fst out = count /\
         trace st1 = (trace st ++ evs_columns)%list /\
         trace (snd out) = (trace st1 ++ evs_final)%list /\
         columns_run K index (columns K) (regs st) evs_columns (regs st1) /\
         forall c, In c (columns K) ->
           if c =? MSI_EC_PRESET_COLUMN_SILENT_FLAG K
           then (exists e,
                   In (Rd (ix (MSI_EC_PRESET_MEMORY_TABLE K) c) (Bad e))
                      evs_columns) \/
                (exists data o,
                   In (Wr (ix (MSI_EC_PRESET_MEMORY_TABLE K) c)
                          (with_bit (MSI_EC_FAN_MODE_SILENT_BIT K)
                             (negb (cell K index c =? 0)) data) o)
                      evs_columns)
           else exists o,
                  In (Wr (ix (MSI_EC_PRESET_MEMORY_TABLE K) c)
                         (cell K index c) o) evs_columns) /\
    (0 <= count -> fst out < 0 -> preset_recognised buf = false).
Proof.
  intros K buf count st out.
  assert (Hret : forall index, preset_index K buf = Some index ->
            fst out = count /\
            exists evs_final,
              trace (snd out) =
              (trace (snd (preset_store_columns K index (columns K) st))
               ++ evs_final)%list).
  { intros index Ei. unfold out, preset_store. rewrite Ei. unfold bind, ret.
    destruct (preset_store_columns K index (columns K) st) as [u st1].
    destruct (preset_validate_fan_modes_trace K index st1) as (evs2 & Ht2).
    destruct (preset_validate_fan_modes K index st1) as [u2 st2].
    simpl in Ht2. simpl. split; [reflexivity|]. exists evs2. exact Ht2. }
  split; [|split].
  - intros Hno. apply (preset_index_recognised K) in Hno.
    unfold out, preset_store. rewrite Hno. reflexivity.
  - intros Hyes.
    destruct (preset_index K buf) as [index|] eqn:Ei.
    2:{ apply preset_index_recognised in Ei. congruence. }
    destruct (Hret index eq_refl) as (Hcount & evs_final & Hfinal).
    destruct (preset_store_columns_run K index (columns K) st)
      as (evs_columns & Ht & Hrun).
    exists index, evs_columns, evs_final. cbv zeta.
    split; [reflexivity|]. split; [exact Hcount|].
    split; [exact Ht|]. split; [exact Hfinal|]. split; [exact Hrun|].
    exact (columns_run_attempts K index _ _ _ _ Hrun).
  - intros Hc Hneg.
    destruct (preset_recognised buf) eqn:E; [|reflexivity].
    destruct (preset_index K buf) as [index|] eqn:Ei.
    + destruct (Hret index eq_refl) as (Hcount & _). lia.
    + apply preset_index_recognised in Ei. congruence.
Qed.

Lemma C4_preset_store_failures_witness :
  let st := scripted (ec_all 0) [Bad 5; Good; Bad 5] in
  let st1 := snd (preset_store_columns sample_h 2 (columns sample_h) st) in
  preset_store sample_h "turbo" 5 st = (-22, st) /\
  fst (preset_store sample_h "balanced" 8 st) = 8 /\
  (exists o, In (Wr 243 130 o) (trace st1)) /\
  ((exists e, In (Rd 212 (Bad e)) (trace st1)) \/
   (exists data o, In (Wr 212 (with_bit 4 false data) o) (trace st1))).
Proof.
  intros st st1.
  destruct (C4_preset_store_failures sample_h "turbo" 5 st) as (Hno & _ & _).
  destruct (C4_preset_store_failures sample_h "balanced" 8 st)
    as (_ & Hyes & _).
  destruct (Hyes eq_refl)
    as (index & evs_columns & evs_final & Hi & Hret & Ht & _ & _ & Hatt).
  assert (E : index = 2) by (inversion Hi; reflexivity). subst index.
  fold st1 in Ht. change (trace st) with (@nil event) in Ht.
  rewrite app_nil_l in Ht. rewrite Ht.
  split; [exact (Hno eq_refl)|].
  split; [exact Hret|].
  split.
  - apply (Hatt 3). vm_compute. tauto.
  - apply (Hatt 4). vm_compute. tauto.
Defined.

(** ** C5 *)

Lemma ec_write_bit_quiet addr index set st :
  quiet st ->
  let out := ec_write_bit addr index set st in
  let data := with_bit index set (regs st addr) in
  fst out = 0 /\
  regs (snd out) = poke (regs st) addr data /\
  trace (snd out) = (trace st ++ [Rd addr Good; Wr addr data Good])%list /\
  quiet (snd out).
Proof.
  intros Hq. rewrite ec_write_bit_unfold. unfold quiet in *.
  unfold ec_read, ec_write, next_outcome.
  destruct (script st) as [|o os]; simpl.
  - rewrite <- app_assoc. repeat split; constructor.
  - inversion Hq as [|? ? Ho Hos]; subst. simpl.
    destruct os as [|o' os']; simpl.
    + rewrite <- app_assoc. repeat split; constructor.
    + inversion Hos as [|? ? Ho' Hos']; subst. simpl.
      rewrite <- app_assoc. repeat split. exact Hos'.
Qed.

Lemma with_bit_cleared index data :
  Z.testbit (with_bit index false data) index = false.
Proof.
  unfold with_bit. rewrite u8_testbit.
  destruct (Z.ltb_spec index 8); [|reflexivity].
  destruct (Z.ltb_spec index 0).
  - rewrite Z.testbit_neg_r by lia. reflexivity.
  - rewrite Z.land_spec, not_ul_testbit, bit_ul_testbit, Z.eqb_refl by lia.
    simpl. apply andb_false_r.
Qed.

Lemma with_bit_clear_keeps_clear index data j :
  Z.testbit data j = false ->
  Z.testbit (with_bit index false data) j = false.
Proof.
  intros H. unfold with_bit.
  rewrite u8_testbit, Z.land_spec, H. simpl. apply andb_false_r.
Qed.

(** C5: for a recognised name, [preset_store] ends in the controller the
    column loop left when the preset is high_performance (the last step makes
    no transport call); for any other preset, with the transport serving the
    last step's calls, it ends with two read-modify-writes of the fan-mode
    register made after the columns, which leave its advanced bit and its
    basic bit clear and touch no other register (and, the two flags being
    bits of the byte, no other bit of that register). *)
Theorem C5_preset_store_fan_flags :
  forall (K : constants) (buf : string) (count index : Z) (st : EC),
    let fan := MSI_EC_FAN_MODE_ADDRESS K in
    let adv := MSI_EC_FAN_MODE_ADVANCED_BIT K in
    let basic := MSI_EC_FAN_MODE_BASIC_BIT K in
    let st1 := snd (preset_store_columns K index (columns K) st) in
    let st' := snd (preset_store K buf count st) in
    preset_index K buf = Some index ->
    (index = MSI_EC_PRESET_HIGH_PERFORMANCE K -> st' = st1) /\
    (index <> MSI_EC_PRESET_HIGH_PERFORMANCE K -> quiet st1 ->
       let b1 := with_bit adv false (regs st1 fan) in
       let b2 := with_bit basic false b1 in
       is_bit_set adv (regs st' fan) = false /\
       is_bit_set basic (regs st' fan) = false /\
       trace st' =
         (trace st1 ++ [Rd fan Good; Wr fan b1 Good;
                        Rd fan Good; Wr fan b2 Good])%list /\
       (forall a, a <> fan -> regs st' a = regs st1 a) /\
       (0 <= adv <= 7 -> 0 <= basic <= 7 -> 0 <= regs st1 fan < 256 ->
        forall j, j <> adv -> j <> basic ->
          Z.testbit (regs st' fan) j = Z.testbit (regs st1 fan) j)).
Proof.
  intros K buf count index st fan adv basic st1 st' Hi.
  assert (Hst' : st' = snd (preset_validate_fan_modes K index st1)).
  { unfold st', preset_store. rewrite Hi. unfold bind, ret. fold st1.
    unfold st1.
    destruct (preset_store_columns K index (columns K) st) as [u s1]. simpl.
    destruct (preset_validate_fan_modes K index s1) as [u2 s2]. reflexivity. }
  split.
  - intros Hhp. rewrite Hst'. unfold preset_validate_fan_modes.
    rewrite Hhp, Z.eqb_refl. reflexivity.
  - intros Hne Hq b1 b2.
    assert (Hreg : regs st' = poke (poke (regs st1) fan b1) fan b2 /\
                   trace st' =
                     (trace st1 ++ [Rd fan Good; Wr fan b1 Good;
                                    Rd fan Good; Wr fan b2 Good])%list).
    { rewrite Hst'. unfold preset_validate_fan_modes.
      destruct (Z.eqb_spec index (MSI_EC_PRESET_HIGH_PERFORMANCE K));
        [contradiction|]. simpl. unfold bind, ret.
      destruct (ec_write_bit_quiet fan adv false st1 Hq)
        as (_ & Hr1 & Ht1 & Hq1).
      fold fan adv basic.
      destruct (ec_write_bit fan adv false st1) as [r1 s1].
      simpl in Hr1, Ht1, Hq1.
      destruct (ec_write_bit_quiet fan basic false s1 Hq1)
        as (_ & Hr2 & Ht2 & _).
      destruct (ec_write_bit fan basic false s1) as [r2 s2].
      simpl in Hr2, Ht2. simpl.
      assert (Hb1 : regs s1 fan = b1).
      { rewrite Hr1. unfold poke. rewrite Z.eqb_refl. reflexivity. }
      rewrite Hb1 in Hr2, Ht2. fold b2 in Hr2, Ht2.
      split.
      - rewrite Hr2, Hr1. reflexivity.
      - rewrite Ht2, Ht1. rewrite <- app_assoc. reflexivity. }
    destruct Hreg as [Hreg Htr].
    assert (Hfan : regs st' fan = b2).
    { rewrite Hreg. unfold poke. rewrite Z.eqb_refl. reflexivity. }
    rewrite Hfan, !is_bit_set_testbit.
    split; [|split; [|split; [|split]]].
    + unfold b2. apply with_bit_clear_keeps_clear. apply with_bit_cleared.
    + apply with_bit_cleared.
    + exact Htr.
    + intros a Ha. rewrite Hreg. unfold poke.
      destruct (Z.eqb_spec a fan); [contradiction | reflexivity].
    + intros Ha Hb Hbyte j Hja Hjb. unfold b2, b1.
      rewrite !with_bit_other;
        try assumption; try reflexivity; apply with_bit_range.
Qed.

Lemma C5_preset_store_fan_flags_witness :
  let st' := snd (preset_store sample_h "silent" 6 (ec_all 255)) in
  let hp := snd (preset_store sample_h "high_performance" 16 (ec_all 255)) in
  is_bit_set 7 (regs st' 212) = false /\
  is_bit_set 6 (regs st' 212) = false /\
  hp = snd (preset_store_columns sample_h 3 (columns sample_h) (ec_all 255)).
Proof.
  intros st' hp.
  destruct (C5_preset_store_fan_flags sample_h "silent" 6 1 (ec_all 255) eq_refl)
    as (_ & Hclr).
  destruct Hclr as (Ha & Hb & _).
  - simpl. lia.
  - vm_compute. constructor.
  - destruct (C5_preset_store_fan_flags sample_h "high_performance" 16 3
                (ec_all 255) eq_refl) as (Hhp & _).
    split; [exact Ha|]. split; [exact Hb|]. apply Hhp. reflexivity.
Defined.

(** ** C1 *)

Lemma ec_write_quiet addr data st :
  quiet st ->
  fst (ec_write addr data st) = 0 /\
  regs (snd (ec_write addr data st)) = poke (regs st) addr data /\
  quiet (snd (ec_write addr data st)).
Proof.
  intros Hq. destruct (quiet_next st Hq) as [Hg Hrest].
  unfold ec_write. destruct (next_outcome st) as [o os].
  simpl in Hg, Hrest. subst o. simpl. auto.
Qed.

Lemma preset_store_columns_quiet K index cs :
  forall st,
    quiet st ->
    regs (snd (preset_store_columns K index cs st)) =
      stored_columns K index cs (regs st) /\
    quiet (snd (preset_store_columns K index cs st)).
Proof.
  induction cs as [|c cs IH]; intros st Hq; simpl.
  - auto.
  - unfold bind, column_byte.
    destruct (c =? MSI_EC_PRESET_COLUMN_SILENT_FLAG K).
    + destruct (ec_write_bit_quiet (ix (MSI_EC_PRESET_MEMORY_TABLE K) c)
                  (MSI_EC_FAN_MODE_SILENT_BIT K)
                  (negb (cell K index c =? 0)) st Hq) as (_ & Hr & _ & Hq1).
      destruct (ec_write_bit _ _ _ st) as [r st1]. simpl in Hr, Hq1.
      destruct (IH st1 Hq1) as [Hr' Hq']. rewrite Hr in Hr'. auto.
    + destruct (ec_write_quiet (ix (MSI_EC_PRESET_MEMORY_TABLE K) c)
                  (cell K index c) st Hq) as (_ & Hr & Hq1).
      destruct (ec_write _ _ st) as [r st1]. simpl in Hr, Hq1.
      destruct (IH st1 Hq1) as [Hr' Hq']. rewrite Hr in Hr'. auto.
Qed.

Lemma stored_columns_out K index cs :
  forall f a,
    ~ In a (map (ix (MSI_EC_PRESET_MEMORY_TABLE K)) cs) ->
    stored_columns K index cs f a = f a.
Proof.
  induction cs as [|c cs IH]; intros f a Hout; simpl; [reflexivity|].
  rewrite IH by (intros Hin; apply Hout; right; exact Hin).
  unfold poke.
  destruct (Z.eqb_spec a (ix (MSI_EC_PRESET_MEMORY_TABLE K) c)) as [E|E];
    [|reflexivity].
  exfalso. apply Hout. left. symmetry. exact E.
Qed.

Lemma stored_columns_in K index cs :
  forall f c,
    NoDup (map (ix (MSI_EC_PRESET_MEMORY_TABLE K)) cs) ->
    In c cs ->
    stored_columns K index cs f (ix (MSI_EC_PRESET_MEMORY_TABLE K) c) =
    column_byte K index c (f (ix (MSI_EC_PRESET_MEMORY_TABLE K) c)).
Proof.
  induction cs as [|c0 cs IH]; intros f c Hnd Hin; simpl; [destruct Hin|].
  inversion Hnd as [|? ? Hnotin Hnd']; subst.
  destruct Hin as [->|Hin].
  - rewrite stored_columns_out by exact Hnotin.
    unfold poke. rewrite Z.eqb_refl. reflexivity.
  - rewrite IH by assumption. f_equal. unfold poke.
    destruct (Z.eqb_spec (ix (MSI_EC_PRESET_MEMORY_TABLE K) c)
                (ix (MSI_EC_PRESET_MEMORY_TABLE K) c0)) as [E|E];
      [|reflexivity].
    exfalso. apply Hnotin. rewrite <- E. apply in_map. exact Hin.
Qed.

Lemma preset_validate_fan_modes_quiet K index st :
  quiet st ->
  let fan := MSI_EC_FAN_MODE_ADDRESS K in
  let b1 := with_bit (MSI_EC_FAN_MODE_ADVANCED_BIT K) false (regs st fan) in
  let b2 := with_bit (MSI_EC_FAN_MODE_BASIC_BIT K) false b1 in
  let out := snd (preset_validate_fan_modes K index st) in
  quiet out /\
  (regs out = regs st \/ regs out = poke (poke (regs st) fan b1) fan b2).
Proof.
  intros Hq fan b1 b2 out. unfold out, preset_validate_fan_modes.
  destruct (negb (index =? MSI_EC_PRESET_HIGH_PERFORMANCE K)).
  - unfold bind, ret. fold fan.
    destruct (ec_write_bit_quiet fan (MSI_EC_FAN_MODE_ADVANCED_BIT K) false
                st Hq) as (_ & Hr1 & _ & Hq1).
    destruct (ec_write_bit fan _ false st) as [r1 s1]. simpl in Hr1, Hq1.
    destruct (ec_write_bit_quiet fan (MSI_EC_FAN_MODE_BASIC_BIT K) false
                s1 Hq1) as (_ & Hr2 & _ & Hq2).
    destruct (ec_write_bit fan _ false s1) as [r2 s2]. simpl in Hr2, Hq2.
    assert (Hb1 : regs s1 fan = b1).
    { rewrite Hr1. unfold poke. rewrite Z.eqb_refl. reflexivity. }
    rewrite Hb1 in Hr2.
    simpl. split; [exact Hq2|]. right.
    rewrite Hr2, Hr1. reflexivity.
  - simpl. auto.
Qed.

Lemma preset_store_unfold K buf count index st :
  preset_index K buf = Some index ->
  preset_store K buf count st =
  (count,
   snd (preset_validate_fan_modes K index
          (snd (preset_store_columns K index (columns K) st)))).
Proof.
  intros Hi. unfold preset_store. rewrite Hi. unfold bind, ret.
  destruct (preset_store_columns K index (columns K) st) as [u s1]. simpl.
  destruct (preset_validate_fan_modes K index s1) as [u2 s2]. reflexivity.
Qed.

Lemma forallb_false_at {A : Type} (p : A -> bool) (l : list A) (x : A) :
  In x l -> p x = false -> forallb p l = false.
Proof.
  intros Hin Hp. destruct (forallb p l) eqn:E; [|reflexivity].
  rewrite forallb_forall in E. rewrite (E x Hin) in Hp. discriminate.
Qed.

Lemma upto_In n v : In v (upto n) <-> 0 <= v < Z.of_nat n.
Proof.
  unfold upto. rewrite in_map_iff. split.
  - intros (k & <- & Hk). apply in_seq in Hk. lia.
  - intros Hv. exists (Z.to_nat v). split; [lia|]. apply in_seq. lia.
Qed.

Lemma upto_split n v :
  In v (upto n) ->
  exists before after,
    upto n = (before ++ v :: after)%list /\
    forall u, In u before -> In u (upto n) /\ u < v.
Proof.
  intros Hin. apply upto_In in Hin.
  set (k := Z.to_nat v).
  exists (upto k), (map Z.of_nat (seq (S k) (n - S k))). split.
  - unfold upto.
    replace n with (k + S (n - S k))%nat at 1 by lia.
    rewrite seq_app, map_app. simpl.
    replace (Z.of_nat k) with v by lia. reflexivity.
  - intros u Hu. apply upto_In in Hu. split; [apply upto_In|]; lia.
Qed.

Lemma preset_index_balanced K :
  preset_index K "balanced" = Some (MSI_EC_PRESET_BALANCED K).
Proof. reflexivity. Qed.

(** What the registers of the preset columns hold once the balanced preset
    has been stored with every transport call served. *)
Lemma balanced_store_regs K count st :
  balanced_header_ok K -> quiet st ->
  let st' := snd (preset_store K "balanced" count st) in
  let mem := MSI_EC_PRESET_MEMORY_TABLE K in
  let sil := MSI_EC_PRESET_COLUMN_SILENT_FLAG K in
  let bal := MSI_EC_PRESET_BALANCED K in
  quiet st' /\
  (forall c, In c (columns K) -> c <> sil ->
     regs st' (ix mem c) = cell K bal c) /\
  (In sil (columns K) ->
     Z.b2z (is_bit_set (MSI_EC_FAN_MODE_SILENT_BIT K) (regs st' (ix mem sil)))
     = cell K bal sil).
Proof.
  intros Hok Hq st' mem sil bal. subst mem.
  unfold st'. rewrite (preset_store_unfold K _ count _ st (preset_index_balanced K)).
  simpl snd. fold bal.
  destruct (preset_store_columns_quiet K bal (columns K) st Hq) as [Hr1 Hq1].
  set (st1 := snd (preset_store_columns K bal (columns K) st)) in *.
  destruct (preset_validate_fan_modes_quiet K bal st1 Hq1) as [Hq2 Hr2].
  set (st2 := snd (preset_validate_fan_modes K bal st1)) in *.
  set (fan := MSI_EC_FAN_MODE_ADDRESS K) in *.
  set (w := with_bit (MSI_EC_FAN_MODE_SILENT_BIT K)
                     (negb (cell K bal sil =? 0)) (regs st (ix (MSI_EC_PRESET_MEMORY_TABLE K) sil))).
  assert (Hraw : forall c, In c (columns K) -> c <> sil ->
            regs st1 (ix (MSI_EC_PRESET_MEMORY_TABLE K) c) = cell K bal c).
  { intros c Hin Hne. rewrite Hr1.
    rewrite (stored_columns_in K bal (columns K) (regs st) c (bal_addrs K Hok) Hin).
    unfold column_byte. fold sil.
    destruct (Z.eqb_spec c sil); [contradiction | reflexivity]. }
  assert (Hsil : In sil (columns K) -> regs st1 (ix (MSI_EC_PRESET_MEMORY_TABLE K) sil) = w).
  { intros Hin. rewrite Hr1.
    rewrite (stored_columns_in K bal (columns K) (regs st) sil
               (bal_addrs K Hok) Hin).
    unfold column_byte. fold sil. rewrite Z.eqb_refl. reflexivity. }
  assert (Hw : Z.b2z (Z.testbit w (MSI_EC_FAN_MODE_SILENT_BIT K))
               = cell K bal sil).
  { unfold w. rewrite with_bit_same by exact (bal_silent_bit K Hok).
    destruct (bal_flag K Hok) as [E|E]; fold bal sil in E; rewrite E;
      reflexivity. }
  split; [exact Hq2|]. split.
  - intros c Hin Hne.
    destruct Hr2 as [-> | ->]; [apply Hraw; assumption|].
    unfold poke.
    destruct (Z.eqb_spec (ix (MSI_EC_PRESET_MEMORY_TABLE K) c) fan) as [E|E].
    + exfalso. exact (bal_fan_sep K Hok c Hin Hne E).
    + apply Hraw; assumption.
  - intros Hin. rewrite is_bit_set_testbit.
    destruct Hr2 as [-> | ->]; [rewrite (Hsil Hin); exact Hw|].
    unfold poke.
    destruct (Z.eqb_spec (ix (MSI_EC_PRESET_MEMORY_TABLE K) sil) fan) as [E|E].
    + rewrite <- E, (Hsil Hin).
      rewrite with_bit_other;
        [| exact (bal_basic_bit K Hok) | apply with_bit_range
         | exact (bal_silent_basic K Hok)].
      rewrite with_bit_other;
        [| exact (bal_advanced_bit K Hok) | apply with_bit_range
         | exact (bal_silent_advanced K Hok)].
      exact Hw.
    + rewrite (Hsil Hin). exact Hw.
Qed.

Lemma preset_name_balanced K :
  balanced_header_ok K ->
  preset_name K (MSI_EC_PRESET_BALANCED K) = Some "balanced"%string.
Proof.
  intros Hok. unfold preset_name.
  destruct (Z.eqb_spec (MSI_EC_PRESET_BALANCED K) (MSI_EC_PRESET_SUPER_BATTERY K))
    as [E|_]; [exfalso; exact (bal_not_super_battery K Hok E)|].
  destruct (Z.eqb_spec (MSI_EC_PRESET_BALANCED K) (MSI_EC_PRESET_SILENT K))
    as [E|_]; [exfalso; exact (bal_not_silent K Hok E)|].
  rewrite Z.eqb_refl. reflexivity.
Qed.

(** Registers that hold the balanced row in every compared column classify
    as balanced. *)
Lemma spec_classify_balanced K f :
  balanced_header_ok K ->
  let mem := MSI_EC_PRESET_MEMORY_TABLE K in
  let sil := MSI_EC_PRESET_COLUMN_SILENT_FLAG K in
  let bal := MSI_EC_PRESET_BALANCED K in
  (forall c, In c (columns K) -> c <> sil -> f (ix mem c) = cell K bal c) ->
  (In sil (columns K) ->
     Z.b2z (is_bit_set (MSI_EC_FAN_MODE_SILENT_BIT K) (f (ix mem sil)))
     = cell K bal sil) ->
  spec_classify K f = "balanced"%string.
Proof.
  intros Hok mem sil bal Hraw Hsil. subst mem.
  assert (Hcol : forall v c, In c (columns K) ->
            c <> MSI_EC_PRESET_COLUMN_KBD_BL K ->
            spec_column_matches K v c (f (ix (MSI_EC_PRESET_MEMORY_TABLE K) c)) =
            (cell K v c =? cell K bal c)).
  { intros v c Hin Hk. unfold spec_column_matches.
    destruct (Z.eqb_spec c (MSI_EC_PRESET_COLUMN_KBD_BL K)); [contradiction|].
    fold sil. destruct (Z.eqb_spec c sil) as [->|Hs].
    - rewrite (Hsil Hin). reflexivity.
    - rewrite (Hraw c Hin Hs). reflexivity. }
  assert (Hbal : spec_preset_matches K f bal = true).
  { unfold spec_preset_matches. apply forallb_forall. intros c Hin.
    destruct (Z.eq_dec c (MSI_EC_PRESET_COLUMN_KBD_BL K)) as [->|Hk].
    - apply spec_column_matches_kbd.
    - rewrite (Hcol bal c Hin Hk). apply Z.eqb_refl. }
  assert (Hearlier : forall v, In v (rows K) -> v < bal ->
            (if spec_preset_matches K f v
             then match preset_name K v with
                  | Some name => [name]
                  | None => []
                  end
             else []) = []).
  { intros v Hin Hlt.
    destruct (preset_name K v) as [name|] eqn:En;
      [|destruct (spec_preset_matches K f v); reflexivity].
    destruct (bal_first K Hok v Hin Hlt) as (c & Hc & Hk & Hdiff).
    { rewrite En. discriminate. }
    assert (Hno : spec_preset_matches K f v = false).
    { unfold spec_preset_matches. apply (forallb_false_at _ _ c Hc).
      rewrite (Hcol v c Hc Hk). apply Z.eqb_neq. exact Hdiff. }
    rewrite Hno. reflexivity. }
  unfold spec_classify, spec_candidates.
  destruct (upto_split _ _ (bal_row K Hok)) as (before & after & Hsplit & Hb).
  fold (rows K) in Hsplit, Hb. fold bal in Hsplit, Hb.
  rewrite Hsplit, flat_map_app.
  assert (Hnil : flat_map
            (fun v => if spec_preset_matches K f v
                      then match preset_name K v with
                           | Some name => [name]
                           | None => []
                           end
                      else []) before = []).
  { clear Hsplit. induction before as [|u before IH]; simpl; [reflexivity|].
    destruct (Hb u (or_introl eq_refl)) as [Hin Hlt].
    rewrite (Hearlier u Hin Hlt). simpl.
    apply IH. intros u' Hu'. apply Hb. right. exact Hu'. }
  rewrite Hnil. simpl. rewrite Hbal.
  unfold bal. rewrite (preset_name_balanced K Hok). reflexivity.
Qed.

(** Whatever the well-formed header, storing the balanced preset changes
    the register of the keyboard-backlight column as soon as it held
    anything but the table's byte. *)
Lemma balanced_store_changes_kbd K count st :
  balanced_header_ok K -> quiet st ->
  let kbd_addr := ix (MSI_EC_PRESET_MEMORY_TABLE K)
                     (MSI_EC_PRESET_COLUMN_KBD_BL K) in
  regs st kbd_addr <>
    cell K (MSI_EC_PRESET_BALANCED K) (MSI_EC_PRESET_COLUMN_KBD_BL K) ->
  regs (snd (preset_store K "balanced" count st)) kbd_addr <> regs st kbd_addr.
Proof.
  intros Hok Hq kbd_addr Hne.
  destruct (balanced_store_regs K count st Hok Hq) as (_ & Hraw & _).
  unfold kbd_addr.
  rewrite (Hraw _ (bal_kbd_in K Hok) (bal_kbd_raw K Hok)).
  intros E. apply Hne. symmetry. exact E.
Qed.

(** C1, as the code has it: with the header well formed for the balanced
    preset and every transport call served, [preset_store] of "balanced"
    returns [count] and leaves in the register of the keyboard-backlight
    column the balanced row's byte for that column, whatever it held before
    (the column is written like every other raw column), and [preset_show]
    right afterwards prints "balanced". *)
Theorem C1_balanced_store_then_show :
  forall (K : constants) (count : Z) (st : EC),
    balanced_header_ok K ->
    quiet st ->
    let out := preset_store K "balanced" count st in
    let kbd := MSI_EC_PRESET_COLUMN_KBD_BL K in
    fst out = count /\
    regs (snd out) (ix (MSI_EC_PRESET_MEMORY_TABLE K) kbd) =
      cell K (MSI_EC_PRESET_BALANCED K) kbd /\
    fst (preset_show K (snd out)) = Ok (line "balanced").
Proof.
  intros K count st Hok Hq out kbd.
  destruct (balanced_store_regs K count st Hok Hq) as (Hq' & Hraw & Hsil).
  fold out in Hq', Hraw, Hsil.
  split; [|split].
  - unfold out.
    rewrite (preset_store_unfold K _ count _ st (preset_index_balanced K)).
    reflexivity.
  - apply Hraw; [exact (bal_kbd_in K Hok) | exact (bal_kbd_raw K Hok)].
  - destruct (preset_show_rows_quiet K (rows K) (snd out) Hq') as [Hv _].
    unfold preset_show. rewrite Hv.
    fold (spec_classify K (regs (snd out))).
    rewrite (spec_classify_balanced K (regs (snd out)) Hok Hraw Hsil).
    reflexivity.
Qed.

Lemma sample_h_balanced_ok : balanced_header_ok sample_h.
Proof.
  constructor.
  - vm_compute. tauto.
  - simpl. lia.
  - vm_compute. repeat constructor; simpl; intros H;
      repeat (destruct H as [H|H]; [discriminate H|]); exact H.
  - intros c Hin Hne. vm_compute in Hin. simpl in Hne.
    destruct Hin as [<-|[<-|[<-|[<-|[<-|[]]]]]]; vm_compute;
      try discriminate. contradiction.
  - simpl. lia.
  - simpl. lia.
  - simpl. lia.
  - simpl. lia.
  - simpl. lia.
  - vm_compute. tauto.
  - simpl. lia.
  - simpl. lia.
  - left. reflexivity.
  - intros v Hin Hlt Hnamed. vm_compute in Hin. simpl in Hlt.
    destruct Hin as [<-|[<-|[<-|[<-|[]]]]]; try lia.
    + exists 1. split; [vm_compute; tauto|]. split; [simpl; lia|].
      vm_compute. discriminate.
    + exists 4. split; [vm_compute; tauto|]. split; [simpl; lia|].
      vm_compute. discriminate.
Defined.

Lemma C1_balanced_store_then_show_witness :
  let out := preset_store sample_h "balanced" 8 (ec_all 0) in
  fst out = 8 /\
  regs (snd out) 243 = 130 /\
  fst (preset_show sample_h (snd out)) = Ok (line "balanced").
Proof.
  intros out.
  exact (C1_balanced_store_then_show sample_h 8 (ec_all 0)
           sample_h_balanced_ok (Forall_nil _)).
Defined.

(** The claim of C1 fails on the code: a controller whose registers all
    hold 0 has, after [preset_store] of "balanced" with every call served,
    the table's 130 in the register of the keyboard-backlight column. *)
Lemma C1_balanced_overwrites_keyboard_backlight :
  let out := preset_store sample_h "balanced" 8 (ec_all 0) in
  let kbd_addr := ix (MSI_EC_PRESET_MEMORY_TABLE sample_h)
                     (MSI_EC_PRESET_COLUMN_KBD_BL sample_h) in
  fst out = 8 /\
  Forall (fun ev => match ev with Rd _ o | Wr _ _ o => o = Good end)
         (trace (snd out)) /\
  regs (ec_all 0) kbd_addr = 0 /\
  regs (snd out) kbd_addr = 130 /\
  regs (snd out) kbd_addr <> regs (ec_all 0) kbd_addr.
Proof.
  vm_compute. repeat split; try discriminate.
  repeat constructor.
Qed.

(** * Further properties of the driver *)

(** ** The sequence read and the read-modify-write *)

Lemma ec_read_bad_script addr st e os :
  script st = Bad e :: os ->
  ec_read addr st =
  (Errno (Z.neg e), mkEC (regs st) os (trace st ++ [Rd addr (Bad e)])).
Proof. intros Hs. unfold ec_read, next_outcome. rewrite Hs. reflexivity. Qed.

Lemma ec_read_seq_from_stops addr k :
  forall n i buf st e rest,
    script st = (repeat Good k ++ Bad e :: rest)%list ->
    (k < n)%nat ->
    let out := ec_read_seq_from addr (Z.of_nat i) n buf st in
    fst out = Errno (Z.neg e) /\
    script (snd out) = rest /\
    regs (snd out) = regs st /\
    trace (snd out) =
      (trace st ++
       map (fun j => Rd (u8 (addr + j)) Good) (map Z.of_nat (seq i k)) ++
       [Rd (u8 (addr + Z.of_nat (i + k))) (Bad e)])%list.
Proof.
  induction k as [|k IH]; intros n i buf st e rest Hs Hlt;
    destruct n as [|n]; try lia; simpl.
  - unfold bind, ec_read, next_outcome. simpl in Hs. rewrite Hs. simpl.
    rewrite Nat.add_0_r. auto.
  - unfold bind, ec_read, next_outcome. simpl in Hs. rewrite Hs. simpl.
    replace (Z.of_nat i + 1) with (Z.of_nat (S i)) by lia.
    set (st1 := mkEC (regs st) (repeat Good k ++ Bad e :: rest)%list
                  (trace st ++ [Rd (u8 (addr + Z.of_nat i)) Good])).
    assert (Hk : (k < n)%nat) by lia.
    destruct (IH n (S i) (buf ++ [regs st (u8 (addr + Z.of_nat i))])%list
                st1 e rest eq_refl Hk) as (Hv & Hsc & Hr & Ht).
    replace (S i + k)%nat with (i + S k)%nat in Ht by lia.
    split; [exact Hv|]. split; [exact Hsc|]. split; [exact Hr|].
    rewrite Ht. unfold st1. cbn [trace seq map].
    rewrite <- app_assoc. reflexivity.
Qed.

Lemma seq_regs_length f addr len :
  List.length (seq_regs f addr len) = Z.to_nat len.
Proof. unfold seq_regs, upto. rewrite !length_map, length_seq. reflexivity. Qed.

(** X1: [ec_read_seq] served throughout returns exactly [len] bytes, those
    of the [len] registers from [addr] on, and leaves the registers alone;
    when the read of byte [k] is the first to fail it returns that read's
    errno and stops there: [k] reads were served, the failing one follows,
    and the transport is not called again. *)
Theorem X1_ec_read_seq_all_or_first_failure :
  forall (addr len : Z) (st : EC),
    (quiet st ->
       exists bytes,
         fst (ec_read_seq addr len st) = Ok bytes /\
         bytes = seq_regs (regs st) addr len /\
         List.length bytes = Z.to_nat len /\
         regs (snd (ec_read_seq addr len st)) = regs st) /\
    (forall k e rest,
       script st = (repeat Good k ++ Bad e :: rest)%list ->
       (k < Z.to_nat len)%nat ->
       let out := ec_read_seq addr len st in
       fst out = Errno (Z.neg e) /\
       script (snd out) = rest /\
       regs (snd out) = regs st /\
       trace (snd out) =
         (trace st ++
          map (fun j => Rd (u8 (addr + j)) Good) (upto k) ++
          [Rd (u8 (addr + Z.of_nat k)) (Bad e)])%list).
Proof.
  intros addr len st. split.
  - intros Hq. destruct (ec_read_seq_quiet addr len st Hq) as (Hv & Hr & _).
    exists (seq_regs (regs st) addr len).
    split; [exact Hv|]. split; [reflexivity|].
    split; [apply seq_regs_length | exact Hr].
  - intros k e rest Hs Hlt.
    exact (ec_read_seq_from_stops addr k (Z.to_nat len) 0%nat [] st e rest
             Hs Hlt).
Qed.

Lemma X1_ec_read_seq_all_or_first_failure_witness :
  fst (ec_read_seq 172 8 ec_release_example) = Ok (bytes_of "09152023") /\
  fst (ec_read_seq 172 8 (scripted ec_release_example [Good; Good; Bad 5; Bad 7]))
  = Errno (-5) /\
  script (snd (ec_read_seq 172 8
                 (scripted ec_release_example [Good; Good; Bad 5; Bad 7])))
  = [Bad 7].
Proof.
  destruct (X1_ec_read_seq_all_or_first_failure 172 8 ec_release_example)
    as [Hall _].
  destruct (Hall (Forall_nil _)) as (bytes & Hv & Hb & _).
  destruct (X1_ec_read_seq_all_or_first_failure 172 8
              (scripted ec_release_example [Good; Good; Bad 5; Bad 7]))
    as [_ Hstop].
  assert (Hk : (2 < Z.to_nat 8)%nat) by (simpl; lia).
  destruct (Hstop 2%nat 5%positive [Bad 7] eq_refl Hk) as (Hf & Hs & _).
  split; [rewrite Hv, Hb; reflexivity|]. split; [exact Hf | exact Hs].
Defined.

(** X2: [ec_write_bit] returns 0 or a negative errno; when it fails, no
    register has changed (a failed read means no write is even attempted),
    and whether it fails or not it changes no register but [addr]. *)
Theorem X2_ec_write_bit_failure_changes_nothing :
  forall (addr index : Z) (set : bool) (st : EC),
    let out := ec_write_bit addr index set st in
    (fst out = 0 \/ fst out < 0) /\
    (fst out < 0 -> regs (snd out) = regs st) /\
    (forall e os, script st = Bad e :: os ->
       out = (Z.neg e, mkEC (regs st) os (trace st ++ [Rd addr (Bad e)]))) /\
    (forall a, a <> addr -> regs (snd out) a = regs st a).
Proof.
  intros addr index set st out.
  split; [apply ec_write_bit_code|].
  unfold out. rewrite ec_write_bit_unfold.
  unfold ec_read, ec_write, next_outcome, poke.
  destruct (script st) as [|[|e] os]; simpl.
  - split; [lia|]. split; [discriminate|].
    intros a Ha. destruct (Z.eqb_spec a addr); [contradiction | reflexivity].
  - destruct os as [|[|e] os]; simpl.
    + split; [lia|]. split; [discriminate|].
      intros a Ha. destruct (Z.eqb_spec a addr); [contradiction | reflexivity].
    + split; [lia|]. split; [discriminate|].
      intros a Ha. destruct (Z.eqb_spec a addr); [contradiction | reflexivity].
    + split; [reflexivity|]. split; [discriminate|]. reflexivity.
  - split; [reflexivity|]. split; [|reflexivity].
    intros e0 os0 E. inversion E. reflexivity.
Qed.

Lemma X2_ec_write_bit_failure_changes_nothing_witness :
  let st := scripted (ec_all 255) [Good; Bad 5] in
  fst (ec_write_bit 212 4 false st) = -5 /\
  regs (snd (ec_write_bit 212 4 false st)) 212 = 255.
Proof.
  intros st.
  destruct (X2_ec_write_bit_failure_changes_nothing 212 4 false st)
    as (_ & Hsame & _).
  assert (Hneg : fst (ec_write_bit 212 4 false st) < 0) by (vm_compute; reflexivity).
  split; [reflexivity|]. rewrite (Hsame Hneg). reflexivity.
Defined.

(** ** The flag attributes: webcam, cooler boost, key swap *)

Lemma ec_write_bit_frame addr index set st a :
  a <> addr -> regs (snd (ec_write_bit addr index set st)) a = regs st a.
Proof.
  intros Ha. rewrite ec_write_bit_unfold.
  unfold ec_read, ec_write, next_outcome, poke.
  destruct (script st) as [|[|e] os]; simpl.
  - destruct (Z.eqb_spec a addr); [contradiction | reflexivity].
  - destruct os as [|[|e] os]; simpl; try reflexivity;
      destruct (Z.eqb_spec a addr); try contradiction; reflexivity.
  - reflexivity.
Qed.

(** After a served read-modify-write the next served read sees the bit. *)
Lemma ec_write_bit_then_read addr bit v st :
  quiet st -> 0 <= bit <= 7 ->
  let st1 := snd (ec_write_bit addr bit v st) in
  fst (ec_write_bit addr bit v st) = 0 /\
  quiet st1 /\
  fst (ec_read addr st1) = Ok (regs st1 addr) /\
  is_bit_set bit (regs st1 addr) = v.
Proof.
  intros Hq Hb st1.
  destruct (ec_write_bit_quiet addr bit v st Hq) as (H0 & Hr & _ & Hq1).
  fold st1 in Hr, Hq1.
  split; [exact H0|]. split; [exact Hq1|].
  split; [apply (ec_read_quiet addr st1 Hq1)|].
  rewrite Hr. unfold poke. rewrite Z.eqb_refl, is_bit_set_testbit.
  apply with_bit_same. exact Hb.
Qed.

(** The shape shared by the four bit-flag [_store] handlers: two tests of
    [buf] in a row, each starting a read-modify-write of the same bit. *)
Lemma two_way_store addr bit (x y : string) (vx vy : bool) buf count st :
  let store :=
    result <- (if streq buf x then ec_write_bit addr bit vx
               else ret (- EINVAL)) ;;
    result <- (if streq buf y then ec_write_bit addr bit vy
               else ret result) ;;
    (if result <? 0 then ret result else ret count) in
  (streq buf x = false -> streq buf y = false -> store st = (- EINVAL, st)) /\
  (streq buf x = true -> streq buf y = false -> quiet st ->
     store st = (count, snd (ec_write_bit addr bit vx st))) /\
  (streq buf x = false -> streq buf y = true -> quiet st ->
     store st = (count, snd (ec_write_bit addr bit vy st))) /\
  (forall a, a <> addr -> regs (snd (store st)) a = regs st a).
Proof.
  intros store. unfold store, bind, ret.
  split; [|split; [|split]].
  - intros -> ->. reflexivity.
  - intros -> -> Hq.
    destruct (ec_write_bit_quiet addr bit vx st Hq) as (H0 & _).
    destruct (ec_write_bit addr bit vx st) as [r st1]. simpl in *.
    subst r. reflexivity.
  - intros -> -> Hq.
    destruct (ec_write_bit_quiet addr bit vy st Hq) as (H0 & _).
    destruct (ec_write_bit addr bit vy st) as [r st1]. simpl in *.
    subst r. reflexivity.
  - intros a Ha.
    assert (F1 := ec_write_bit_frame addr bit vx st a Ha).
    destruct (streq buf x).
    + destruct (ec_write_bit addr bit vx st) as [r st1]. simpl in F1.
      assert (F2 := ec_write_bit_frame addr bit vy st1 a Ha).
      destruct (streq buf y).
      * destruct (ec_write_bit addr bit vy st1) as [r2 st2]. simpl in F2.
        destruct (r2 <? 0); simpl; congruence.
      * destruct (r <? 0); simpl; exact F1.
    + assert (F2 := ec_write_bit_frame addr bit vy st a Ha).
      destruct (streq buf y).
      * destruct (ec_write_bit addr bit vy st) as [r2 st2]. simpl in F2.
        destruct (r2 <? 0); simpl; exact F2.
      * simpl. reflexivity.
Qed.

Lemma streq_on_off buf :
  (streq buf "on" = true -> streq buf "off" = false) /\
  (streq buf "off" = true -> streq buf "on" = false).
Proof.
  split; intros E; apply streq_true in E; destruct E as [-> | ->]; reflexivity.
Qed.

Lemma streq_left_right buf :
  (streq buf "left" = true -> streq buf "right" = false) /\
  (streq buf "right" = true -> streq buf "left" = false).
Proof.
  split; intros E; apply streq_true in E; destruct E as [-> | ->]; reflexivity.
Qed.

(** X3: [webcam_store] rejects any text but "on" and "off" (each with or
    without a final newline) with -EINVAL before any transport call; with
    the transport serving, storing "on" or "off" returns [count] and
    [webcam_show] then prints the same word; in no case does it change a
    register other than the webcam's. *)
Theorem X3_webcam_store_then_show :
  forall (H : mode_constants) (buf : string) (count : Z) (st : EC),
    0 <= MSI_EC_WEBCAM_BIT H <= 7 ->
    let out := webcam_store H buf count st in
    (streq buf "on" = false -> streq buf "off" = false ->
       out = (- EINVAL, st)) /\
    (quiet st -> streq buf "on" = true ->
       fst out = count /\ fst (webcam_show H (snd out)) = Ok (line "on")) /\
    (quiet st -> streq buf "off" = true ->
       fst out = count /\ fst (webcam_show H (snd out)) = Ok (line "off")) /\
    (forall a, a <> MSI_EC_WEBCAM_ADDRESS H -> regs (snd out) a = regs st a).
Proof.
  intros H buf count st Hbit out.
  destruct (two_way_store (MSI_EC_WEBCAM_ADDRESS H) (MSI_EC_WEBCAM_BIT H)
              "on" "off" true false buf count st)
    as (Hbad & Hon & Hoff & Hframe).
  destruct (streq_on_off buf) as [Hx Hy].
  split; [exact Hbad|]. split; [|split; [|exact Hframe]].
  - intros Hq E. unfold out, webcam_store.
    rewrite (Hon E (Hx E) Hq). simpl fst. simpl snd.
    destruct (ec_write_bit_then_read (MSI_EC_WEBCAM_ADDRESS H) _ true st Hq Hbit)
      as (_ & _ & Hrd & Hset).
    split; [reflexivity|]. unfold webcam_show, bind, ret.
    destruct (ec_read _ _) as [r st2]. simpl in Hrd. subst r.
    rewrite Hset. reflexivity.
  - intros Hq E. unfold out, webcam_store.
    rewrite (Hoff (Hy E) E Hq). simpl fst. simpl snd.
    destruct (ec_write_bit_then_read (MSI_EC_WEBCAM_ADDRESS H) _ false st Hq Hbit)
      as (_ & _ & Hrd & Hset).
    split; [reflexivity|]. unfold webcam_show, bind, ret.
    destruct (ec_read _ _) as [r st2]. simpl in Hrd. subst r.
    rewrite Hset. reflexivity.
Qed.

Lemma X3_webcam_store_then_show_witness :
  webcam_store sample_modes "auto" 4 (ec_all 0) = (-22, ec_all 0) /\
  fst (webcam_show sample_modes
         (snd (webcam_store sample_modes "on" 2 (ec_all 0)))) = Ok (line "on").
Proof.
  assert (Hbit : 0 <= MSI_EC_WEBCAM_BIT sample_modes <= 7) by (simpl; lia).
  destruct (X3_webcam_store_then_show sample_modes "auto" 4 (ec_all 0) Hbit)
    as (Hbad & _).
  destruct (X3_webcam_store_then_show sample_modes "on" 2 (ec_all 0) Hbit)
    as (_ & Hon & _).
  split; [exact (Hbad eq_refl eq_refl)|].
  exact (proj2 (Hon (Forall_nil _) eq_refl)).
Defined.

(** X4: [cooler_boost_store] rejects any text but "on" and "off" with
    -EINVAL before any transport call; with the transport serving, storing
    "on" or "off" returns [count] and [cooler_boost_show] then prints the
    same word; in no case does it change a register other than the cooler
    boost's. *)
Theorem X4_cooler_boost_store_then_show :
  forall (H : mode_constants) (buf : string) (count : Z) (st : EC),
    0 <= MSI_EC_COOLER_BOOST_BIT H <= 7 ->
    let out := cooler_boost_store H buf count st in
    (streq buf "on" = false -> streq buf "off" = false ->
       out = (- EINVAL, st)) /\
    (quiet st -> streq buf "on" = true ->
       fst out = count /\
       fst (cooler_boost_show H (snd out)) = Ok (line "on")) /\
    (quiet st -> streq buf "off" = true ->
       fst out = count /\
       fst (cooler_boost_show H (snd out)) = Ok (line "off")) /\
    (forall a, a <> MSI_EC_COOLER_BOOST_ADDRESS H ->
       regs (snd out) a = regs st a).
Proof.
  intros H buf count st Hbit out.
  destruct (two_way_store (MSI_EC_COOLER_BOOST_ADDRESS H)
              (MSI_EC_COOLER_BOOST_BIT H) "on" "off" true false buf count st)
    as (Hbad & Hon & Hoff & Hframe).
  destruct (streq_on_off buf) as [Hx Hy].
  split; [exact Hbad|]. split; [|split; [|exact Hframe]].
  - intros Hq E. unfold out, cooler_boost_store.
    rewrite (Hon E (Hx E) Hq). simpl fst. simpl snd.
    destruct (ec_write_bit_then_read (MSI_EC_COOLER_BOOST_ADDRESS H) _ true st Hq Hbit)
      as (_ & _ & Hrd & Hset).
    split; [reflexivity|]. unfold cooler_boost_show, bind, ret.
    destruct (ec_read _ _) as [r st2]. simpl in Hrd. subst r.
    rewrite Hset. reflexivity.
  - intros Hq E. unfold out, cooler_boost_store.
    rewrite (Hoff (Hy E) E Hq). simpl fst. simpl snd.
    destruct (ec_write_bit_then_read (MSI_EC_COOLER_BOOST_ADDRESS H) _ false st Hq Hbit)
      as (_ & _ & Hrd & Hset).
    split; [reflexivity|]. unfold cooler_boost_show, bind, ret.
    destruct (ec_read _ _) as [r st2]. simpl in Hrd. subst r.
    rewrite Hset. reflexivity.
Qed.

Lemma X4_cooler_boost_store_then_show_witness :
  fst (cooler_boost_show sample_modes
         (snd (cooler_boost_store sample_modes "off" 3 (ec_all 255))))
  = Ok (line "off").
Proof.
  assert (Hbit : 0 <= MSI_EC_COOLER_BOOST_BIT sample_modes <= 7)
    by (simpl; lia).
  destruct (X4_cooler_boost_store_then_show sample_modes "off" 3 (ec_all 255)
              Hbit) as (_ & _ & Hoff & _).
  exact (proj2 (Hoff (Forall_nil _) eq_refl)).
Defined.

(** X5: when the header gives the two key positions as complementary
    booleans (FN_KEY_RIGHT = 1 - FN_KEY_LEFT, WIN_KEY_LEFT = FN_KEY_RIGHT,
    WIN_KEY_RIGHT = FN_KEY_LEFT), the function key and the windows key are
    two views of one bit: with the transport serving, after [fn_key_store]
    of "left" [fn_key_show] prints "left" and [win_key_show] prints
    "right", after "right" they print "right" and "left"; storing the
    function key on one side is the very same operation as storing the
    windows key on the other; any other text is rejected with -EINVAL
    before any transport call. *)
Theorem X5_fn_key_win_key_complement :
  forall (H : mode_constants) (buf : string) (count : Z) (st : EC),
    0 <= MSI_EC_FN_WIN_BIT H <= 7 ->
    MSI_EC_FN_KEY_LEFT H = 0 \/ MSI_EC_FN_KEY_LEFT H = 1 ->
    MSI_EC_FN_KEY_RIGHT H = 1 - MSI_EC_FN_KEY_LEFT H ->
    MSI_EC_WIN_KEY_LEFT H = MSI_EC_FN_KEY_RIGHT H ->
    MSI_EC_WIN_KEY_RIGHT H = MSI_EC_FN_KEY_LEFT H ->
    let out := fn_key_store H buf count st in
    (streq buf "left" = false -> streq buf "right" = false ->
       out = (- EINVAL, st)) /\
    (quiet st -> streq buf "left" = true ->
       fst out = count /\
       fst (fn_key_show H (snd out)) = Ok (line "left") /\
       fst (win_key_show H (snd out)) = Ok (line "right")) /\
    (quiet st -> streq buf "right" = true ->
       fst out = count /\
       fst (fn_key_show H (snd out)) = Ok (line "right") /\
       fst (win_key_show H (snd out)) = Ok (line "left")) /\
    fn_key_store H "left" count st = win_key_store H "right" count st /\
    fn_key_store H "right" count st = win_key_store H "left" count st.
Proof.
  intros H buf count st Hbit Hl Hr Hwl Hwr out.
  destruct (two_way_store (MSI_EC_FN_WIN_ADDRESS H) (MSI_EC_FN_WIN_BIT H)
              "left" "right" (truthy (MSI_EC_FN_KEY_LEFT H))
              (truthy (MSI_EC_FN_KEY_RIGHT H)) buf count st)
    as (Hbad & Hleft & Hright & _).
  destruct (streq_left_right buf) as [Hx Hy].
  assert (Hshow : forall v st0,
            quiet st0 ->
            let st1 := snd (ec_write_bit (MSI_EC_FN_WIN_ADDRESS H)
                              (MSI_EC_FN_WIN_BIT H) v st0) in
            fst (fn_key_show H st1) =
              Ok (line (if Z.b2z v =? MSI_EC_FN_KEY_LEFT H
                        then "left" else "right")) /\
            fst (win_key_show H st1) =
              Ok (line (if Z.b2z v =? MSI_EC_WIN_KEY_LEFT H
                        then "left" else "right"))).
  { intros v st0 Hq0 st1.
    destruct (ec_write_bit_then_read (MSI_EC_FN_WIN_ADDRESS H) _ v st0 Hq0 Hbit)
      as (_ & _ & Hrd & Hset).
    fold st1 in Hrd, Hset.
    unfold fn_key_show, win_key_show, bind, ret.
    destruct (ec_read (MSI_EC_FN_WIN_ADDRESS H) st1) as [r st2].
    simpl in Hrd. subst r. rewrite Hset.
    split.
    - destruct (Z.b2z v =? MSI_EC_FN_KEY_LEFT H); reflexivity.
    - destruct (Z.b2z v =? MSI_EC_WIN_KEY_LEFT H); reflexivity. }
  split; [exact Hbad|]. split; [|split; [|split]].
  - intros Hq E. unfold out, fn_key_store.
    rewrite (Hleft E (Hx E) Hq). simpl fst. simpl snd.
    destruct (Hshow (truthy (MSI_EC_FN_KEY_LEFT H)) st Hq) as [Hf Hw].
    rewrite Hf, Hw, Hwl, Hr.
    destruct Hl as [-> | ->]; auto.
  - intros Hq E. unfold out, fn_key_store.
    rewrite (Hright (Hy E) E Hq). simpl fst. simpl snd.
    destruct (Hshow (truthy (MSI_EC_FN_KEY_RIGHT H)) st Hq) as [Hf Hw].
    rewrite Hf, Hw, Hwl, Hr.
    destruct Hl as [-> | ->]; auto.
  - unfold fn_key_store, win_key_store, bind, ret.
    rewrite Hwr. simpl.
    destruct (ec_write_bit _ _ _ st) as [r st1]. reflexivity.
  - unfold fn_key_store, win_key_store, bind, ret.
    rewrite Hwl. simpl.
    destruct (ec_write_bit _ _ _ st) as [r st1]. reflexivity.
Qed.

Lemma X5_fn_key_win_key_complement_witness :
  let out := fn_key_store sample_modes "left" 5 (ec_all 0) in
  fst (fn_key_show sample_modes (snd out)) = Ok (line "left") /\
  fst (win_key_show sample_modes (snd out)) = Ok (line "right").
Proof.
  intros out.
  destruct (X5_fn_key_win_key_complement sample_modes "left" 5 (ec_all 0))
    as (_ & Hleft & _);
    try reflexivity; [simpl; lia | right; reflexivity |].
  destruct (Hleft (Forall_nil _) eq_refl) as (_ & Hf & Hw).
  exact (conj Hf Hw).
Defined.

(** ** The byte attributes: battery charge mode, shift mode *)

Lemma ec_write_served addr data st :
  quiet st ->
  ec_write addr data st =
  (0, mkEC (poke (regs st) addr data) (snd (next_outcome st))
           (trace st ++ [Wr addr data Good])) /\
  quiet (snd (ec_write addr data st)).
Proof.
  intros Hq. destruct (quiet_next st Hq) as [Hg Hrest].
  unfold ec_write. destruct (next_outcome st) as [o os].
  simpl in Hg, Hrest. subst o. simpl. auto.
Qed.

Lemma u8_small z : 0 <= z < 256 -> u8 z = z.
Proof. intros Hz. unfold u8. apply Z.mod_small. exact Hz. Qed.

(** [buf] is [x], so it is not [y]. *)
Ltac other_word E :=
  apply streq_true in E; destruct E as [-> | ->]; reflexivity.

(** One [_store] of a byte attribute, run on a serving transport, then the
    matching [_show]. *)
Ltac byte_store_then_show Hq :=
  unfold bind, ret;
  match goal with
  | |- context [ec_write ?a ?d ?s] =>
      let Hw := fresh "Hw" in
      let Hq1 := fresh "Hq1" in
      destruct (ec_write_served a d s Hq) as [Hw Hq1];
      rewrite Hw in Hq1 |- *; simpl in Hq1 |- *;
      split; [reflexivity|]; split; [reflexivity|];
      match goal with
      | |- context [ec_read ?a1 ?s1] =>
          let Hr := fresh "Hr" in
          destruct (ec_read_quiet a1 s1 Hq1) as (Hr & _);
          destruct (ec_read a1 s1) as [r s2]; simpl in Hr; subst r;
          simpl; unfold poke; rewrite ?Z.eqb_refl
      end
  end.

(** X6: with the three charge-mode constants distinct bytes,
    [battery_charge_mode_store] rejects any text but "max", "medium" and
    "min" with -EINVAL before any transport call; on a serving transport it
    returns [count] after exactly one transport call, the write of the
    mode's byte, and [battery_charge_mode_show] then prints the same
    word. *)
Theorem X6_battery_charge_mode_store_then_show :
  forall (H : mode_constants) (buf : string) (count : Z) (st : EC),
    let addr := MSI_EC_BATTERY_MODE_ADDRESS H in
    let cmax := MSI_EC_BATTERY_MODE_MAX_CHARGE H in
    let cmed := MSI_EC_BATTERY_MODE_MEDIUM_CHARGE H in
    let cmin := MSI_EC_BATTERY_MODE_MIN_CHARGE H in
    let out := battery_charge_mode_store H buf count st in
    0 <= cmax < 256 -> 0 <= cmed < 256 -> 0 <= cmin < 256 ->
    cmax <> cmed -> cmax <> cmin -> cmed <> cmin ->
    (streq buf "max" = false -> streq buf "medium" = false ->
     streq buf "min" = false -> out = (- EINVAL, st)) /\
    (quiet st -> streq buf "max" = true ->
       fst out = count /\
       trace (snd out) = (trace st ++ [Wr addr cmax Good])%list /\
       fst (battery_charge_mode_show H (snd out)) = Ok (line "max")) /\
    (quiet st -> streq buf "medium" = true ->
       fst out = count /\
       trace (snd out) = (trace st ++ [Wr addr cmed Good])%list /\
       fst (battery_charge_mode_show H (snd out)) = Ok (line "medium")) /\
    (quiet st -> streq buf "min" = true ->
       fst out = count /\
       trace (snd out) = (trace st ++ [Wr addr cmin Good])%list /\
       fst (battery_charge_mode_show H (snd out)) = Ok (line "min")).
Proof.
  intros H buf count st addr cmax cmed cmin out
    Rmax Rmed Rmin Dxm Dxn Dmn.
  assert (Nxm : (cmed =? cmax) = false) by (apply Z.eqb_neq; lia).
  assert (Nxn : (cmin =? cmax) = false) by (apply Z.eqb_neq; lia).
  assert (Nmn : (cmin =? cmed) = false) by (apply Z.eqb_neq; lia).
  unfold out, battery_charge_mode_store, battery_charge_mode_show.
  fold addr cmax cmed cmin.
  rewrite (u8_small cmax Rmax), (u8_small cmed Rmed), (u8_small cmin Rmin).
  split; [|split; [|split]].
  - intros -> -> ->. reflexivity.
  - intros Hq E.
    assert (E1 : streq buf "medium" = false) by other_word E.
    assert (E2 : streq buf "min" = false) by other_word E.
    rewrite E, E1, E2. byte_store_then_show Hq. reflexivity.
  - intros Hq E.
    assert (E1 : streq buf "max" = false) by other_word E.
    assert (E2 : streq buf "min" = false) by other_word E.
    rewrite E, E1, E2. byte_store_then_show Hq.
    rewrite Nxm. reflexivity.
  - intros Hq E.
    assert (E1 : streq buf "max" = false) by other_word E.
    assert (E2 : streq buf "medium" = false) by other_word E.
    rewrite E, E1, E2. byte_store_then_show Hq.
    rewrite Nxn, Nmn. reflexivity.
Qed.

Lemma X6_battery_charge_mode_store_then_show_witness :
  let out := battery_charge_mode_store sample_modes "medium" 7 (ec_all 0) in
  fst out = 7 /\
  trace (snd out) = [Wr 215 208 Good] /\
  fst (battery_charge_mode_show sample_modes (snd out)) = Ok (line "medium").
Proof.
  intros out.
  destruct (X6_battery_charge_mode_store_then_show sample_modes "medium" 7
              (ec_all 0)) as (_ & _ & Hmed & _); try (simpl; lia).
  exact (Hmed (Forall_nil _) eq_refl).
Defined.

(** Two printed lines that differ, or a byte that is and is not a
    constant. *)
Ltac decode_case :=
  split; intros Hdec;
  solve [ reflexivity
        | assumption
        | exfalso; congruence
        | exfalso; lia
        | exfalso; intuition lia
        | exfalso; unfold unknown_line, line in Hdec; simpl in Hdec;
          discriminate Hdec
        | repeat split; intro; lia ].

(** X7: with the mode constants pairwise distinct and the read served,
    [battery_charge_mode_show] and [shift_mode_show] decode the register
    exactly: each prints a mode's word if and only if the register holds
    that mode's byte, and prints "unknown (N)" if and only if the byte is
    none of them; it returns no error for any byte. *)
Theorem X7_mode_show_decodes_exactly :
  forall (H : mode_constants) (st : EC),
    let b := regs st (MSI_EC_BATTERY_MODE_ADDRESS H) in
    let s := regs st (MSI_EC_SHIFT_MODE_ADDRESS H) in
    let cmax := MSI_EC_BATTERY_MODE_MAX_CHARGE H in
    let cmed := MSI_EC_BATTERY_MODE_MEDIUM_CHARGE H in
    let cmin := MSI_EC_BATTERY_MODE_MIN_CHARGE H in
    let oc := MSI_EC_SHIFT_MODE_OVERCLOCK H in
    let bal := MSI_EC_SHIFT_MODE_BALANCED H in
    let eco := MSI_EC_SHIFT_MODE_ECO H in
    let off := MSI_EC_SHIFT_MODE_OFF H in
    let battery := fst (battery_charge_mode_show H st) in
    let shift := fst (shift_mode_show H st) in
    fst (next_outcome st) = Good ->
    (cmax <> cmed -> cmax <> cmin -> cmed <> cmin ->
       (battery = Ok (line "max") <-> b = cmax) /\
       (battery = Ok (line "medium") <-> b = cmed) /\
       (battery = Ok (line "min") <-> b = cmin) /\
       (battery = Ok (unknown_line b) <->
        b <> cmax /\ b <> cmed /\ b <> cmin)) /\
    (oc <> bal -> oc <> eco -> oc <> off -> bal <> eco -> bal <> off ->
     eco <> off ->
       (shift = Ok (line "overclock") <-> s = oc) /\
       (shift = Ok (line "balanced") <-> s = bal) /\
       (shift = Ok (line "eco") <-> s = eco) /\
       (shift = Ok (line "off") <-> s = off) /\
       (shift = Ok (unknown_line s) <->
        s <> oc /\ s <> bal /\ s <> eco /\ s <> off)).
Proof.
  intros H st b s cmax cmed cmin oc bal eco off battery shift Hserved.
  unfold battery, shift, battery_charge_mode_show, shift_mode_show, bind, ret.
  rewrite !(ec_read_served _ _ Hserved).
  fold b s cmax cmed cmin oc bal eco off.
  split.
  - intros D1 D2 D3.
    destruct (Z.eqb_spec b cmax);
      [|destruct (Z.eqb_spec b cmed); [|destruct (Z.eqb_spec b cmin)]];
      simpl; repeat (match goal with |- _ /\ _ => split end); decode_case.
  - intros D1 D2 D3 D4 D5 D6.
    destruct (Z.eqb_spec s oc);
      [|destruct (Z.eqb_spec s bal);
         [|destruct (Z.eqb_spec s eco); [|destruct (Z.eqb_spec s off)]]];
      simpl; repeat (match goal with |- _ /\ _ => split end); decode_case.
Qed.

Lemma X7_mode_show_decodes_exactly_witness :
  fst (battery_charge_mode_show sample_modes (ec_all 208)) = Ok (line "medium") /\
  fst (shift_mode_show sample_modes (ec_all 7)) = Ok (unknown_line 7).
Proof.
  destruct (X7_mode_show_decodes_exactly sample_modes (ec_all 208) eq_refl)
    as (Hb & _).
  destruct (X7_mode_show_decodes_exactly sample_modes (ec_all 7) eq_refl)
    as (_ & Hs).
  split.
  - apply Hb; simpl; lia.
  - apply Hs; simpl; lia.
Defined.

(** X8: with the four shift-mode constants distinct bytes,
    [shift_mode_store] rejects any text but "overclock", "balanced", "eco"
    and "off" with -EINVAL before any transport call; on a serving
    transport it returns [count] after exactly one transport call, the write
    of the mode's byte, and [shift_mode_show] then prints the same word. *)
Theorem X8_shift_mode_store_then_show :
  forall (H : mode_constants) (buf : string) (count : Z) (st : EC),
    let addr := MSI_EC_SHIFT_MODE_ADDRESS H in
    let oc := MSI_EC_SHIFT_MODE_OVERCLOCK H in
    let bal := MSI_EC_SHIFT_MODE_BALANCED H in
    let eco := MSI_EC_SHIFT_MODE_ECO H in
    let off := MSI_EC_SHIFT_MODE_OFF H in
    let out := shift_mode_store H buf count st in
    0 <= oc < 256 -> 0 <= bal < 256 -> 0 <= eco < 256 -> 0 <= off < 256 ->
    oc <> bal -> oc <> eco -> oc <> off -> bal <> eco -> bal <> off ->
    eco <> off ->
    (streq buf "overclock" = false -> streq buf "balanced" = false ->
     streq buf "eco" = false -> streq buf "off" = false ->
     out = (- EINVAL, st)) /\
    (quiet st -> streq buf "overclock" = true ->
       fst out = count /\
       trace (snd out) = (trace st ++ [Wr addr oc Good])%list /\
       fst (shift_mode_show H (snd out)) = Ok (line "overclock")) /\
    (quiet st -> streq buf "balanced" = true ->
       fst out = count /\
       trace (snd out) = (trace st ++ [Wr addr bal Good])%list /\
       fst (shift_mode_show H (snd out)) = Ok (line "balanced")) /\
    (quiet st -> streq buf "eco" = true ->
       fst out = count /\
       trace (snd out) = (trace st ++ [Wr addr eco Good])%list /\
       fst (shift_mode_show H (snd out)) = Ok (line "eco")) /\
    (quiet st -> streq buf "off" = true ->
       fst out = count /\
       trace (snd out) = (trace st ++ [Wr addr off Good])%list /\
       fst (shift_mode_show H (snd out)) = Ok (line "off")).
Proof.
  intros H buf count st addr oc bal eco off out
    Roc Rbal Reco Roff D1 D2 D3 D4 D5 D6.
  assert (N1 : (bal =? oc) = false) by (apply Z.eqb_neq; lia).
  assert (N2 : (eco =? oc) = false) by (apply Z.eqb_neq; lia).
  assert (N3 : (off =? oc) = false) by (apply Z.eqb_neq; lia).
  assert (N4 : (eco =? bal) = false) by (apply Z.eqb_neq; lia).
  assert (N5 : (off =? bal) = false) by (apply Z.eqb_neq; lia).
  assert (N6 : (off =? eco) = false) by (apply Z.eqb_neq; lia).
  unfold out, shift_mode_store, shift_mode_show.
  fold addr oc bal eco off.
  rewrite (u8_small oc Roc), (u8_small bal Rbal), (u8_small eco Reco),
    (u8_small off Roff).
  split; [|split; [|split; [|split]]].
  - intros -> -> -> ->. reflexivity.
  - intros Hq E.
    assert (E1 : streq buf "balanced" = false) by other_word E.
    assert (E2 : streq buf "eco" = false) by other_word E.
    assert (E3 : streq buf "off" = false) by other_word E.
    rewrite E, E1, E2, E3. byte_store_then_show Hq. reflexivity.
  - intros Hq E.
    assert (E1 : streq buf "overclock" = false) by other_word E.
    assert (E2 : streq buf "eco" = false) by other_word E.
    assert (E3 : streq buf "off" = false) by other_word E.
    rewrite E, E1, E2, E3. byte_store_then_show Hq. rewrite N1. reflexivity.
  - intros Hq E.
    assert (E1 : streq buf "overclock" = false) by other_word E.
    assert (E2 : streq buf "balanced" = false) by other_word E.
    assert (E3 : streq buf "off" = false) by other_word E.
    rewrite E, E1, E2, E3. byte_store_then_show Hq.
    rewrite N2, N4. reflexivity.
  - intros Hq E.
    assert (E1 : streq buf "overclock" = false) by other_word E.
    assert (E2 : streq buf "balanced" = false) by other_word E.
    assert (E3 : streq buf "eco" = false) by other_word E.
    rewrite E, E1, E2, E3. byte_store_then_show Hq.
    rewrite N3, N5, N6. reflexivity.
Qed.

Lemma X8_shift_mode_store_then_show_witness :
  let out := shift_mode_store sample_modes "eco" 4 (ec_all 0) in
  fst out = 4 /\
  trace (snd out) = [Wr 210 194 Good] /\
  fst (shift_mode_show sample_modes (snd out)) = Ok (line "eco").
Proof.
  intros out.
  destruct (X8_shift_mode_store_then_show sample_modes "eco" 4 (ec_all 0))
    as (_ & _ & _ & Heco & _); try (simpl; lia).
  exact (Heco (Forall_nil _) eq_refl).
Defined.

(** ** Fan mode *)

(** X9: [fan_mode_store] rejects any text but "auto", "silent", "basic"
    and "advanced" with -EINVAL before any transport call; with the three
    flags distinct bits of the fan-mode byte and the transport serving, it
    returns [count] and [fan_mode_show] then prints the mode that was
    stored, whatever the flags were before; in no case does it change a
    register other than the fan-mode register. *)
Theorem X9_fan_mode_store_then_show :
  forall (K : constants) (buf : string) (count : Z) (st : EC),
    let S := MSI_EC_FAN_MODE_SILENT_BIT K in
    let A := MSI_EC_FAN_MODE_ADVANCED_BIT K in
    let B := MSI_EC_FAN_MODE_BASIC_BIT K in
    let out := fan_mode_store K buf count st in
    0 <= S <= 7 -> 0 <= A <= 7 -> 0 <= B <= 7 ->
    S <> A -> S <> B -> A <> B ->
    (fan_mode_valid buf = false -> out = (- EINVAL, st)) /\
    (quiet st -> fan_mode_valid buf = true ->
       fst out = count /\
       (streq buf "silent" = true ->
          fst (fan_mode_show K (snd out)) = Ok (line "silent")) /\
       (streq buf "advanced" = true ->
          fst (fan_mode_show K (snd out)) = Ok (line "advanced")) /\
       (streq buf "basic" = true ->
          fst (fan_mode_show K (snd out)) = Ok (line "basic")) /\
       (streq buf "auto" = true ->
          fst (fan_mode_show K (snd out)) = Ok (line "auto"))) /\
    (forall a, a <> MSI_EC_FAN_MODE_ADDRESS K ->
       regs (snd out) a = regs st a).
Proof.
  intros K buf count st S A B out HS HA HB HSA HSB HAB.
  set (addr := MSI_EC_FAN_MODE_ADDRESS K).
  split; [|split].
  - intros Hbad. unfold out, fan_mode_store.
    unfold fan_mode_valid in Hbad.
    destruct (streq buf "auto"), (streq buf "silent"), (streq buf "basic"),
      (streq buf "advanced"); try discriminate Hbad. reflexivity.
  - intros Hq Hvalid. unfold out.
    rewrite (fan_mode_store_unfold K buf count st Hvalid). cbv zeta.
    fold addr S A B.
    destruct (ec_write_bit_quiet addr B (streq buf "basic") st Hq)
      as (E1 & R1 & _ & Q1).
    set (r1 := ec_write_bit addr B (streq buf "basic") st) in *.
    destruct (ec_write_bit_quiet addr A (streq buf "advanced") (snd r1) Q1)
      as (E2 & R2 & _ & Q2).
    set (r2 := ec_write_bit addr A (streq buf "advanced") (snd r1)) in *.
    destruct (ec_write_bit_quiet addr S (streq buf "silent") (snd r2) Q2)
      as (E3 & R3 & _ & Q3).
    set (r3 := ec_write_bit addr S (streq buf "silent") (snd r2)) in *.
    rewrite E1, E2, E3. simpl fst. simpl snd.
    split; [reflexivity|].
    set (b1 := with_bit B (streq buf "basic") (regs st addr)).
    set (b2 := with_bit A (streq buf "advanced") b1).
    set (b3 := with_bit S (streq buf "silent") b2).
    assert (Hb3 : regs (snd r3) addr = b3).
    { rewrite R3. unfold poke at 1. rewrite Z.eqb_refl.
      rewrite R2. unfold poke at 1. rewrite Z.eqb_refl.
      rewrite R1. unfold poke. rewrite Z.eqb_refl. reflexivity. }
    assert (FS : is_bit_set S b3 = streq buf "silent").
    { rewrite is_bit_set_testbit. apply with_bit_same; lia. }
    assert (FA : is_bit_set A b3 = streq buf "advanced").
    { rewrite is_bit_set_testbit. unfold b3.
      rewrite with_bit_other; [| lia | apply with_bit_range | lia].
      apply with_bit_same; lia. }
    assert (FB : is_bit_set B b3 = streq buf "basic").
    { rewrite is_bit_set_testbit. unfold b3, b2.
      rewrite with_bit_other; [| lia | apply with_bit_range | lia].
      rewrite with_bit_other; [| lia | apply with_bit_range | lia].
      apply with_bit_same; lia. }
    assert (Hshown : fst (fan_mode_show K (snd r3)) =
              Ok (line (if streq buf "silent" then "silent"
                        else if streq buf "advanced" then "advanced"
                        else if streq buf "basic" then "basic" else "auto"))).
    { unfold fan_mode_show, bind, ret. fold addr S A B.
      destruct (ec_read_quiet addr (snd r3) Q3) as (Hrd & _).
      destruct (ec_read addr (snd r3)) as [r s4]. simpl in Hrd. subst r.
      rewrite Hb3, FS, FA, FB.
      destruct (streq buf "silent"), (streq buf "advanced"),
        (streq buf "basic"); reflexivity. }
    rewrite Hshown.
    pose proof (fan_mode_exclusive buf) as Hex.
    repeat (match goal with |- _ /\ _ => split end); intros E;
      rewrite E in *;
      destruct (streq buf "silent"), (streq buf "advanced"),
        (streq buf "basic"), (streq buf "auto");
      simpl in Hex; try lia; try discriminate; reflexivity.
  - intros a Ha. unfold out, fan_mode_store.
    destruct (negb (streq buf "auto") && negb (streq buf "basic")
              && negb (streq buf "advanced") && negb (streq buf "silent"));
      [reflexivity|].
    unfold bind, ret. fold addr S A B.
    assert (F1 := ec_write_bit_frame addr B (streq buf "basic") st a Ha).
    destruct (ec_write_bit addr B (streq buf "basic") st) as [c1 s1].
    simpl in F1. destruct (c1 <? 0); [exact F1|].
    assert (F2 := ec_write_bit_frame addr A (streq buf "advanced") s1 a Ha).
    destruct (ec_write_bit addr A (streq buf "advanced") s1) as [c2 s2].
    simpl in F2. destruct (c2 <? 0); [simpl; congruence|].
    assert (F3 := ec_write_bit_frame addr S (streq buf "silent") s2 a Ha).
    destruct (ec_write_bit addr S (streq buf "silent") s2) as [c3 s3].
    simpl in F3. destruct (c3 <? 0); simpl; congruence.
Qed.

Lemma X9_fan_mode_store_then_show_witness :
  fan_mode_store sample_h "turbo" 5 (ec_all 255) = (-22, ec_all 255) /\
  fst (fan_mode_show sample_h
         (snd (fan_mode_store sample_h "basic" 5 (ec_all 255))))
  = Ok (line "basic").
Proof.
  destruct (X9_fan_mode_store_then_show sample_h "turbo" 5 (ec_all 255))
    as (Hbad & _); try (simpl; lia).
  destruct (X9_fan_mode_store_then_show sample_h "basic" 5 (ec_all 255))
    as (_ & Hgood & _); try (simpl; lia).
  destruct (Hgood (Forall_nil _) eq_refl) as (_ & _ & _ & Hbasic & _).
  split; [exact (Hbad eq_refl) | exact (Hbasic eq_refl)].
Defined.

(** ** Presets *)

Lemma ec_write_frame addr data st a :
  a <> addr -> regs (snd (ec_write addr data st)) a = regs st a.
Proof.
  intros Ha. unfold ec_write, poke.
  destruct (next_outcome st) as [[|e] os]; simpl; [|reflexivity].
  destruct (Z.eqb_spec a addr); [contradiction | reflexivity].
Qed.

Lemma preset_store_columns_frame K index cs a :
  forall st,
    (forall c, In c cs -> ix (MSI_EC_PRESET_MEMORY_TABLE K) c <> a) ->
    regs (snd (preset_store_columns K index cs st)) a = regs st a.
Proof.
  induction cs as [|c cs IH]; intros st Hout; simpl; [reflexivity|].
  unfold bind.
  assert (Ha : a <> ix (MSI_EC_PRESET_MEMORY_TABLE K) c).
  { intros E. apply (Hout c); [left; reflexivity | symmetry; exact E]. }
  assert (Hstep :
    regs (snd ((if c =? MSI_EC_PRESET_COLUMN_SILENT_FLAG K
                then ec_write_bit (ix (MSI_EC_PRESET_MEMORY_TABLE K) c)
                       (MSI_EC_FAN_MODE_SILENT_BIT K)
                       (negb (cell K index c =? 0))
                else ec_write (ix (MSI_EC_PRESET_MEMORY_TABLE K) c)
                       (cell K index c)) st)) a = regs st a).
  { destruct (c =? MSI_EC_PRESET_COLUMN_SILENT_FLAG K).
    - apply ec_write_bit_frame. exact Ha.
    - apply ec_write_frame. exact Ha. }
  match type of Hstep with
  | regs (snd ?x) a = _ => destruct x as [r st1]
  end.
  simpl in Hstep. rewrite <- Hstep.
  apply IH. intros c' Hin. apply Hout. right. exact Hin.
Qed.

Lemma preset_validate_fan_modes_frame K index st a :
  a <> MSI_EC_FAN_MODE_ADDRESS K ->
  regs (snd (preset_validate_fan_modes K index st)) a = regs st a.
Proof.
  intros Ha. unfold preset_validate_fan_modes.
  destruct (negb (index =? MSI_EC_PRESET_HIGH_PERFORMANCE K)); [|reflexivity].
  unfold bind, ret.
  assert (F1 := ec_write_bit_frame (MSI_EC_FAN_MODE_ADDRESS K)
                  (MSI_EC_FAN_MODE_ADVANCED_BIT K) false st a Ha).
  destruct (ec_write_bit _ _ false st) as [r1 s1]. simpl in F1.
  assert (F2 := ec_write_bit_frame (MSI_EC_FAN_MODE_ADDRESS K)
                  (MSI_EC_FAN_MODE_BASIC_BIT K) false s1 a Ha).
  destruct (ec_write_bit _ _ false s1) as [r2 s2]. simpl in F2.
  simpl. congruence.
Qed.

(** X10: whatever the text in [buf] and whatever the transport answers,
    [preset_store] changes no register other than those of the preset
    columns and the fan-mode register. *)
Theorem X10_preset_store_touches_only_its_registers :
  forall (K : constants) (buf : string) (count : Z) (st : EC) (a : Z),
    ~ In a (map (ix (MSI_EC_PRESET_MEMORY_TABLE K)) (columns K)) ->
    a <> MSI_EC_FAN_MODE_ADDRESS K ->
    regs (snd (preset_store K buf count st)) a = regs st a.
Proof.
  intros K buf count st a Hcols Hfan.
  unfold preset_store.
  destruct (preset_index K buf) as [index|]; [|reflexivity].
  unfold bind, ret.
  assert (F1 : regs (snd (preset_store_columns K index (columns K) st)) a
               = regs st a).
  { apply preset_store_columns_frame. intros c Hin E.
    apply Hcols. rewrite <- E. apply in_map. exact Hin. }
  destruct (preset_store_columns K index (columns K) st) as [u s1].
  simpl in F1.
  assert (F2 := preset_validate_fan_modes_frame K index s1 a Hfan).
  destruct (preset_validate_fan_modes K index s1) as [u2 s2].
  simpl in F2. simpl. congruence.
Qed.

Lemma X10_preset_store_touches_only_its_registers_witness :
  regs (snd (preset_store sample_h "high_performance" 16
               (scripted (ec_all 9) [Good; Bad 5]))) 46 = 9.
Proof.
  apply (X10_preset_store_touches_only_its_registers sample_h
           "high_performance" 16 (scripted (ec_all 9) [Good; Bad 5]) 46).
  - vm_compute. intros H.
    repeat (destruct H as [H|H]; [discriminate H|]). exact H.
  - simpl. lia.
Defined.

Lemma preset_show_columns_reads K v cs :
  forall st,
    exists evs,
      trace (snd (preset_show_columns K v cs st)) = (trace st ++ evs)%list /\
      Forall is_read evs /\
      (List.length evs <= List.length cs)%nat.
Proof.
  induction cs as [|c cs IH]; intros st; simpl.
  - exists []. rewrite app_nil_r.
    split; [reflexivity|]. split; [constructor | simpl; lia].
  - unfold bind, ec_read.
    destruct (next_outcome st) as [[|e] os]; simpl.
    + set (ev := Rd (ix (MSI_EC_PRESET_MEMORY_TABLE K) c) Good).
      set (st1 := mkEC (regs st) os (trace st ++ [ev])).
      destruct (IH st1) as (evs & Ht & Hrd & Hlen). simpl in Ht.
      assert (Hcont :
        exists evs0,
          trace (snd (preset_show_columns K v cs st1)) = (trace st ++ evs0)%list /\
          Forall is_read evs0 /\
          (List.length evs0 <= S (List.length cs))%nat).
      { exists (ev :: evs). split; [|split].
        - rewrite Ht. rewrite <- app_assoc. reflexivity.
        - constructor; [exact I | exact Hrd].
        - simpl. lia. }
      assert (Hstop :
        exists evs0,
          trace (snd (ret (A:=bool) false st1)) = (trace st ++ evs0)%list /\
          Forall is_read evs0 /\
          (List.length evs0 <= S (List.length cs))%nat).
      { exists [ev]. split; [reflexivity|]. split.
        - constructor; [exact I | constructor].
        - simpl. lia. }
      destruct (c =? MSI_EC_PRESET_COLUMN_KBD_BL K); [exact Hcont|].
      destruct (c =? MSI_EC_PRESET_COLUMN_SILENT_FLAG K).
      { destruct (cell K v c =? _); [exact Hcont | exact Hstop]. }
      destruct (cell K v c =? _); simpl; [exact Hcont | exact Hstop].
    + exists [Rd (ix (MSI_EC_PRESET_MEMORY_TABLE K) c) (Bad e)].
      split; [reflexivity|]. split.
      * constructor; [exact I | constructor].
      * simpl. lia.
Qed.

Lemma preset_show_rows_reads K vs :
  forall st,
    exists evs,
      trace (snd (preset_show_rows K vs st)) = (trace st ++ evs)%list /\
      Forall is_read evs /\
      (List.length evs <= List.length vs * List.length (columns K))%nat.
Proof.
  induction vs as [|v vs IH]; intros st; simpl.
  - exists []. rewrite app_nil_r.
    split; [reflexivity|]. split; [constructor | simpl; lia].
  - unfold bind.
    destruct (preset_show_columns_reads K v (columns K) st)
      as (evs1 & Ht1 & Hr1 & Hl1).
    destruct (preset_show_columns K v (columns K) st) as [m st1].
    simpl in Ht1.
    destruct (IH st1) as (evs2 & Ht2 & Hr2 & Hl2).
    assert (Hnext :
      exists evs,
        trace (snd (preset_show_rows K vs st1)) = (trace st ++ evs)%list /\
        Forall is_read evs /\
        (List.length evs <=
         List.length (columns K) + List.length vs * List.length (columns K))%nat).
    { exists (evs1 ++ evs2)%list. split; [|split].
      - rewrite Ht2, Ht1. rewrite <- app_assoc. reflexivity.
      - apply Forall_app. split; assumption.
      - rewrite length_app. lia. }
    assert (Hhere :
      forall name : string,
      exists evs,
        trace (snd (ret (Ok (line name)) st1)) = (trace st ++ evs)%list /\
        Forall is_read evs /\
        (List.length evs <=
         List.length (columns K) + List.length vs * List.length (columns K))%nat).
    { intros name. exists evs1. split; [exact Ht1|]. split; [exact Hr1 | lia]. }
    destruct m; [|exact Hnext].
    destruct (preset_name K v) as [name|]; [apply Hhere | exact Hnext].
Qed.

(** X11: whatever the registers hold and whatever the transport answers,
    [preset_show] only reads: every transport call it makes is a read, it
    makes at most one per table cell (rows times columns), and no register
    has changed when it returns. *)
Theorem X11_preset_show_only_reads :
  forall (K : constants) (st : EC),
    exists evs,
      trace (snd (preset_show K st)) = (trace st ++ evs)%list /\
      Forall is_read evs /\
      (List.length evs <=
       List.length (MSI_EC_PRESET_VALUE_TABLE K) *
       List.length (MSI_EC_PRESET_MEMORY_TABLE K))%nat /\
      regs (snd (preset_show K st)) = regs st.
Proof.
  intros K st.
  destruct (preset_show_rows_reads K (rows K) st) as (evs & Ht & Hr & Hl).
  destruct (preset_show_rows_total K (rows K) st) as (s & _ & Hregs & _).
  exists evs. split; [exact Ht|]. split; [exact Hr|]. split; [|exact Hregs].
  unfold rows, columns, upto in Hl.
  rewrite !length_map, !length_seq in Hl. exact Hl.
Qed.

(** The registers of the preset columns once row [index] has been stored
    with every transport call served. *)
Lemma preset_store_regs K buf count index name st :
  preset_index K buf = Some index ->
  preset_row_ok K index name -> quiet st ->
  let st' := snd (preset_store K buf count st) in
  let sil := MSI_EC_PRESET_COLUMN_SILENT_FLAG K in
  quiet st' /\
  (forall c, In c (columns K) -> c <> sil ->
     regs st' (ix (MSI_EC_PRESET_MEMORY_TABLE K) c) = cell K index c) /\
  (In sil (columns K) ->
     Z.b2z (is_bit_set (MSI_EC_FAN_MODE_SILENT_BIT K)
              (regs st' (ix (MSI_EC_PRESET_MEMORY_TABLE K) sil)))
     = cell K index sil).
Proof.
  intros Hi Hok Hq st' sil.
  unfold st'. rewrite (preset_store_unfold K buf count index st Hi).
  simpl snd.
  destruct (preset_store_columns_quiet K index (columns K) st Hq) as [Hr1 Hq1].
  set (st1 := snd (preset_store_columns K index (columns K) st)) in *.
  destruct (preset_validate_fan_modes_quiet K index st1 Hq1) as [Hq2 Hr2].
  set (st2 := snd (preset_validate_fan_modes K index st1)) in *.
  set (fan := MSI_EC_FAN_MODE_ADDRESS K) in *.
  set (w := with_bit (MSI_EC_FAN_MODE_SILENT_BIT K)
                     (negb (cell K index sil =? 0))
                     (regs st (ix (MSI_EC_PRESET_MEMORY_TABLE K) sil))).
  assert (Hraw : forall c, In c (columns K) -> c <> sil ->
            regs st1 (ix (MSI_EC_PRESET_MEMORY_TABLE K) c) = cell K index c).
  { intros c Hin Hne. rewrite Hr1.
    rewrite (stored_columns_in K index (columns K) (regs st) c
               (row_addrs K index name Hok) Hin).
    unfold column_byte. fold sil.
    destruct (Z.eqb_spec c sil); [contradiction | reflexivity]. }
  assert (Hsil : In sil (columns K) ->
            regs st1 (ix (MSI_EC_PRESET_MEMORY_TABLE K) sil) = w).
  { intros Hin. rewrite Hr1.
    rewrite (stored_columns_in K index (columns K) (regs st) sil
               (row_addrs K index name Hok) Hin).
    unfold column_byte. fold sil. rewrite Z.eqb_refl. reflexivity. }
  assert (Hw : Z.b2z (Z.testbit w (MSI_EC_FAN_MODE_SILENT_BIT K))
               = cell K index sil).
  { unfold w. rewrite with_bit_same by exact (row_silent_bit K index name Hok).
    destruct (row_flag K index name Hok) as [E|E]; fold sil in E; rewrite E;
      reflexivity. }
  split; [exact Hq2|]. split.
  - intros c Hin Hne.
    destruct Hr2 as [-> | ->]; [apply Hraw; assumption|].
    unfold poke.
    destruct (Z.eqb_spec (ix (MSI_EC_PRESET_MEMORY_TABLE K) c) fan) as [E|E].
    + exfalso. exact (row_fan_sep K index name Hok c Hin Hne E).
    + apply Hraw; assumption.
  - intros Hin. rewrite is_bit_set_testbit.
    destruct Hr2 as [-> | ->]; [rewrite (Hsil Hin); exact Hw|].
    unfold poke.
    destruct (Z.eqb_spec (ix (MSI_EC_PRESET_MEMORY_TABLE K) sil) fan) as [E|E].
    + rewrite <- E, (Hsil Hin).
      rewrite with_bit_other;
        [| exact (row_basic_bit K index name Hok) | apply with_bit_range
         | exact (row_silent_basic K index name Hok)].
      rewrite with_bit_other;
        [| exact (row_advanced_bit K index name Hok) | apply with_bit_range
         | exact (row_silent_advanced K index name Hok)].
      exact Hw.
    + rewrite (Hsil Hin). exact Hw.
Qed.

(** Registers that hold row [index] in every compared column classify as
    that row's name. *)
Lemma spec_classify_row K f index name :
  preset_row_ok K index name ->
  let sil := MSI_EC_PRESET_COLUMN_SILENT_FLAG K in
  (forall c, In c (columns K) -> c <> sil ->
     f (ix (MSI_EC_PRESET_MEMORY_TABLE K) c) = cell K index c) ->
  (In sil (columns K) ->
     Z.b2z (is_bit_set (MSI_EC_FAN_MODE_SILENT_BIT K)
              (f (ix (MSI_EC_PRESET_MEMORY_TABLE K) sil)))
     = cell K index sil) ->
  spec_classify K f = name.
Proof.
  intros Hok sil Hraw Hsil.
  assert (Hcol : forall v c, In c (columns K) ->
            c <> MSI_EC_PRESET_COLUMN_KBD_BL K ->
            spec_column_matches K v c (f (ix (MSI_EC_PRESET_MEMORY_TABLE K) c))
            = (cell K v c =? cell K index c)).
  { intros v c Hin Hk. unfold spec_column_matches.
    destruct (Z.eqb_spec c (MSI_EC_PRESET_COLUMN_KBD_BL K)); [contradiction|].
    fold sil. destruct (Z.eqb_spec c sil) as [->|Hs].
    - rewrite (Hsil Hin). reflexivity.
    - rewrite (Hraw c Hin Hs). reflexivity. }
  assert (Hrow : spec_preset_matches K f index = true).
  { unfold spec_preset_matches. apply forallb_forall. intros c Hin.
    destruct (Z.eq_dec c (MSI_EC_PRESET_COLUMN_KBD_BL K)) as [->|Hk].
    - apply spec_column_matches_kbd.
    - rewrite (Hcol index c Hin Hk). apply Z.eqb_refl. }
  assert (Hearlier : forall v, In v (rows K) -> v < index ->
            (if spec_preset_matches K f v
             then match preset_name K v with
                  | Some n => [n]
                  | None => []
                  end
             else []) = []).
  { intros v Hin Hlt.
    destruct (preset_name K v) as [n|] eqn:En;
      [|destruct (spec_preset_matches K f v); reflexivity].
    destruct (row_first K index name Hok v Hin Hlt) as (c & Hc & Hk & Hdiff).
    { rewrite En. discriminate. }
    assert (Hno : spec_preset_matches K f v = false).
    { unfold spec_preset_matches. apply (forallb_false_at _ _ c Hc).
      rewrite (Hcol v c Hc Hk). apply Z.eqb_neq. exact Hdiff. }
    rewrite Hno. reflexivity. }
  unfold spec_classify, spec_candidates.
  destruct (upto_split _ _ (row_in K index name Hok))
    as (before & after & Hsplit & Hb).
  fold (rows K) in Hsplit, Hb.
  rewrite Hsplit, flat_map_app.
  assert (Hnil : flat_map
            (fun v => if spec_preset_matches K f v
                      then match preset_name K v with
                           | Some n => [n]
                           | None => []
                           end
                      else []) before = []).
  { clear Hsplit. induction before as [|u before IH]; simpl; [reflexivity|].
    destruct (Hb u (or_introl eq_refl)) as [Hin Hlt].
    rewrite (Hearlier u Hin Hlt). simpl.
    apply IH. intros u' Hu'. apply Hb. right. exact Hu'. }
  rewrite Hnil. simpl. rewrite Hrow.
  rewrite (row_name K index name Hok). reflexivity.
Qed.

(** X12: classification undoes application for every preset.  When [buf]
    names the preset that [preset_store] takes as row [index], the header is
    well formed for that row and the transport serves every call,
    [preset_store] returns [count] and [preset_show] right afterwards prints
    that preset's name, whatever the registers held before. *)
Theorem X12_preset_store_then_show :
  forall (K : constants) (buf : string) (count index : Z) (name : string)
         (st : EC),
    streq buf name = true ->
    preset_index K buf = Some index ->
    preset_row_ok K index name ->
    quiet st ->
    let out := preset_store K buf count st in
    fst out = count /\
    fst (preset_show K (snd out)) = Ok (line name).
Proof.
  intros K buf count index name st Hbuf Hi Hok Hq out.
  destruct (preset_store_regs K buf count index name st Hi Hok Hq)
    as (Hq' & Hraw & Hsil).
  fold out in Hq', Hraw, Hsil.
  split.
  - unfold out. rewrite (preset_store_unfold K buf count index st Hi).
    reflexivity.
  - destruct (preset_show_rows_quiet K (rows K) (snd out) Hq') as [Hv _].
    unfold preset_show. rewrite Hv.
    fold (spec_classify K (regs (snd out))).
    rewrite (spec_classify_row K (regs (snd out)) index name Hok Hraw Hsil).
    reflexivity.
Qed.

Lemma sample_h_row_ok index name :
  In (index, name)
     [(0, "super_battery"); (1, "silent"); (2, "balanced");
      (3, "high_performance")]%string ->
  preset_row_ok sample_h index name.
Proof.
  intros Hin.
  assert (Hfirst : forall v, In v (rows sample_h) -> v < index ->
            exists c, In c (columns sample_h) /\
                      c <> MSI_EC_PRESET_COLUMN_KBD_BL sample_h /\
                      cell sample_h v c <> cell sample_h index c).
  { intros v Hv Hlt. vm_compute in Hv.
    destruct Hin as [E|[E|[E|[E|[]]]]]; inversion E; subst index name;
      destruct Hv as [<-|[<-|[<-|[<-|[]]]]]; try lia;
      first [ exists 1; split; [vm_compute; tauto|];
              split; [simpl; lia | vm_compute; discriminate]
            | exists 4; split; [vm_compute; tauto|];
              split; [simpl; lia | vm_compute; discriminate] ]. }
  constructor.
  - vm_compute. repeat constructor; simpl; intros H;
      repeat (destruct H as [H|H]; [discriminate H|]); exact H.
  - intros c Hc Hne. vm_compute in Hc. simpl in Hne.
    destruct Hc as [<-|[<-|[<-|[<-|[<-|[]]]]]]; vm_compute;
      try discriminate. contradiction.
  - simpl. lia.
  - simpl. lia.
  - simpl. lia.
  - simpl. lia.
  - simpl. lia.
  - destruct Hin as [E|[E|[E|[E|[]]]]]; inversion E; vm_compute; tauto.
  - destruct Hin as [E|[E|[E|[E|[]]]]]; inversion E; reflexivity.
  - destruct Hin as [E|[E|[E|[E|[]]]]]; inversion E; vm_compute; tauto.
  - intros v Hv Hlt _. exact (Hfirst v Hv Hlt).
Defined.

Lemma X12_preset_store_then_show_witness :
  fst (preset_show sample_h
         (snd (preset_store sample_h "super_battery" 13 (ec_all 255))))
  = Ok (line "super_battery") /\
  fst (preset_show sample_h
         (snd (preset_store sample_h "silent" 6 (ec_all 255))))
  = Ok (line "silent") /\
  fst (preset_show sample_h
         (snd (preset_store sample_h "high_performance" 16 (ec_all 255))))
  = Ok (line "high_performance").
Proof.
  split; [|split].
  - apply (X12_preset_store_then_show sample_h "super_battery" 13 0
             "super_battery" (ec_all 255) eq_refl eq_refl).
    + apply sample_h_row_ok. simpl. tauto.
    + constructor.
  - apply (X12_preset_store_then_show sample_h "silent" 6 1
             "silent" (ec_all 255) eq_refl eq_refl).
    + apply sample_h_row_ok. simpl. tauto.
    + constructor.
  - apply (X12_preset_store_then_show sample_h "high_performance" 16 3
             "high_performance" (ec_all 255) eq_refl eq_refl).
    + apply sample_h_row_ok. simpl. tauto.
    + constructor.
Defined.

(** ** Firmware version, keyboard backlight, fan speed *)

Lemma cstring_length bytes :
  (String.length (cstring bytes) <= List.length bytes)%nat.
Proof.
  induction bytes as [|b bs IH]; simpl; [lia|].
  destruct (b =? 0); simpl; lia.
Qed.

Lemma cstring_cut bytes :
  forall k, (k < List.length bytes)%nat -> nth k bytes 1 = 0 ->
            (String.length (cstring bytes) <= k)%nat.
Proof.
  induction bytes as [|b bs IH]; intros k Hk Hz; simpl in *; [lia|].
  destruct k as [|k].
  - subst b. simpl. lia.
  - destruct (b =? 0); simpl; [lia|].
    assert (Hk' : (k < List.length bs)%nat) by lia.
    specialize (IH k Hk' Hz). lia.
Qed.

Lemma seq_regs_nth f addr len k :
  (k < Z.to_nat len)%nat ->
  nth k (seq_regs f addr len) 1 = f (u8 (addr + Z.of_nat k)).
Proof.
  intros Hk. unfold seq_regs, upto.
  rewrite (nth_indep _ 1 (f (u8 (addr + Z.of_nat 0))))
    by (rewrite !length_map, length_seq; exact Hk).
  rewrite map_map.
  rewrite (map_nth (fun n => f (u8 (addr + Z.of_nat n)))).
  rewrite seq_nth by exact Hk. reflexivity.
Qed.

(** X13: with the transport serving, [fw_version_show] prints the bytes of
    the version registers up to the first zero byte, then a newline: never
    more characters than the version length, and no more than [k] when
    register [k] of the version holds zero.  It fails only with the errno of
    a failed transport read. *)
Theorem X13_fw_version_show_is_bounded :
  forall (H : mode_constants) (st : EC),
    let addr := MSI_EC_FW_VERSION_ADDRESS H in
    let len := MSI_EC_FW_VERSION_LENGTH H in
    (quiet st ->
       exists text,
         fst (fw_version_show H st) = Ok (line text) /\
         text = cstring (seq_regs (regs st) addr len) /\
         (String.length text <= Z.to_nat len)%nat /\
         (forall k, (k < Z.to_nat len)%nat ->
            regs st (u8 (addr + Z.of_nat k)) = 0 ->
            (String.length text <= k)%nat)) /\
    (forall code, fst (fw_version_show H st) = Errno code ->
       exists e, code = Z.neg e /\ In (Bad e) (script st)).
Proof.
  intros H st addr len. split.
  - intros Hq. unfold fw_version_show, bind, ret. fold addr len.
    destruct (ec_read_seq_quiet addr len st Hq) as (Hv & _ & _).
    destruct (ec_read_seq addr len st) as [r st1]. simpl in Hv. subst r.
    exists (cstring (seq_regs (regs st) addr len)).
    split; [reflexivity|]. split; [reflexivity|]. split.
    + rewrite <- (seq_regs_length (regs st) addr len). apply cstring_length.
    + intros k Hk Hz. apply cstring_cut.
      * rewrite seq_regs_length. exact Hk.
      * rewrite seq_regs_nth by exact Hk. exact Hz.
  - intros code. unfold fw_version_show, ec_read_seq, bind, ret.
    fold addr len.
    destruct (ec_read_seq_from_script addr (Z.to_nat len) 0 [] st)
      as (pre & Hs & Hf).
    destruct (ec_read_seq_from addr 0 (Z.to_nat len) [] st)
      as [[bs|code1] st1]; simpl in *.
    + discriminate.
    + intros E. inversion E; subst code1.
      destruct (Hf code eq_refl) as (e & He & Hin).
      exists e. split; [exact He|]. rewrite Hs. apply in_or_app. auto.
Qed.

Lemma X13_fw_version_show_is_bounded_witness :
  fst (fw_version_show sample_modes
         (mkEC (regs_with 0 160 (bytes_of "1552EMS1.118")) [] []))
  = Ok (line "1552EMS1.118") /\
  fst (fw_version_show sample_modes
         (mkEC (regs_with 0 160 (bytes_of "1552")) [] []))
  = Ok (line "1552").
Proof.
  destruct (X13_fw_version_show_is_bounded sample_modes
              (mkEC (regs_with 0 160 (bytes_of "1552EMS1.118")) [] []))
    as [H1 _].
  destruct (H1 (Forall_nil _)) as (t1 & Hv1 & Ht1 & _).
  destruct (X13_fw_version_show_is_bounded sample_modes
              (mkEC (regs_with 0 160 (bytes_of "1552")) [] []))
    as [H2 _].
  destruct (H2 (Forall_nil _)) as (t2 & Hv2 & Ht2 & _).
  split.
  - rewrite Hv1, Ht1. reflexivity.
  - rewrite Hv2, Ht2. reflexivity.
Defined.

Lemma land_mask_range a m : 0 <= m -> 0 <= Z.land a m <= m.
Proof.
  intros Hm. apply Z.ldiff_le; [exact Hm|].
  apply Z.bits_inj'. intros n Hn.
  rewrite Z.ldiff_spec, Z.land_spec, Z.bits_0.
  destruct (Z.testbit a n), (Z.testbit m n); reflexivity.
Qed.

(** X14: [kbd_bl_sysfs_set] refuses a level above 3 with -1 before any
    transport call; for a level from 0 to 3 on a serving transport it
    writes the level's byte of the state table and returns 0, and
    [kbd_bl_sysfs_get] then returns that byte under the state mask.
    [kbd_bl_sysfs_get] never returns an error: a failed read gives 0, and
    with a non-negative mask every answer lies between 0 and the mask. *)
Theorem X14_kbd_backlight_set_then_get :
  forall (H : mode_constants) (brightness : Z) (st : EC),
    let addr := MSI_EC_KBD_BL_ADDRESS H in
    let mask := MSI_EC_KBD_BL_STATE_MASK H in
    let wdata := u8 (ix (MSI_EC_KBD_BL_STATE H) brightness) in
    let out := kbd_bl_sysfs_set H brightness st in
    (3 < brightness -> out = (-1, st)) /\
    (0 <= brightness <= 3 -> quiet st ->
       fst out = 0 /\
       trace (snd out) = (trace st ++ [Wr addr wdata Good])%list /\
       fst (kbd_bl_sysfs_get H (snd out)) = Z.land wdata mask) /\
    (forall e os, script st = Bad e :: os ->
       fst (kbd_bl_sysfs_get H st) = 0) /\
    (0 <= mask -> 0 <= fst (kbd_bl_sysfs_get H st) <= mask).
Proof.
  intros H brightness st addr mask wdata out.
  split; [|split; [|split]].
  - intros Hb. unfold out, kbd_bl_sysfs_set.
    destruct (Z.gtb_spec brightness 3); [reflexivity | lia].
  - intros Hb Hq. unfold out, kbd_bl_sysfs_set.
    destruct (Z.gtb_spec brightness 3); [lia|].
    fold addr wdata.
    destruct (ec_write_served addr wdata st Hq) as [Hw Hq1].
    rewrite Hw in Hq1 |- *. simpl.
    split; [reflexivity|]. split; [reflexivity|].
    unfold kbd_bl_sysfs_get, bind, ret. fold addr mask.
    destruct (ec_read_quiet addr _ Hq1) as (Hr & _).
    destruct (ec_read addr _) as [r s2]. simpl in Hr. subst r.
    simpl. unfold poke. rewrite Z.eqb_refl. reflexivity.
  - intros e os Hs. unfold kbd_bl_sysfs_get, bind, ret.
    rewrite (ec_read_bad_script _ _ _ _ Hs). reflexivity.
  - intros Hm. unfold kbd_bl_sysfs_get, bind, ret, ec_read.
    destruct (next_outcome st) as [[|e] os]; simpl.
    + apply land_mask_range. exact Hm.
    + lia.
Qed.

Lemma X14_kbd_backlight_set_then_get_witness :
  kbd_bl_sysfs_set sample_modes 4 (ec_all 0) = (-1, ec_all 0) /\
  fst (kbd_bl_sysfs_get sample_modes
         (snd (kbd_bl_sysfs_set sample_modes 2 (ec_all 0)))) = 2.
Proof.
  destruct (X14_kbd_backlight_set_then_get sample_modes 4 (ec_all 0))
    as (Hhigh & _).
  destruct (X14_kbd_backlight_set_then_get sample_modes 2 (ec_all 0))
    as (_ & Hset & _).
  assert (Hb : 0 <= 2 <= 3) by lia.
  destruct (Hset Hb (Forall_nil _)) as (_ & _ & Hget).
  split; [apply Hhigh; lia|]. rewrite Hget. reflexivity.
Defined.

(** X15: with calibration bounds MIN < MAX, the percentage printed by
    [cpu_realtime_fan_speed_show] never decreases with the raw byte: for two
    served reads of in-range bytes raw1 <= raw2 the handler prints p1 and
    p2 with 0 <= p1 <= p2 <= 100. *)
Theorem X15_cpu_fan_speed_is_monotone :
  forall (K : constants) (st1 st2 : EC),
    let MIN := MSI_EC_CPU_REALTIME_FAN_SPEED_BASE_MIN K in
    let MAX := MSI_EC_CPU_REALTIME_FAN_SPEED_BASE_MAX K in
    let raw1 := regs st1 (MSI_EC_CPU_REALTIME_FAN_SPEED_ADDRESS K) in
    let raw2 := regs st2 (MSI_EC_CPU_REALTIME_FAN_SPEED_ADDRESS K) in
    MIN < MAX ->
    fst (next_outcome st1) = Good ->
    fst (next_outcome st2) = Good ->
    MIN <= raw1 -> raw1 <= raw2 -> raw2 <= MAX ->
    exists p1 p2,
      fst (cpu_realtime_fan_speed_show K st1) = Ok (line (digits p1)) /\
      fst (cpu_realtime_fan_speed_show K st2) = Ok (line (digits p2)) /\
      0 <= p1 /\ p1 <= p2 /\ p2 <= 100.
Proof.
  intros K st1 st2 MIN MAX raw1 raw2 Hlt Hs1 Hs2 H1 H12 H2.
  assert (Hshow : forall st,
            fst (next_outcome st) = Good ->
            let raw := regs st (MSI_EC_CPU_REALTIME_FAN_SPEED_ADDRESS K) in
            MIN <= raw <= MAX ->
            fst (cpu_realtime_fan_speed_show K st) =
            Ok (line (digits (100 * (raw - MIN) / (MAX - MIN))))).
  { intros st Hs raw Hr. unfold cpu_realtime_fan_speed_show, bind, ret.
    rewrite (ec_read_served _ _ Hs). fold raw MIN MAX.
    destruct (Z.ltb_spec raw MIN); [lia|].
    destruct (Z.gtb_spec raw MAX); [lia|]. simpl.
    unfold fan_speed_percent. fold raw MIN MAX.
    rewrite Z.quot_div_nonneg by lia.
    rewrite fmt_d_0_nonneg by (apply Z.div_pos; lia).
    reflexivity. }
  exists (100 * (raw1 - MIN) / (MAX - MIN)), (100 * (raw2 - MIN) / (MAX - MIN)).
  split; [apply (Hshow st1 Hs1); fold raw1; lia|].
  split; [apply (Hshow st2 Hs2); fold raw2; lia|].
  split; [apply Z.div_pos; lia|].
  split; [apply Z.div_le_mono; lia|].
  apply Z.div_le_upper_bound; nia.
Qed.

Lemma X15_cpu_fan_speed_is_monotone_witness :
  exists p1 p2,
    fst (cpu_realtime_fan_speed_show sample_h (ec_all 30)) = Ok (line (digits p1)) /\
    fst (cpu_realtime_fan_speed_show sample_h (ec_all 31)) = Ok (line (digits p2)) /\
    0 <= p1 /\ p1 <= p2 /\ p2 <= 100.
Proof.
  apply (X15_cpu_fan_speed_is_monotone sample_h (ec_all 30) (ec_all 31));
    try reflexivity; simpl; lia.
Defined.

(** ** The firmware date, for every date *)

Lemma fmt_d_two_digits n : 0 <= n < 100 -> fmt_d 2 n = two_digits n.
Proof.
  intros Hn.
  assert (Hall : forallb (fun k => String.eqb (fmt_d 2 k) (two_digits k))
                         (upto (Z.to_nat 100)) = true)
    by (vm_compute; reflexivity).
  rewrite forallb_forall in Hall.
  apply String.eqb_eq. apply Hall. apply upto_In.
  rewrite Z2Nat.id by lia. exact Hn.
Qed.

Lemma fmt_d_four_digits n : 0 <= n < 10000 -> fmt_d 4 n = four_digits n.
Proof.
  intros Hn.
  assert (Hall : forallb (fun k => String.eqb (fmt_d 4 k) (four_digits k))
                         (upto (Z.to_nat 10000)) = true)
    by (vm_compute; reflexivity).
  rewrite forallb_forall in Hall.
  apply String.eqb_eq. apply Hall. apply upto_In.
  rewrite Z2Nat.id by lia. exact Hn.
Qed.

Ltac digit_cases a Ha :=
  assert (a = 0 \/ a = 1 \/ a = 2 \/ a = 3 \/ a = 4 \/
          a = 5 \/ a = 6 \/ a = 7 \/ a = 8 \/ a = 9) as Hcases by lia;
  clear Ha;
  repeat (destruct Hcases as [Hcases|Hcases]; [subst a; reflexivity|]);
  subst a; reflexivity.

Lemma parse_digits_step a w acc s :
  0 <= a <= 9 ->
  parse_digits (S w) acc (String (digit_char a) s) =
  parse_digits w (10 * acc + a) s.
Proof. intros Ha. digit_cases a Ha. Qed.

Lemma scan_d_step a w s :
  0 <= a <= 9 ->
  scan_d (S w) (String (digit_char a) s) = Some (parse_digits w a s).
Proof. intros Ha. digit_cases a Ha. Qed.

Lemma scan_two_digits n rest :
  0 <= n < 100 ->
  scan_d 2 (two_digits n ++ rest)%string = Some (n, rest).
Proof.
  intros Hn. unfold two_digits. cbn [String.append].
  assert (H1 : 0 <= n / 10 <= 9) by (Z.div_mod_to_equations; lia).
  assert (H2 : 0 <= n mod 10 <= 9) by (Z.div_mod_to_equations; lia).
  rewrite scan_d_step by exact H1.
  rewrite parse_digits_step by exact H2.
  cbn [parse_digits]. do 2 f_equal.
  Z.div_mod_to_equations. lia.
Qed.

Lemma scan_four_digits n rest :
  0 <= n < 10000 ->
  scan_d 4 (four_digits n ++ rest)%string = Some (n, rest).
Proof.
  intros Hn. unfold four_digits. cbn [String.append].
  assert (H1 : 0 <= n / 1000 <= 9) by (Z.div_mod_to_equations; lia).
  assert (H2 : 0 <= n / 100 mod 10 <= 9) by (Z.div_mod_to_equations; lia).
  assert (H3 : 0 <= n / 10 mod 10 <= 9) by (Z.div_mod_to_equations; lia).
  assert (H4 : 0 <= n mod 10 <= 9) by (Z.div_mod_to_equations; lia).
  rewrite scan_d_step by exact H1.
  rewrite parse_digits_step by exact H2.
  rewrite parse_digits_step by exact H3.
  rewrite parse_digits_step by exact H4.
  cbn [parse_digits]. do 2 f_equal.
  Z.div_mod_to_equations. lia.
Qed.

Lemma vsscanf_date m d y rest :
  0 <= m < 100 -> 0 <= d < 100 -> 0 <= y < 10000 ->
  vsscanf fmt_date (fmt_d 2 m ++ fmt_d 2 d ++ fmt_d 4 y ++ rest)%string
  = [m; d; y].
Proof.
  intros Hm Hd Hy.
  rewrite (fmt_d_two_digits m Hm), (fmt_d_two_digits d Hd),
    (fmt_d_four_digits y Hy).
  unfold fmt_date. cbn [vsscanf].
  rewrite (scan_two_digits m _ Hm).
  rewrite (scan_two_digits d _ Hd).
  rewrite (scan_four_digits y _ Hy). reflexivity.
Qed.

Lemma vsscanf_time h m s rest :
  0 <= h < 100 -> 0 <= m < 100 -> 0 <= s < 100 ->
  vsscanf fmt_time
    (fmt_d 2 h ++ ":" ++ fmt_d 2 m ++ ":" ++ fmt_d 2 s ++ rest)%string
  = [h; m; s].
Proof.
  intros Hh Hm Hs.
  rewrite (fmt_d_two_digits h Hh), (fmt_d_two_digits m Hm),
    (fmt_d_two_digits s Hs).
  unfold fmt_time. cbn [vsscanf].
  rewrite (scan_two_digits h _ Hh). cbn [String.append vsscanf].
  change (Ascii.eqb ":" ":") with true. cbv iota.
  rewrite (scan_two_digits m _ Hm). cbn [String.append vsscanf].
  change (Ascii.eqb ":" ":") with true. cbv iota.
  rewrite (scan_two_digits s _ Hs). reflexivity.
Qed.

(** X16: decoding undoes the firmware's fixed-width encoding for every
    date and time.  When the transport serves the reads and the text of the
    date registers starts with MM, DD, YYYY and that of the time registers
    with HH:MM:SS, each field in zero-padded decimal (whatever follows
    them), [fw_release_date_show] prints YYYY/MM/DD HH:MM:SS with those very
    fields, whatever the six variables held before. *)
Theorem X16_fw_release_date_for_every_date :
  forall (K : constants) (init : datetime) (st : EC)
         (y mo d h mi s : Z) (rest_date rest_time : string),
    0 <= y < 10000 -> 0 <= mo < 100 -> 0 <= d < 100 ->
    0 <= h < 100 -> 0 <= mi < 100 -> 0 <= s < 100 ->
    quiet st ->
    cstring (seq_regs (regs st) (MSI_EC_FW_DATE_ADDRESS K)
                      (MSI_EC_FW_DATE_LENGTH K))
    = (fmt_d 2 mo ++ fmt_d 2 d ++ fmt_d 4 y ++ rest_date)%string ->
    cstring (seq_regs (regs st) (MSI_EC_FW_TIME_ADDRESS K)
                      (MSI_EC_FW_TIME_LENGTH K))
    = (fmt_d 2 h ++ ":" ++ fmt_d 2 mi ++ ":" ++ fmt_d 2 s ++ rest_time)%string ->
    fst (fw_release_date_show K init st) =
    Ok (fmt_d 4 y ++ "/" ++ fmt_d 2 mo ++ "/" ++ fmt_d 2 d ++ " " ++
        fmt_d 2 h ++ ":" ++ fmt_d 2 mi ++ ":" ++ fmt_d 2 s ++ nl)%string.
Proof.
  intros K init st y mo d h mi s rest_date rest_time
    Hy Hmo Hd Hh Hmi Hs Hq Hdate Htime.
  rewrite (fw_release_date_show_quiet K init st Hq).
  rewrite Hdate, Htime.
  unfold scan_time, scan_date.
  rewrite (vsscanf_date mo d y rest_date Hmo Hd Hy).
  rewrite (vsscanf_time h mi s rest_time Hh Hmi Hs).
  reflexivity.
Qed.

Lemma X16_fw_release_date_for_every_date_witness :
  fst (fw_release_date_show sample_h zero_datetime ec_release_example) =
  Ok (line "2023/09/15 14:30:05").
Proof.
  apply (X16_fw_release_date_for_every_date sample_h zero_datetime
           ec_release_example 2023 9 15 14 30 5 "" "");
    try lia; try reflexivity.
  constructor.
Defined.

(** ** Partial updates and repeated writes *)

Lemma ec_write_bit_failed addr index set st :
  fst (ec_write_bit addr index set st) < 0 ->
  regs (snd (ec_write_bit addr index set st)) = regs st.
Proof.
  rewrite ec_write_bit_unfold. unfold ec_read, ec_write, next_outcome.
  destruct (script st) as [|[|e] os]; simpl; [lia| |reflexivity].
  destruct os as [|[|e] os]; simpl; [lia | lia | reflexivity].
Qed.

Lemma with_bit_idempotent index set data :
  0 <= index <= 7 ->
  with_bit index set (with_bit index set data) = with_bit index set data.
Proof.
  intros Hi. apply Z.bits_inj'. intros j Hj.
  destruct (Z.eq_dec j index) as [->|Hne].
  - rewrite !with_bit_same by exact Hi. reflexivity.
  - apply with_bit_other; [exact Hi | apply with_bit_range | exact Hne].
Qed.

(** X17: the two LED setters return 0 or a negative errno, never a count.
    When one returns 0 its LED bit is set exactly when [brightness] is not 0
    and no other register has changed; when it returns an errno no register
    has changed at all. *)
Theorem X17_led_setters :
  forall (H : mode_constants) (brightness : Z) (st : EC),
    0 <= MSI_EC_KBD_LED_MUTE_BIT H <= 7 ->
    0 <= MSI_EC_KBD_LED_MICMUTE_BIT H <= 7 ->
    let mute := mute_led_sysfs_set H brightness st in
    let mic := micmute_led_sysfs_set H brightness st in
    (fst mute = 0 \/ fst mute < 0) /\
    (fst mute = 0 ->
       is_bit_set (MSI_EC_KBD_LED_MUTE_BIT H)
                  (regs (snd mute) (MSI_EC_KBD_LED_MUTE_ADDRESS H))
       = negb (brightness =? 0) /\
       forall a, a <> MSI_EC_KBD_LED_MUTE_ADDRESS H ->
                 regs (snd mute) a = regs st a) /\
    (fst mute < 0 -> regs (snd mute) = regs st) /\
    (fst mic = 0 \/ fst mic < 0) /\
    (fst mic = 0 ->
       is_bit_set (MSI_EC_KBD_LED_MICMUTE_BIT H)
                  (regs (snd mic) (MSI_EC_KBD_LED_MICMUTE_ADDRESS H))
       = negb (brightness =? 0) /\
       forall a, a <> MSI_EC_KBD_LED_MICMUTE_ADDRESS H ->
                 regs (snd mic) a = regs st a) /\
    (fst mic < 0 -> regs (snd mic) = regs st).
Proof.
  intros H brightness st Hmute Hmic mute mic.
  assert (Hshape : forall addr bit,
            (result <- ec_write_bit addr bit (truthy brightness) ;;
             (if result <? 0 then ret result else ret 0)) st
            = ec_write_bit addr bit (truthy brightness) st).
  { intros addr bit. unfold bind, ret.
    pose proof (ec_write_bit_code addr bit (truthy brightness) st) as Hc.
    destruct (ec_write_bit addr bit (truthy brightness) st) as [r st1].
    simpl in Hc. destruct Hc as [-> | Hneg]; [reflexivity|].
    destruct (Z.ltb_spec r 0); [reflexivity | lia]. }
  assert (Hall : forall addr bit, 0 <= bit <= 7 ->
            let out := ec_write_bit addr bit (truthy brightness) st in
            (fst out = 0 \/ fst out < 0) /\
            (fst out = 0 ->
               is_bit_set bit (regs (snd out) addr) = negb (brightness =? 0) /\
               forall a, a <> addr -> regs (snd out) a = regs st a) /\
            (fst out < 0 -> regs (snd out) = regs st)).
  { intros addr bit Hbit out.
    split; [apply ec_write_bit_code|]. split.
    - intros H0.
      pose proof (ec_write_bit_ok addr bit (truthy brightness) st H0) as Hr.
      fold out in Hr. split.
      + rewrite Hr, Z.eqb_refl, is_bit_set_testbit.
        apply with_bit_same. exact Hbit.
      + intros a Ha. apply ec_write_bit_frame. exact Ha.
    - apply ec_write_bit_failed. }
  unfold mute, mic, mute_led_sysfs_set, micmute_led_sysfs_set.
  rewrite !Hshape.
  destruct (Hall (MSI_EC_KBD_LED_MUTE_ADDRESS H) _ Hmute) as (A1 & A2 & A3).
  destruct (Hall (MSI_EC_KBD_LED_MICMUTE_ADDRESS H) _ Hmic) as (B1 & B2 & B3).
  repeat (match goal with |- _ /\ _ => split end); assumption.
Qed.

Lemma X17_led_setters_witness :
  let mute := mute_led_sysfs_set sample_modes 1 (ec_all 0) in
  fst mute = 0 /\ is_bit_set 2 (regs (snd mute) 44) = true.
Proof.
  intros mute.
  destruct (X17_led_setters sample_modes 1 (ec_all 0)) as (_ & Hon & _);
    try (simpl; lia).
  assert (H0 : fst mute = 0) by reflexivity.
  split; [exact H0|]. exact (proj1 (Hon H0)).
Defined.

(** X18: [fan_mode_store] is not all-or-nothing.  When its first
    read-modify-write succeeds and its second fails, it returns the second's
    errno, and the fan-mode register is left with the basic flag already
    set to the request and every other bit as before: the advanced and
    silent flags have not been brought in line. *)
Theorem X18_fan_mode_store_partial_update :
  forall (K : constants) (buf : string) (count : Z) (st : EC),
    let addr := MSI_EC_FAN_MODE_ADDRESS K in
    let B := MSI_EC_FAN_MODE_BASIC_BIT K in
    let r1 := ec_write_bit addr B (streq buf "basic") st in
    let r2 := ec_write_bit addr (MSI_EC_FAN_MODE_ADVANCED_BIT K)
                           (streq buf "advanced") (snd r1) in
    let out := fan_mode_store K buf count st in
    fan_mode_valid buf = true ->
    fst r1 = 0 -> fst r2 < 0 ->
    fst out = fst r2 /\
    regs (snd out) addr = with_bit B (streq buf "basic") (regs st addr) /\
    (forall a, a <> addr -> regs (snd out) a = regs st a) /\
    (0 <= B <= 7 -> 0 <= regs st addr < 256 ->
     is_bit_set B (regs (snd out) addr) = streq buf "basic" /\
     forall j, j <> B ->
       Z.testbit (regs (snd out) addr) j = Z.testbit (regs st addr) j).
Proof.
  intros K buf count st addr B r1 r2 out Hvalid H1 H2.
  assert (Hout : out = r2).
  { unfold out. rewrite (fan_mode_store_unfold K buf count st Hvalid).
    cbv zeta. fold addr B r1. rewrite H1. simpl. fold r2.
    destruct (Z.ltb_spec (fst r2) 0); [reflexivity | lia]. }
  pose proof (ec_write_bit_ok addr B (streq buf "basic") st H1) as R1.
  fold r1 in R1.
  pose proof (ec_write_bit_failed addr (MSI_EC_FAN_MODE_ADVANCED_BIT K)
                (streq buf "advanced") (snd r1) H2) as R2.
  fold r2 in R2.
  assert (Hat : regs (snd out) addr
                = with_bit B (streq buf "basic") (regs st addr)).
  { rewrite Hout, R2, R1, Z.eqb_refl. reflexivity. }
  split; [rewrite Hout; reflexivity|]. split; [exact Hat|]. split.
  - intros a Ha. rewrite Hout, R2, R1.
    destruct (Z.eqb_spec a addr); [contradiction | reflexivity].
  - intros HB Hbyte. rewrite Hat. split.
    + rewrite is_bit_set_testbit. apply with_bit_same. exact HB.
    + intros j Hj. apply with_bit_other; assumption.
Qed.

Lemma X18_fan_mode_store_partial_update_witness :
  let st := scripted (ec_all 16) [Good; Good; Bad 5] in
  let out := fan_mode_store sample_h "basic" 6 st in
  fst out = -5 /\
  regs (snd out) 212 = 80 /\
  fst (fan_mode_show sample_h (snd out)) = Ok (line "silent").
Proof.
  intros st out.
  destruct (X18_fan_mode_store_partial_update sample_h "basic" 6 st)
    as (Hret & Hreg & _); try reflexivity.
  split; [refine (eq_trans Hret _); reflexivity|].
  split; [refine (eq_trans Hreg _); reflexivity | reflexivity].
Defined.

(** X19: [ec_write_bit] is idempotent: on a serving transport, writing a
    bit 0..7 a second time with the same value succeeds again and leaves
    every register as the first write left it. *)
Theorem X19_ec_write_bit_idempotent :
  forall (addr index : Z) (set : bool) (st : EC),
    0 <= index <= 7 ->
    quiet st ->
    let once := ec_write_bit addr index set st in
    let twice := ec_write_bit addr index set (snd once) in
    fst once = 0 /\ fst twice = 0 /\
    forall a, regs (snd twice) a = regs (snd once) a.
Proof.
  intros addr index set st Hi Hq once twice.
  destruct (ec_write_bit_quiet addr index set st Hq) as (E1 & R1 & _ & Q1).
  fold once in E1, R1, Q1.
  destruct (ec_write_bit_quiet addr index set (snd once) Q1)
    as (E2 & R2 & _ & _).
  fold twice in E2, R2.
  split; [exact E1|]. split; [exact E2|].
  intros a. rewrite R2, R1. unfold poke.
  destruct (Z.eqb_spec a addr) as [->|Hne]; [|reflexivity].
  rewrite Z.eqb_refl. apply with_bit_idempotent. exact Hi.
Qed.

Lemma X19_ec_write_bit_idempotent_witness :
  let once := ec_write_bit 212 4 true (ec_all 7) in
  regs (snd (ec_write_bit 212 4 true (snd once))) 212 = 23.
Proof.
  intros once.
  destruct (X19_ec_write_bit_idempotent 212 4 true (ec_all 7))
    as (_ & _ & Hsame); [lia | constructor |].
  refine (eq_trans (Hsame 212) _). reflexivity.
Defined.
